(** * The event indexer of the Sui NFT marketplace backend

    A shallow embedding of [backend/src/services/indexer.service.ts],
    [backend/src/db/database.ts], [backend/src/config],
    [backend/src/services/sui.service.ts] (the constructor, the event
    queries and the move calls) and the handlers of
    [backend/src/controllers/marketplace.controller.ts].

    The TypeScript code mutates a SQLite database, reads the wall clock, calls
    a remote node and writes to the console.  All of this is threaded through
    one state-and-exception monad [M]: a thrown JavaScript exception is the
    [Throw] result, and the writes made before the throw stay in the state,
    as they do in the program (no statement of the repository opens a
    transaction). *)

From Stdlib Require Import String Ascii List ZArith Bool Lia DecimalString Sorted Permutation.
Import ListNotations.
Local Open Scope string_scope.
Local Open Scope list_scope.

(** ** JavaScript values

    Event payloads come from the node as JSON in which object ids, addresses,
    Move strings and [u64] amounts are all JSON strings; a property that is
    absent reads as [undefined].  These three shapes are the values the
    indexer handles. *)

Inductive JsVal : Type :=
| JUndefined
| JNull
| JString (s : string).

(** Truthiness, as used by [a || b] and [if (a)]: the empty string is falsy. *)
Definition truthy (v : JsVal) : bool :=
  match v with
  | JString s => negb (s =? "")
  | _ => false
  end.

(** [a || b] *)
Definition js_or (a b : JsVal) : JsVal := if truthy a then a else b.

(** [String(v)], the conversion made by a template literal. *)
Definition js_string (v : JsVal) : string :=
  match v with
  | JUndefined => "undefined"
  | JNull => "null"
  | JString s => s
  end.

(** A JavaScript number that is an integer, or [NaN]. *)
Definition JsNum : Type := option Z.

Definition NaN : JsNum := None.

Definition num_truthy (n : JsNum) : bool :=
  match n with
  | Some z => negb (z =? 0)%Z
  | None => false
  end.

Definition z_string (z : Z) : string := NilZero.string_of_int (Z.to_int z).

Definition num_string (n : JsNum) : string :=
  match n with
  | Some z => z_string z
  | None => "NaN"
  end.

(** *** [parseInt] with the radix omitted

    Leading white space is skipped, an optional sign is read, a [0x] prefix
    selects radix 16, and digits are read up to the first character that is
    not one; no digit at all gives [NaN].  (Integers are kept exact; the code
    only parses millisecond timestamps and the poll interval.) *)

Definition is_space (c : ascii) : bool :=
  let n := nat_of_ascii c in
  Nat.eqb n 32 || (Nat.leb 9 n && Nat.leb n 13).

Fixpoint skip_spaces (s : string) : string :=
  match s with
  | String c r => if is_space c then skip_spaces r else s
  | EmptyString => EmptyString
  end.

Definition digit_value (c : ascii) : option Z :=
  let n := nat_of_ascii c in
  if Nat.leb 48 n && Nat.leb n 57 then Some (Z.of_nat (n - 48))
  else if Nat.leb 97 n && Nat.leb n 122 then Some (Z.of_nat (n - 87))
  else if Nat.leb 65 n && Nat.leb n 90 then Some (Z.of_nat (n - 55))
  else None.

Fixpoint read_digits (radix : Z) (s : string) (acc : JsNum) : JsNum :=
  match s with
  | String c r =>
      match digit_value c with
      | Some d =>
          if (d <? radix)%Z
          then read_digits radix r
                 (Some (radix * match acc with Some a => a | None => 0 end + d)%Z)
          else acc
      | None => acc
      end
  | EmptyString => acc
  end.

Definition strip_sign (s : string) : bool * string :=
  match s with
  | String c r =>
      if Ascii.eqb c "-" then (true, r)
      else if Ascii.eqb c "+" then (false, r)
      else (false, s)
  | EmptyString => (false, s)
  end.

Definition strip_radix (s : string) : Z * string :=
  match s with
  | String c (String x r) =>
      if Ascii.eqb c "0" && (Ascii.eqb x "x" || Ascii.eqb x "X")
      then (16%Z, r) else (10%Z, s)
  | _ => (10%Z, s)
  end.

Definition parseInt_string (s : string) : JsNum :=
  let (neg, s1) := strip_sign (skip_spaces s) in
  let (radix, s2) := strip_radix s1 in
  match read_digits radix s2 None with
  | Some z => Some (if neg then (- z)%Z else z)
  | None => NaN
  end.

Definition parseInt (v : JsVal) : JsNum := parseInt_string (js_string v).

(** *** [s.split('::').pop()]

    [split] scans from the left and cuts at every occurrence of the
    separator it meets; [pop] takes the last piece, which always exists. *)

Fixpoint split_colons (s cur : string) : list string :=
  match s with
  | EmptyString => [cur]
  | String c r =>
      match r with
      | String c2 r2 =>
          if Ascii.eqb c ":" && Ascii.eqb c2 ":"
          then cur :: split_colons r2 ""
          else split_colons r (cur ++ String c "")
      | EmptyString => split_colons r (cur ++ String c "")
      end
  end.

Definition split_pop (s : string) : string := last (split_colons s "") "".

(** ** Exceptions and results *)

Inductive Exn : Type :=
| TypeError (msg : string)
| SqliteError (msg : string)
| RpcError (msg : string)
| Error (msg : string).

Inductive Res (A : Type) : Type :=
| Ok (a : A)
| Throw (e : Exn).

Arguments Ok {A} a.
Arguments Throw {A} e.

(** ** The tables of [database.ts]

    Each table is the list of its rows in insertion order.  A column declared
    [NOT NULL] holds a value, any other column an [option].  SQLite admits
    [NULL] in a [TEXT PRIMARY KEY] column, and two [NULL] keys never
    conflict, so the two key columns are options as well.  The surrogate key
    [transactions.id] is assigned by the engine and read by no statement of
    the repository; the position of a row in the list stands for it. *)

Module Nft.
Record t : Type := mk {
  id : option string;
  name : string;
  description : option string;
  image_url : option string;
  creator : string;
  owner : string;
  created_at : Z;
  updated_at : option Z
}.
End Nft.

Module Listing.
Record t : Type := mk {
  nft_id : option string;
  seller : string;
  price : string;
  status : string;
  listed_at : Z;
  updated_at : option Z
}.
End Listing.

Module Tx.
Record t : Type := mk {
  tx_digest : string;
  event_type : string;
  nft_id : option string;
  from_address : option string;
  to_address : option string;
  price : option string;
  timestamp : Z
}.
End Tx.

Module IndexerState.
Record t : Type := mk {
  last_checkpoint : option string;
  last_event_seq : option string;
  updated_at : Z
}.
End IndexerState.

Record DB : Type := mkDB {
  nfts : list Nft.t;
  listings : list Listing.t;
  transactions : list Tx.t;
  indexer_state : option IndexerState.t
}.

Definition empty_db : DB := mkDB [] [] [] None.

Definition set_nfts (d : DB) (l : list Nft.t) : DB :=
  mkDB l (listings d) (transactions d) (indexer_state d).

Definition set_listings (d : DB) (l : list Listing.t) : DB :=
  mkDB (nfts d) l (transactions d) (indexer_state d).

Definition set_transactions (d : DB) (l : list Tx.t) : DB :=
  mkDB (nfts d) (listings d) l (indexer_state d).

Definition set_indexer_state (d : DB) (s : option IndexerState.t) : DB :=
  mkDB (nfts d) (listings d) (transactions d) s.

(** [column = ?] with a bound parameter: never true when either side is
    [NULL]. *)
Definition sql_eq (a b : option string) : bool :=
  match a, b with
  | Some x, Some y => x =? y
  | _, _ => false
  end.

(** ** The objects the indexer receives *)

Module Payload.
(** The properties of [event.parsedJson] that the indexer reads. *)
Record t : Type := mk {
  nft_id : JsVal;
  creator : JsVal;
  name : JsVal;
  seller : JsVal;
  price : JsVal;
  buyer : JsVal
}.
End Payload.

Module Event.
(** [parsedJson] is [None] when the property is [undefined] or [null];
    [txDigest] is [event.id.txDigest]. *)
Record t : Type := mk {
  type : string;
  parsedJson : option Payload.t;
  sender : JsVal;
  txDigest : JsVal;
  timestampMs : JsVal
}.
End Event.

(** What [client.getObject] resolves to, as far as [handleNFTMinted] looks:
    [response.data?.content], which is absent, a Move object with [fields],
    or a package (which has no [fields]). *)
Record NftFields : Type := mkFields {
  f_name : JsVal;
  f_description : JsVal;
  f_url : JsVal
}.

Inductive Content : Type :=
| MoveObject (fields : NftFields)
| MovePackage.

Record ObjectResponse : Type := mkResponse {
  data_content : option Content
}.

(** ** The world outside the program

    Every reading of the clock and every call to the node is an interaction
    with the outside.  The outside is a family of answers indexed by the
    number of interactions made so far ([ticks]), so that nothing is assumed
    about it: the clock may stand still or jump, the node may answer one call
    and reject the next.

    [foreign_keys] says whether the SQLite build enforces the
    [FOREIGN KEY (nft_id) REFERENCES nfts(id)] clause of [listings] (a
    compile-time default of the engine, not set by the repository).
    [stop_requested] says whether the host calls [stop()] while the loop is
    suspended in its sleep. *)

Record Env : Type := mkEnv {
  now : nat -> Z;
  getObject : nat -> JsVal -> option ObjectResponse;
  queryAllEvents : nat -> option (list Event.t);
  foreign_keys : bool;
  stop_requested : nat -> bool
}.

(** What an observer sees of a run, oldest first. *)
Inductive Obs : Type :=
| ConsoleLog (line : string)
| ConsoleError (line : string)
| FetchEvents
| Sleep (ms : JsNum).

Record World : Type := mkWorld {
  db : DB;
  isRunning : bool;
  ticks : nat;
  trace : list Obs
}.

Definition set_db (w : World) (d : DB) : World :=
  mkWorld d (isRunning w) (ticks w) (trace w).

Definition set_running (w : World) (b : bool) : World :=
  mkWorld (db w) b (ticks w) (trace w).

Definition tick (w : World) : World :=
  mkWorld (db w) (isRunning w) (S (ticks w)) (trace w).

Definition observe (w : World) (o : Obs) : World :=
  mkWorld (db w) (isRunning w) (ticks w) (trace w ++ [o]).

(** ** The monad *)

Definition M (A : Type) : Type := World -> Res A * World.

Definition ret {A : Type} (a : A) : M A := fun w => (Ok a, w).

Definition bind {A B : Type} (m : M A) (k : A -> M B) : M B :=
  fun w =>
    match m w with
    | (Ok a, w') => k a w'
    | (Throw e, w') => (Throw e, w')
    end.

Definition throw {A : Type} (e : Exn) : M A := fun w => (Throw e, w).

(** [try { m } catch (error) { h error }] *)
Definition try_catch {A : Type} (m : M A) (h : Exn -> M A) : M A :=
  fun w =>
    match m w with
    | (Ok a, w') => (Ok a, w')
    | (Throw e, w') => h e w'
    end.

Declare Scope m_scope.
Delimit Scope m_scope with M.
Notation "x <- m ;; k" := (bind m (fun x => k))
  (at level 100, m at next level, right associativity) : m_scope.
Notation "m ;; k" := (bind m (fun _ => k))
  (at level 100, right associativity) : m_scope.
Local Open Scope m_scope.

Definition get_db : M DB := fun w => (Ok (db w), w).
Definition modify_db (f : DB -> DB) : M unit :=
  fun w => (Ok tt, set_db w (f (db w))).
Definition emit (o : Obs) : M unit := fun w => (Ok tt, observe w o).
Definition console_log (line : string) : M unit := emit (ConsoleLog line).
Definition console_error (line : string) : M unit := emit (ConsoleError line).

Definition run {A : Type} (m : M A) (w : World) : World := snd (m w).
Definition result {A : Type} (m : M A) (w : World) : Res A := fst (m w).

(** ** Arguments of the store primitives *)

Module NftArg.
(** The object handed to [saveNFT]. *)
Record t : Type := mk {
  id : JsVal;
  name : JsVal;
  description : JsVal;
  image_url : JsVal;
  creator : JsVal;
  owner : JsVal;
  created_at : JsNum
}.
End NftArg.

Module ListingArg.
(** The object handed to [saveListing]. *)
Record t : Type := mk {
  nft_id : JsVal;
  seller : JsVal;
  price : JsVal;
  status : JsVal;
  listed_at : JsNum
}.
End ListingArg.

Module TxArg.
(** The object handed to [saveTransaction]. *)
Record t : Type := mk {
  tx_digest : JsVal;
  event_type : JsVal;
  nft_id : JsVal;
  from_address : JsVal;
  to_address : JsVal;
  price : JsVal;
  timestamp : JsNum
}.
End TxArg.

Module ListingView.
(** A row of [getListings]: [l.*, n.name, n.description, n.image_url,
    n.creator]. *)
Record t : Type := mk {
  nft_id : option string;
  seller : string;
  price : string;
  status : string;
  listed_at : Z;
  updated_at : option Z;
  name : string;
  description : option string;
  image_url : option string;
  creator : string
}.
End ListingView.

(** The fields of the [IndexerService] object that its constructor fixes;
    [isRunning], the one it mutates, lives in the [World]. *)
Record IndexerService : Type := mkIndexer {
  pollInterval : JsNum;
  packageId : JsVal
}.

Section Program.

Variable env : Env.

(** [Date.now()] *)
Definition Date_now : M Z := fun w => (Ok (now env (ticks w)), tick w).

(** [n || Date.now()]: the clock is read only when [n] is [0] or [NaN]. *)
Definition num_or_now (n : JsNum) : M Z :=
  match n with
  | Some z => if (z =? 0)%Z then Date_now else ret z
  | None => Date_now
  end.

(** ** [database.ts] *)

(** Binding a statement parameter ([better-sqlite3]): [null] becomes [NULL],
    a string becomes text, [undefined] is refused with a [TypeError] before
    the statement runs. *)
Definition bind_param (v : JsVal) : M (option string) :=
  match v with
  | JUndefined =>
      throw (TypeError "SQLite3 can only bind numbers, strings, bigints, buffers, and null")
  | JNull => ret None
  | JString s => ret (Some s)
  end.

Definition not_null (column : string) (v : option string) : M string :=
  match v with
  | Some s => ret s
  | None => throw (SqliteError ("NOT NULL constraint failed: " ++ column))
  end.

(** [initTables]: the four [CREATE TABLE IF NOT EXISTS] leave existing
    tables alone; the row of [indexer_state] is inserted unless it is
    there. *)
Definition initTables : M unit :=
  t <- Date_now ;;
  modify_db
    (fun d =>
       match indexer_state d with
       | Some _ => d
       | None => set_indexer_state d (Some (IndexerState.mk (Some "0") (Some "0") t))
       end) ;;
  console_log "✅ Database tables initialized".

(** [INSERT OR REPLACE INTO nfts]: a row with the same (non-null) key is
    deleted and the new row is appended. *)
Definition replace_nft (r : Nft.t) (l : list Nft.t) : list Nft.t :=
  filter (fun x => negb (sql_eq (Nft.id x) (Nft.id r))) l ++ [r].

Definition saveNFT (nft : NftArg.t) : M unit :=
  created_at <- num_or_now (NftArg.created_at nft) ;;
  updated_at <- Date_now ;;
  id <- bind_param (NftArg.id nft) ;;
  name <- bind_param (NftArg.name nft) ;;
  description <- bind_param (NftArg.description nft) ;;
  image_url <- bind_param (NftArg.image_url nft) ;;
  creator <- bind_param (NftArg.creator nft) ;;
  owner <- bind_param (NftArg.owner nft) ;;
  name <- not_null "nfts.name" name ;;
  creator <- not_null "nfts.creator" creator ;;
  owner <- not_null "nfts.owner" owner ;;
  modify_db
    (fun d =>
       set_nfts d
         (replace_nft
            (Nft.mk id name description image_url creator owner
                    created_at (Some updated_at))
            (nfts d))).

(** [SELECT * FROM nfts WHERE id = ?] with [.get]: the first row, if any. *)
Definition getNFT (id : string) (d : DB) : option Nft.t :=
  find (fun r => sql_eq (Nft.id r) (Some id)) (nfts d).

Definition getNFTsByOwner (owner : string) (d : DB) : list Nft.t :=
  filter (fun r => Nft.owner r =? owner) (nfts d).

Definition set_owner (i : option string) (o : string) (t : Z) (r : Nft.t) : Nft.t :=
  if sql_eq (Nft.id r) i
  then Nft.mk (Nft.id r) (Nft.name r) (Nft.description r) (Nft.image_url r)
              (Nft.creator r) o (Nft.created_at r) (Some t)
  else r.

(** [UPDATE nfts SET owner = ?, updated_at = ? WHERE id = ?]: a [NULL] owner
    violates [NOT NULL] as soon as one row matches; with no matching row the
    statement changes nothing and raises nothing. *)
Definition updateNFTOwner (nftId newOwner : JsVal) : M unit :=
  t <- Date_now ;;
  o <- bind_param newOwner ;;
  i <- bind_param nftId ;;
  match o with
  | Some o' => modify_db (fun d => set_nfts d (map (set_owner i o' t) (nfts d)))
  | None =>
      d <- get_db ;;
      if existsb (fun r => sql_eq (Nft.id r) i) (nfts d)
      then throw (SqliteError "NOT NULL constraint failed: nfts.owner")
      else ret tt
  end.

Definition replace_listing (r : Listing.t) (l : list Listing.t) : list Listing.t :=
  filter (fun x => negb (sql_eq (Listing.nft_id x) (Listing.nft_id r))) l ++ [r].

(** The foreign key of [listings]: a non-null [nft_id] must be the [id] of a
    row of [nfts], when the engine enforces the clause. *)
Definition fk_violated (nft_id : option string) (d : DB) : bool :=
  foreign_keys env &&
  match nft_id with
  | Some _ => negb (existsb (fun n => sql_eq (Nft.id n) nft_id) (nfts d))
  | None => false
  end.

Definition saveListing (listing : ListingArg.t) : M unit :=
  listed_at <- num_or_now (ListingArg.listed_at listing) ;;
  updated_at <- Date_now ;;
  nft_id <- bind_param (ListingArg.nft_id listing) ;;
  seller <- bind_param (ListingArg.seller listing) ;;
  price <- bind_param (ListingArg.price listing) ;;
  status <- bind_param (js_or (ListingArg.status listing) (JString "active")) ;;
  seller <- not_null "listings.seller" seller ;;
  price <- not_null "listings.price" price ;;
  status <- not_null "listings.status" status ;;
  d <- get_db ;;
  if fk_violated nft_id d
  then throw (SqliteError "FOREIGN KEY constraint failed")
  else modify_db
         (fun d =>
            set_listings d
              (replace_listing
                 (Listing.mk nft_id seller price status listed_at (Some updated_at))
                 (listings d))).

Definition getListing (nftId : string) (d : DB) : option Listing.t :=
  find (fun r => sql_eq (Listing.nft_id r) (Some nftId)) (listings d).

Definition set_status (i : option string) (s : string) (t : Z) (r : Listing.t) : Listing.t :=
  if sql_eq (Listing.nft_id r) i
  then Listing.mk (Listing.nft_id r) (Listing.seller r) (Listing.price r) s
                  (Listing.listed_at r) (Some t)
  else r.

(** [UPDATE listings SET status = ?, updated_at = ? WHERE nft_id = ?] *)
Definition updateListingStatus (nftId status : JsVal) : M unit :=
  t <- Date_now ;;
  s <- bind_param status ;;
  i <- bind_param nftId ;;
  match s with
  | Some s' => modify_db (fun d => set_listings d (map (set_status i s' t) (listings d)))
  | None =>
      d <- get_db ;;
      if existsb (fun r => sql_eq (Listing.nft_id r) i) (listings d)
      then throw (SqliteError "NOT NULL constraint failed: listings.status")
      else ret tt
  end.

(** [INSERT OR IGNORE INTO transactions]: a row that would violate a
    constraint ([NOT NULL] on [tx_digest] or [event_type], [UNIQUE] on
    [tx_digest]) is skipped and nothing is raised. *)
Definition has_digest (digest : string) (l : list Tx.t) : bool :=
  existsb (fun r => Tx.tx_digest r =? digest) l.

Definition insert_or_ignore_tx
  (tx_digest event_type nft_id from_address to_address price : option string)
  (timestamp : Z) (l : list Tx.t) : list Tx.t :=
  match tx_digest, event_type with
  | Some dg, Some ty =>
      if has_digest dg l then l
      else l ++ [Tx.mk dg ty nft_id from_address to_address price timestamp]
  | _, _ => l
  end.

Definition saveTransaction (tx : TxArg.t) : M unit :=
  timestamp <- num_or_now (TxArg.timestamp tx) ;;
  tx_digest <- bind_param (TxArg.tx_digest tx) ;;
  event_type <- bind_param (TxArg.event_type tx) ;;
  nft_id <- bind_param (js_or (TxArg.nft_id tx) JNull) ;;
  from_address <- bind_param (js_or (TxArg.from_address tx) JNull) ;;
  to_address <- bind_param (js_or (TxArg.to_address tx) JNull) ;;
  price <- bind_param (js_or (TxArg.price tx) JNull) ;;
  modify_db
    (fun d =>
       set_transactions d
         (insert_or_ignore_tx tx_digest event_type nft_id from_address
            to_address price timestamp (transactions d))).

(** [getListings]: the inner join of [listings] with [nfts] on
    [l.nft_id = n.id], filtered on the status when one is given (a falsy
    [status] selects the query without the [WHERE]), ordered by [listed_at]
    descending.  Rows with equal [listed_at] keep their join order. *)
Definition view (l : Listing.t) (n : Nft.t) : ListingView.t :=
  ListingView.mk (Listing.nft_id l) (Listing.seller l) (Listing.price l)
    (Listing.status l) (Listing.listed_at l) (Listing.updated_at l)
    (Nft.name n) (Nft.description n) (Nft.image_url n) (Nft.creator n).

Definition join_listings (d : DB) : list ListingView.t :=
  flat_map
    (fun l =>
       map (view l)
         (filter (fun n => sql_eq (Listing.nft_id l) (Nft.id n)) (nfts d)))
    (listings d).

Fixpoint insert_desc (r : ListingView.t) (l : list ListingView.t) : list ListingView.t :=
  match l with
  | [] => [r]
  | x :: xs =>
      if (ListingView.listed_at r <? ListingView.listed_at x)%Z
      then x :: insert_desc r xs
      else r :: l
  end.

Definition order_by_listed_at_desc (l : list ListingView.t) : list ListingView.t :=
  fold_right insert_desc [] l.

Definition getListings (status : JsVal) (d : DB) : list ListingView.t :=
  if truthy status
  then order_by_listed_at_desc
         (filter (fun r => sql_eq (Some (ListingView.status r))
                             (match status with JString s => Some s | _ => None end))
            (join_listings d))
  else order_by_listed_at_desc (join_listings d).

(** ** [indexer.service.ts] *)

(** [suiService.getNFTObject(nft_id)]: one call to the node, which answers
    or rejects. *)
Definition getNFTObject (nftId : JsVal) : M ObjectResponse :=
  fun w =>
    match getObject env (ticks w) nftId with
    | Some r => (Ok r, tick w)
    | None => (Throw (RpcError "getObject"), tick w)
    end.

(** [suiService.getAllMarketplaceEvents()] as the indexer sees it: the
    merged, sorted list of events, or a rejection. *)
Definition getAllMarketplaceEvents : M (list Event.t) :=
  fun w =>
    match queryAllEvents env (ticks w) with
    | Some l => (Ok l, tick (observe w FetchEvents))
    | None => (Throw (RpcError "queryEvents"), tick (observe w FetchEvents))
    end.

(** Destructuring [event.parsedJson], or reading a property of it, throws a
    [TypeError] when it is [undefined] or [null]. *)
Definition payload_of (event : Event.t) : M Payload.t :=
  match Event.parsedJson event with
  | Some p => ret p
  | None => throw (TypeError "Cannot read properties of undefined")
  end.

(** [content && 'fields' in content] *)
Definition content_fields (r : ObjectResponse) : option NftFields :=
  match data_content r with
  | Some (MoveObject fields) => Some fields
  | _ => None
  end.

Definition handleNFTMinted (event : Event.t) : M unit :=
  p <- payload_of event ;;
  let nft_id := Payload.nft_id p in
  let creator := Payload.creator p in
  let name := Payload.name p in
  try_catch
    (nftObject <- getNFTObject nft_id ;;
     match content_fields nftObject with
     | Some fields =>
         saveNFT (NftArg.mk nft_id
                    (js_or (f_name fields) name)
                    (js_or (f_description fields) (JString ""))
                    (js_or (f_url fields) (JString ""))
                    creator creator
                    (parseInt (Event.timestampMs event))) ;;
         console_log ("NFT minted: " ++ js_string (f_name fields))
     | None => ret tt
     end)
    (fun error =>
       console_error "Error fetching NFT object:" ;;
       saveNFT (NftArg.mk nft_id name (JString "") (JString "")
                  creator creator
                  (parseInt (Event.timestampMs event)))).

(** [price.toString()] *)
Definition toString (v : JsVal) : M JsVal :=
  match v with
  | JString s => ret (JString s)
  | _ => throw (TypeError "Cannot read properties of undefined (reading 'toString')")
  end.

Definition handleNFTListed (event : Event.t) : M unit :=
  p <- payload_of event ;;
  let nft_id := Payload.nft_id p in
  let seller := Payload.seller p in
  let price := Payload.price p in
  price_text <- toString price ;;
  saveListing (ListingArg.mk nft_id seller price_text (JString "active")
                 (parseInt (Event.timestampMs event))) ;;
  console_log ("NFT listed: " ++ js_string nft_id ++ " for " ++ js_string price).

Definition handleNFTPurchased (event : Event.t) : M unit :=
  p <- payload_of event ;;
  let nft_id := Payload.nft_id p in
  let buyer := Payload.buyer p in
  updateListingStatus nft_id (JString "sold") ;;
  updateNFTOwner nft_id buyer ;;
  console_log ("NFT purchased: " ++ js_string nft_id ++ " by " ++ js_string buyer).

Definition handleNFTDelisted (event : Event.t) : M unit :=
  p <- payload_of event ;;
  let nft_id := Payload.nft_id p in
  updateListingStatus nft_id (JString "delisted") ;;
  console_log ("NFT delisted: " ++ js_string nft_id).

Definition eventTypeOf (event : Event.t) : string := split_pop (Event.type event).

(** The [switch (eventType)] of [processEvent]. *)
Definition dispatch (eventType : string) (event : Event.t) : M unit :=
  if eventType =? "NFTMinted" then handleNFTMinted event
  else if eventType =? "NFTListed" then handleNFTListed event
  else if eventType =? "NFTPurchased" then handleNFTPurchased event
  else if eventType =? "NFTDelisted" then handleNFTDelisted event
  else console_log ("Unknown event type: " ++ eventType).

(** The object literal built for [db.saveTransaction]. *)
Definition transaction_of (eventType : string) (event : Event.t) : M TxArg.t :=
  p <- payload_of event ;;
  ret (TxArg.mk (Event.txDigest event)
         (JString eventType)
         (js_or (Payload.nft_id p) JNull)
         (Event.sender event)
         (js_or (js_or (Payload.buyer p) (Payload.seller p)) JNull)
         (js_or (Payload.price p) JNull)
         (parseInt (Event.timestampMs event))).

Definition processEvent (event : Event.t) : M unit :=
  let eventType := eventTypeOf event in
  console_log ("Processing " ++ eventType ++ ":") ;;
  try_catch
    (dispatch eventType event ;;
     tx <- transaction_of eventType event ;;
     saveTransaction tx)
    (fun error => console_error ("Error processing " ++ eventType ++ ":")).

(** [for (const event of events) await this.processEvent(event)] *)
Fixpoint processEvents (events : list Event.t) : M unit :=
  match events with
  | [] => ret tt
  | event :: rest => processEvent event ;; processEvents rest
  end.

Definition length_string (events : list Event.t) : string :=
  z_string (Z.of_nat (List.length events)).

Definition indexEvents : M unit :=
  try_catch
    (events <- getAllMarketplaceEvents ;;
     match events with
     | [] => ret tt
     | _ :: _ =>
         console_log ("Processing " ++ length_string events ++ " events...") ;;
         processEvents events ;;
         console_log ("Indexed " ++ length_string events ++ " events")
     end)
    (fun error => console_error "Error indexing events:").

(** [sleep(ms)]: the loop is suspended; the host may call [stop()]
    meanwhile. *)
Definition stop : M unit :=
  console_log "Stopping indexer..." ;;
  fun w => (Ok tt, set_running w false).

Definition sleep (ms : JsNum) : M unit :=
  emit (Sleep ms) ;;
  fun w =>
    if stop_requested env (ticks w) then stop (tick w) else (Ok tt, tick w).

(** One turn of the [while] of [poll]. *)
Definition poll_cycle (this : IndexerService) : M unit :=
  try_catch indexEvents (fun error => console_error "Indexer error:") ;;
  sleep (pollInterval this).

(** [poll]: the loop, unrolled at most [fuel] times.  The result says whether
    the loop has ended ([true]) or would go on ([false]). *)
Fixpoint poll (this : IndexerService) (fuel : nat) : M bool :=
  match fuel with
  | O => fun w => (Ok (negb (isRunning w)), w)
  | S fuel' =>
      fun w =>
        if isRunning w
        then (poll_cycle this ;; poll this fuel') w
        else (Ok true, w)
  end.


End Program.

(** ** Configuration and start-up ([config], [sui.service.ts], [index.ts]) *)

(** [process.env], after [dotenv.config()] has merged the [.env] file. *)
Definition ProcessEnv : Type := string -> option string.

(** [process.env.KEY || fallback] *)
Definition env_or (penv : ProcessEnv) (key fallback : string) : string :=
  match penv key with
  | Some s => if s =? "" then fallback else s
  | None => fallback
  end.

(** [process.env.KEY] as a value *)
Definition env_val (penv : ProcessEnv) (key : string) : JsVal :=
  match penv key with
  | Some s => JString s
  | None => JUndefined
  end.

Record Config : Type := mkConfig {
  PACKAGE_ID : string;
  MARKETPLACE_ID : string;
  SUI_NETWORK : string;
  PORT : string;
  SUI_PRIVATE_KEY : string
}.

Definition load_config (penv : ProcessEnv) : Config :=
  mkConfig (env_or penv "PACKAGE_ID" "")
           (env_or penv "MARKETPLACE_ID" "")
           (env_or penv "SUI_NETWORK" "testnet")
           (env_or penv "PORT" "3000")
           (env_or penv "SUI_PRIVATE_KEY" "").

(** The constructor of [IndexerService]. *)
Definition new_IndexerService (penv : ProcessEnv) : IndexerService :=
  mkIndexer (parseInt_string (env_or penv "INDEXER_POLL_INTERVAL" "5000"))
            (env_val penv "PACKAGE_ID").

Module Sui.
Record t (Keypair : Type) : Type := mk {
  client : string;
  keypair : Keypair;
  packageId : string;
  marketplaceId : string
}.
Arguments mk {Keypair}.
Arguments client {Keypair}.
Arguments keypair {Keypair}.
Arguments packageId {Keypair}.
Arguments marketplaceId {Keypair}.
End Sui.


Section Startup.

(** The functions of the Sui SDK that the constructor calls; each may throw
    ([None]). *)
Variable Keypair : Type.
Variable getFullnodeUrl : string -> option string.
Variable fromBase64 : string -> option (list Byte.byte).
Variable fromSecretKey : list Byte.byte -> option Keypair.
Variable toSuiAddress : Keypair -> string.

Variable env : Env.

Definition sdk {A : Type} (r : option A) (what : string) : M A :=
  match r with
  | Some a => ret a
  | None => throw (Error what)
  end.

(** The constructor of [SuiService].  The one configuration value it tests
    is [SUI_PRIVATE_KEY]. *)
Definition new_SuiService (c : Config) : M (Sui.t Keypair) :=
  let network := if SUI_NETWORK c =? "" then "testnet" else SUI_NETWORK c in
  url <- sdk (getFullnodeUrl network) ("Unknown network: " ++ network) ;;
  let packageId := PACKAGE_ID c in
  let marketplaceId := MARKETPLACE_ID c in
  if SUI_PRIVATE_KEY c =? ""
  then throw (Error "SUI_PRIVATE_KEY not found in environment variables")
  else
    let privateKeyBase64 :=
      if prefix "suiprivkey" (SUI_PRIVATE_KEY c)
      then substring 10 (String.length (SUI_PRIVATE_KEY c) - 10) (SUI_PRIVATE_KEY c)
      else SUI_PRIVATE_KEY c in
    privateKeyBytes <- sdk (fromBase64 privateKeyBase64) "fromBase64" ;;
    let secretKey := firstn 32 (skipn 1 privateKeyBytes) in
    keypair <- sdk (fromSecretKey secretKey) "Ed25519Keypair.fromSecretKey" ;;
    console_log "Sui service initialized" ;;
    console_log ("Package ID: " ++ packageId) ;;
    console_log ("Marketplace ID: " ++ marketplaceId) ;;
    console_log ("Address: " ++ toSuiAddress keypair) ;;
    ret (Sui.mk url keypair packageId marketplaceId).


End Startup.

(** ** Relating the store before and after an action *)

(** [respects R m]: whatever [m] does, and whether it returns or throws, the
    store it leaves is related by [R] to the store it found. *)
Definition respects (R : DB -> DB -> Prop) {A : Type} (m : M A) : Prop :=
  forall w, R (db w) (db (snd (m w))).

Definition same_nfts (d d' : DB) : Prop := nfts d' = nfts d.
Definition same_listings (d d' : DB) : Prop := listings d' = listings d.
Definition same_transactions (d d' : DB) : Prop := transactions d' = transactions d.

(** [quiet m]: [m] does not write to the store. *)
Definition quiet {A : Type} (m : M A) : Prop :=
  forall w, db (snd (m w)) = db w.

(** [total m]: [m] returns, it never throws. *)
Definition total {A : Type} (m : M A) : Prop :=
  forall w, exists a, fst (m w) = Ok a.

(** ** Vocabulary of the statements *)

(** What [v || null] binds to. *)
Definition or_null (v : JsVal) : option string :=
  match v with
  | JString s => if s =? "" then None else Some s
  | _ => None
  end.

(** What [n || Date.now()] evaluates to when the clock shows [t]. *)
Definition stamp (n : JsNum) (t : Z) : Z :=
  match n with
  | Some z => if (z =? 0)%Z then t else z
  | None => t
  end.

(** The row [processEvent] hands to [transactions] for an event of kind
    [ty] with digest [digest] and payload [p], when the clock shows [t]. *)
Definition tx_row (ty digest : string) (e : Event.t) (p : Payload.t) (t : Z) : Tx.t :=
  Tx.mk digest ty
    (or_null (Payload.nft_id p))
    (or_null (Event.sender e))
    (or_null (js_or (Payload.buyer p) (Payload.seller p)))
    (or_null (Payload.price p))
    (stamp (parseInt (Event.timestampMs e)) t).

(** The event kinds the [switch] of [processEvent] knows. *)
Definition recognised (ty : string) : bool :=
  (ty =? "NFTMinted") || (ty =? "NFTListed") ||
  (ty =? "NFTPurchased") || (ty =? "NFTDelisted").

(** What [v || s] is, for a string [s]. *)
Definition or_string (v : JsVal) (s : string) : string :=
  match v with
  | JString x => if x =? "" then s else x
  | _ => s
  end.

(** The row a Minted event for [X], created by [C] and named [N], puts into
    [nfts], given what the node answered ([None]: the call was rejected). *)
Definition minted_row (X C N : string) (r : option ObjectResponse) (t t' : Z) : option Nft.t :=
  match r with
  | None => Some (Nft.mk (Some X) N (Some "") (Some "") C C t (Some t'))
  | Some r =>
      match content_fields r with
      | Some f => Some (Nft.mk (Some X) (or_string (f_name f) N)
                          (Some (or_string (f_description f) ""))
                          (Some (or_string (f_url f) "")) C C t (Some t'))
      | None => None
      end
  end.

(** The world in which the handler of [e] starts: [processEvent] has
    logged its first line. *)
Definition started (e : Event.t) (w : World) : World :=
  observe w (ConsoleLog ("Processing " ++ eventTypeOf e ++ ":")).

(** The node answered, and the answer has no [content.fields]. *)
Definition contentless (r : option ObjectResponse) : bool :=
  match r with
  | Some r => match content_fields r with None => true | Some _ => false end
  | None => false
  end.

(** [INSERT OR REPLACE] on a table whose key column is [key]; [replace_nft]
    and [replace_listing] are its two instances. *)
Definition replace_row {A : Type} (key : A -> option string) (r : A) (l : list A) : list A :=
  filter (fun x => negb (sql_eq (key x) (key r))) l ++ [r].

(** What a value other than [undefined] binds to. *)
Definition bound (v : JsVal) : option string :=
  match v with
  | JString s => Some s
  | _ => None
  end.

(** A store with its [updated_at] columns blanked. *)
Definition erase_nft (r : Nft.t) : Nft.t :=
  Nft.mk (Nft.id r) (Nft.name r) (Nft.description r) (Nft.image_url r)
         (Nft.creator r) (Nft.owner r) (Nft.created_at r) None.

Definition erase_listing (r : Listing.t) : Listing.t :=
  Listing.mk (Listing.nft_id r) (Listing.seller r) (Listing.price r)
             (Listing.status r) (Listing.listed_at r) None.

Definition erase_updated_at (d : DB) : DB :=
  mkDB (map erase_nft (nfts d)) (map erase_listing (listings d))
       (transactions d) (indexer_state d).

(** The store after the transaction of [e] has been offered to
    [INSERT OR IGNORE] at time [t]. *)
Definition recorded (e : Event.t) (p : Payload.t) (t : Z) (d : DB) : DB :=
  match Event.txDigest e with
  | JString digest =>
      if has_digest digest (transactions d) then d
      else set_transactions d
             (transactions d ++ [tx_row (eventTypeOf e) digest e p t])
  | _ => d
  end.

(** The store [processEvent] leaves for a Purchased event [e], when the
    three readings of the clock are [t1], [t2], [t3]: the status update, the
    owner update, the transaction; an exception stops the sequence where it
    is raised and keeps what was written. *)
Definition purchased_store (e : Event.t) (t1 t2 t3 : Z) (d : DB) : DB :=
  match Event.parsedJson e with
  | None => d
  | Some p =>
      match Payload.nft_id p with
      | JUndefined => d
      | nft_id =>
          let i := bound nft_id in
          let d1 := set_listings d (map (set_status i "sold" t1) (listings d)) in
          match Payload.buyer p with
          | JUndefined => d1
          | JNull =>
              if existsb (fun r => sql_eq (Nft.id r) i) (nfts d1) then d1
              else recorded e p t3 d1
          | JString B =>
              recorded e p t3 (set_nfts d1 (map (set_owner i B t2) (nfts d1)))
          end
      end
  end.

Definition same_state (d d' : DB) : Prop := indexer_state d' = indexer_state d.

(** The scheduling events of a trace: fetches and sleeps, without the
    console. *)
Definition is_schedule (o : Obs) : bool :=
  match o with
  | FetchEvents | Sleep _ => true
  | _ => false
  end.

Definition schedule (t : list Obs) : list Obs := filter is_schedule t.

(** What of the world the loop control depends on. *)
Definition control (w : World) : list Obs * bool := (schedule (trace w), isRunning w).

(** [keeps f m]: [m] leaves the view [f] of the world as it is, whether it
    returns or throws. *)
Definition keeps {T A : Type} (f : World -> T) (m : M A) : Prop :=
  forall w, f (snd (m w)) = f w.

(** The world in which the events of a cycle are processed: the fetch has
    been made and, for a batch that is not empty, announced. *)
Definition fetched (events : list Event.t) (w : World) : World :=
  match events with
  | [] => tick (observe w FetchEvents)
  | _ :: _ =>
      observe (tick (observe w FetchEvents))
        (ConsoleLog ("Processing " ++ length_string events ++ " events..."))
  end.

(** [n] turns of the loop, as a schedule. *)
Fixpoint cycles (ms : JsNum) (n : nat) : list Obs :=
  match n with
  | O => []
  | S n' => FetchEvents :: Sleep ms :: cycles ms n'
  end.


(** The buyer named by [e], if [e] is a Purchased event for entity [X]. *)
Definition purchase_of (X : string) (e : Event.t) : option string :=
  if eventTypeOf e =? "NFTPurchased" then
    match Event.parsedJson e with
    | Some p =>
        match Payload.nft_id p, Payload.buyer p with
        | JString x, JString b => if x =? X then Some b else None
        | _, _ => None
        end
    | None => None
    end
  else None.

(** The owner as the specification words it: the buyer of the most recent
    Purchased event for [X] among [events], or the creator if there is
    none. *)
Definition owner_by_spec (X : string) (events : list Event.t) (creator : string) : string :=
  fold_left (fun o e => match purchase_of X e with Some b => b | None => o end)
            events creator.

(** A Minted or Purchased event that names entity [X]: the events whose
    handlers write the owner of [X]. *)
Definition writes_owner_of (X : string) (e : Event.t) : bool :=
  ((eventTypeOf e =? "NFTMinted") || (eventTypeOf e =? "NFTPurchased")) &&
  match Event.parsedJson e with
  | Some p => match Payload.nft_id p with JString x => x =? X | _ => false end
  | None => false
  end.

Definition same_owner (X : string) (d d' : DB) : Prop :=
  option_map Nft.owner (getNFT X d') = option_map Nft.owner (getNFT X d).

Definition is_string (v : JsVal) : bool :=
  match v with
  | JString _ => true
  | _ => false
  end.

(** An event shaped as the contract emits it: the payload carries, as
    strings, the fields its handler binds, and a Listed event names an
    entity the foreign key of [listings] accepts in store [d].  An event of
    an unrecognised kind only needs a payload. *)
Definition well_formed (env : Env) (d : DB) (e : Event.t) : bool :=
  match Event.parsedJson e with
  | None => false
  | Some p =>
      if eventTypeOf e =? "NFTMinted" then
        is_string (Payload.nft_id p) && is_string (Payload.creator p)
        && is_string (Payload.name p)
      else if eventTypeOf e =? "NFTListed" then
        is_string (Payload.nft_id p) && is_string (Payload.seller p)
        && is_string (Payload.price p)
        && negb (fk_violated env (bound (Payload.nft_id p)) d)
      else if eventTypeOf e =? "NFTPurchased" then
        is_string (Payload.nft_id p) && is_string (Payload.buyer p)
      else if eventTypeOf e =? "NFTDelisted" then
        is_string (Payload.nft_id p)
      else true
  end.

(** ** Sample inputs *)

Definition sample_fields : NftFields :=
  mkFields (JString "Sunrise") (JString "A sunrise") (JString "https://img/1").

(** A node that knows the object, one that answers without content, and one
    that rejects every call; the clock shows [1000 + ticks]. *)
Definition sample_env : Env :=
  mkEnv (fun t => 1000 + Z.of_nat t)%Z
        (fun _ _ => Some (mkResponse (Some (MoveObject sample_fields))))
        (fun _ => Some []) false (fun _ => false).

Definition env_no_content : Env :=
  mkEnv (fun t => 1000 + Z.of_nat t)%Z
        (fun _ _ => Some (mkResponse None))
        (fun _ => Some []) false (fun _ => false).

Definition env_rejecting : Env :=
  mkEnv (fun t => 1000 + Z.of_nat t)%Z
        (fun _ _ => None)
        (fun _ => None) true (fun _ => false).

Definition w0 : World := mkWorld empty_db false 0 [].

Definition ev_mint : Event.t :=
  Event.mk "0xpkg::marketplace::NFTMinted"
    (Some (Payload.mk (JString "0xX") (JString "0xA") (JString "Dawn")
             JUndefined JUndefined JUndefined))
    (JString "0xA") (JString "digest-mint") (JString "1700000000001").

Definition ev_list : Event.t :=
  Event.mk "0xpkg::marketplace::NFTListed"
    (Some (Payload.mk (JString "0xX") JUndefined JUndefined
             (JString "0xA") (JString "100") JUndefined))
    (JString "0xA") (JString "digest-list") (JString "1700000000002").

Definition ev_buy : Event.t :=
  Event.mk "0xpkg::marketplace::NFTPurchased"
    (Some (Payload.mk (JString "0xX") JUndefined JUndefined
             (JString "0xA") (JString "100") (JString "0xB")))
    (JString "0xB") (JString "digest-buy") (JString "1700000000003").


(** The store after Minted and Listed for the sample entity. *)
Definition w_listed : World := run (processEvents sample_env [ev_mint; ev_list]) w0.


(** A process environment with nothing set, and one with the signing key
    only. *)
Definition penv_empty : ProcessEnv := fun _ => None.


(** An SDK whose functions accept what they are given. *)
Definition sdk_getFullnodeUrl (network : string) : option string :=
  if (network =? "mainnet") || (network =? "testnet") ||
     (network =? "devnet") || (network =? "localnet")
  then Some ("https://fullnode." ++ network ++ ".sui.io:443")%string
  else None.

Definition sdk_fromBase64 (s : string) : option (list Byte.byte) :=
  Some (repeat Byte.x00 33).

Definition sdk_fromSecretKey (key : list Byte.byte) : option unit :=
  if Nat.eqb (List.length key) 32 then Some tt else None.

Definition sdk_toSuiAddress (k : unit) : string := "0xaddress".

(** ** What [saveNFT] accepts *)

Definition is_undefined (v : JsVal) : bool :=
  match v with
  | JUndefined => true
  | _ => false
  end.

(** The arguments [saveNFT] stores: every parameter can be bound, and the
    three [NOT NULL] text columns receive a string. *)
Definition saveNFT_accepts (nft : NftArg.t) : bool :=
  negb (is_undefined (NftArg.id nft)) &&
  is_string (NftArg.name nft) &&
  negb (is_undefined (NftArg.description nft)) &&
  negb (is_undefined (NftArg.image_url nft)) &&
  is_string (NftArg.creator nft) &&
  is_string (NftArg.owner nft).

(** The row [saveNFT] writes for accepted arguments, when the clock shows
    [t] at its first reading and [t'] at the reading for [updated_at]. *)
Definition nft_row (nft : NftArg.t) (t t' : Z) : Nft.t :=
  Nft.mk (bound (NftArg.id nft)) (js_string (NftArg.name nft))
         (bound (NftArg.description nft)) (bound (NftArg.image_url nft))
         (js_string (NftArg.creator nft)) (js_string (NftArg.owner nft))
         (stamp (NftArg.created_at nft) t) (Some t').

(** ** The keys of the tables *)

(** The object the [/mint] handler and the indexer hand to [saveNFT] for the
    sample entity. *)
Definition sample_nft_arg : NftArg.t :=
  NftArg.mk (JString "0xX") (JString "Dawn") (JString "A dawn") JNull
            (JString "0xA") (JString "0xA") (Some 1700000000001%Z).

(** The non-null keys of a table. *)
Definition keys {A : Type} (key : A -> option string) (l : list A) : list string :=
  flat_map (fun a => match key a with Some k => [k] | None => [] end) l.

(** The three uniqueness constraints of the schema: [nfts.id] and
    [listings.nft_id] (primary keys, unique among the non-null values) and
    [transactions.tx_digest]. *)
Definition unique_keys (d : DB) : Prop :=
  NoDup (keys Nft.id (nfts d)) /\
  NoDup (keys Listing.nft_id (listings d)) /\
  NoDup (map Tx.tx_digest (transactions d)).

Definition keeps_unique (d d' : DB) : Prop := unique_keys d -> unique_keys d'.

(** ** Events of one transaction *)

(** A Listed event emitted by the same transaction as the sample Minted
    event: it carries the same digest. *)
Definition ev_list_same_tx : Event.t :=
  Event.mk "0xpkg::marketplace::NFTListed"
    (Some (Payload.mk (JString "0xX") JUndefined JUndefined
             (JString "0xA") (JString "100") JUndefined))
    (JString "0xA") (JString "digest-mint") (JString "1700000000001").

(** The rows of [transactions] with a given digest. *)
Definition rows_with_digest (digest : string) (l : list Tx.t) : list Tx.t :=
  filter (fun r => Tx.tx_digest r =? digest) l.

(** ** Sample events of a delisting and of a second listing *)

Definition ev_delist : Event.t :=
  Event.mk "0xpkg::marketplace::NFTDelisted"
    (Some (Payload.mk (JString "0xX") JUndefined JUndefined
             (JString "0xA") JUndefined JUndefined))
    (JString "0xA") (JString "digest-delist") (JString "1700000000005").

Definition ev_relist : Event.t :=
  Event.mk "0xpkg::marketplace::NFTListed"
    (Some (Payload.mk (JString "0xX") JUndefined JUndefined
             (JString "0xA") (JString "250") JUndefined))
    (JString "0xA") (JString "digest-relist") (JString "1700000000006").

(** ** [database.ts]: the remaining queries and the cursor row *)

(** [ORDER BY key DESC]: insertion from the right, so rows with equal keys
    keep their order. *)
Fixpoint insert_by {A : Type} (key : A -> Z) (r : A) (l : list A) : list A :=
  match l with
  | [] => [r]
  | x :: xs => if (key r <? key x)%Z then x :: insert_by key r xs else r :: l
  end.

Definition sort_desc {A : Type} (key : A -> Z) (l : list A) : list A :=
  fold_right (insert_by key) [] l.

(** Sorted by [key], largest first. *)
Definition descending {A : Type} (key : A -> Z) (l : list A) : Prop :=
  StronglySorted (fun a b => (key b <= key a)%Z) l.

(** The integers of SQLite have 64 bits. *)
Definition int64_min : Z := (- 9223372036854775808)%Z.
Definition int64_max : Z := 9223372036854775807%Z.

Definition in_int64 (z : Z) : bool := (int64_min <=? z)%Z && (z <=? int64_max)%Z.

(** [LIMIT n], for an [n] within 64 bits (the engine refuses any other): a
    negative [n] is no bound. *)
Definition sql_limit {A : Type} (n : Z) (l : list A) : list A :=
  if (n <? 0)%Z then l else firstn (Z.to_nat n) l.

(** [getTransactions(limit)]:
    [SELECT * FROM transactions ORDER BY timestamp DESC LIMIT ?] *)
Definition getTransactions (limit : Z) (d : DB) : list Tx.t :=
  sql_limit limit (sort_desc Tx.timestamp (transactions d)).

(** [getTransactionsByNFT(nftId)] *)
Definition getTransactionsByNFT (nftId : string) (d : DB) : list Tx.t :=
  sort_desc Tx.timestamp
    (filter (fun r => sql_eq (Tx.nft_id r) (Some nftId)) (transactions d)).

(** [getIndexerState()] *)
Definition getIndexerState (d : DB) : option IndexerState.t := indexer_state d.

(** [updateIndexerState(checkpoint, eventSeq)]:
    [UPDATE indexer_state SET ... WHERE id = 1] *)
Definition updateIndexerState (env : Env) (checkpoint eventSeq : JsVal) : M unit :=
  (t <- Date_now env ;;
   c <- bind_param checkpoint ;;
   s <- bind_param eventSeq ;;
   modify_db
     (fun d =>
        match indexer_state d with
        | Some _ => set_indexer_state d (Some (IndexerState.mk c s t))
        | None => d
        end))%M.

(** ** [database.ts]: the statistics *)









(** ** A host that stops the loop *)

(** A host that calls [stop()] during the second sleep (the node is asked
    once per turn, so the second sleep is reached after two interactions). *)
Definition env_stopping : Env :=
  mkEnv (fun t => 1000 + Z.of_nat t)%Z
        (fun _ _ => None)
        (fun _ => Some []) false (fun t => Nat.eqb t 3).

(** ** An event without a payload *)

(** A Listed event whose [parsedJson] is missing. *)
Definition ev_bare : Event.t :=
  Event.mk "0xpkg::marketplace::NFTListed" None
    (JString "0xA") (JString "digest-bare") (JString "1700000000009").

(** ** [sui.service.ts]: the event queries and the move calls *)

Definition is_digit (c : ascii) : bool :=
  let n := nat_of_ascii c in Nat.leb 48 n && Nat.leb n 57.

Fixpoint all_digits (s : string) : bool :=
  match s with
  | EmptyString => true
  | String c r => is_digit c && all_digits r
  end.

(** [Number(v)] on what a node sends as [timestampMs]: [undefined] is
    [NaN], [null] and the empty string are [0], a string of decimal digits
    is its value.  Signs, fractions, exponents, radix prefixes and white
    space, which [Number] reads as well, lie outside the integers of this
    model; the statements below are about timestamps in decimal digits. *)
Definition Number_ (v : JsVal) : JsNum :=
  match v with
  | JUndefined => NaN
  | JNull => Some 0%Z
  | JString s =>
      if s =? "" then Some 0%Z
      else if all_digits s then read_digits 10 s None
      else NaN
  end.

(** [a - b] on numbers. *)
Definition js_sub (a b : JsNum) : JsNum :=
  match a, b with
  | Some x, Some y => Some (x - y)%Z
  | _, _ => NaN
  end.

Definition positive (n : JsNum) : bool :=
  match n with
  | Some z => (0 <? z)%Z
  | None => false
  end.

(** [Array.prototype.sort(compare)].  The sort is stable, and for a
    comparator that orders its arguments consistently the result is the one
    stable arrangement; it is computed here by insertion from the right.
    (For an inconsistent comparator, such as one that returns [NaN] for some
    pairs only, the standard leaves the order to the implementation.) *)
Fixpoint insert_sorted {A : Type} (compare : A -> A -> JsNum) (r : A) (l : list A) : list A :=
  match l with
  | [] => [r]
  | x :: xs =>
      if positive (compare r x) then x :: insert_sorted compare r xs else r :: l
  end.

Definition Array_sort {A : Type} (compare : A -> A -> JsNum) (l : list A) : list A :=
  fold_right (insert_sorted compare) [] l.

Module Page.
(** What [client.queryEvents] resolves to, as far as the service reads it. *)
Record t : Type := mk {
  data : list Event.t
}.
End Page.

Module ObjectChange.
(** An entry of [result.objectChanges], as far as the [/mint] handler reads
    it ([objectType] is read of entries of type [created] only, which carry
    one). *)
Record t : Type := mk {
  type : string;
  objectType : string;
  objectId : string
}.
End ObjectChange.

Module TxResult.
(** What [client.signAndExecuteTransaction] resolves to. *)
Record t : Type := mk {
  digest : string;
  objectChanges : option (list ObjectChange.t)
}.
End TxResult.

Module SuiService.
Section Queries.

(** [client.queryEvents({ query: { MoveEventType }, cursor, limit: 50 })]
    during fetch number [t]: the node answers with a page or rejects. *)
Variable queryEvents : nat -> string -> JsVal -> option Page.t.

(** [this.packageId] *)
Variable packageId : string.

Definition getEvents (t : nat) (eventType : string) (cursor : JsVal) : option Page.t :=
  queryEvents t (packageId ++ "::marketplace::" ++ eventType)
    (if truthy cursor then cursor else JUndefined).

Definition eventTypes : list string :=
  ["NFTMinted"; "NFTListed"; "NFTPurchased"; "NFTDelisted"].

(** The [for] loop: a rejected query ends the call. *)
Fixpoint collect (t : nat) (cursor : JsVal) (types : list string)
         (allEvents : list Event.t) : option (list Event.t) :=
  match types with
  | [] => Some allEvents
  | eventType :: rest =>
      match getEvents t eventType cursor with
      | Some events => collect t cursor rest (allEvents ++ Page.data events)
      | None => None
      end
  end.

Definition by_timestamp (a b : Event.t) : JsNum :=
  js_sub (Number_ (Event.timestampMs a)) (Number_ (Event.timestampMs b)).

Definition getAllMarketplaceEvents (t : nat) (cursor : JsVal) : option (list Event.t) :=
  match collect t cursor eventTypes [] with
  | Some allEvents => Some (Array_sort by_timestamp allEvents)
  | None => None
  end.

(** The outside of the indexer when its events come through this service:
    the indexer calls [getAllMarketplaceEvents()] without a cursor. *)
Definition node (env : Env) : Env :=
  mkEnv (now env) (getObject env)
        (fun t => getAllMarketplaceEvents t JUndefined)
        (foreign_keys env) (stop_requested env).

End Queries.

Section Calls.

(** Building a move call with the given target and arguments, signing it
    with the key of the service and executing it, as interaction number
    [t]: the SDK or the node may refuse. *)
Variable signAndExecuteTransaction : nat -> string -> list JsVal -> Res TxResult.t.

Variable packageId : string.
Variable marketplaceId : string.

Definition moveCall (target : string) (arguments : list JsVal) : M TxResult.t :=
  fun w => (signAndExecuteTransaction (ticks w) target arguments, tick w).

Definition mintNFT (name description imageUrl : JsVal) : M TxResult.t :=
  moveCall (packageId ++ "::marketplace::mint_nft") [name; description; imageUrl].

Definition listNFT (nftId price : JsVal) : M TxResult.t :=
  moveCall (packageId ++ "::marketplace::list_nft") [JString marketplaceId; nftId; price].

Definition buyNFT (nftId coinId : JsVal) : M TxResult.t :=
  moveCall (packageId ++ "::marketplace::buy_nft") [JString marketplaceId; nftId; coinId].

Definition delistNFT (nftId : JsVal) : M TxResult.t :=
  moveCall (packageId ++ "::marketplace::delist_nft") [JString marketplaceId; nftId].

End Calls.
End SuiService.

Definition timestamp (e : Event.t) : JsNum := Number_ (Event.timestampMs e).

(** The timestamp is written in decimal digits. *)
Definition dated (e : Event.t) : bool :=
  match Event.timestampMs e with
  | JString s => negb (s =? "") && all_digits s
  | _ => false
  end.

(** Ordered by a numeric key, smallest first. *)
Definition key_le {A : Type} (key : A -> JsNum) (a b : A) : Prop :=
  exists x y, key a = Some x /\ key b = Some y /\ (x <= y)%Z.

Definition key_is {A : Type} (key : A -> JsNum) (z : Z) (a : A) : bool :=
  match key a with
  | Some k => (k =? z)%Z
  | None => false
  end.

Definition compare_by {A : Type} (key : A -> JsNum) (a b : A) : JsNum :=
  js_sub (key a) (key b).

(** Sorted by timestamp, earliest first. *)
Definition ascending (l : list Event.t) : Prop :=
  StronglySorted (key_le timestamp) l.

(** The four pages of one fetch, by kind. *)
Definition pages (queryEvents : nat -> string -> JsVal -> option Page.t)
           (packageId : string) (t : nat) : list (option Page.t) :=
  map (fun ty => SuiService.getEvents queryEvents packageId t ty JUndefined)
      SuiService.eventTypes.

(** A Listed and a Delisted event of one entity that carry the same
    timestamp, and a node that reports them. *)
Definition ev_list_T : Event.t :=
  Event.mk "0xpkg::marketplace::NFTListed"
    (Some (Payload.mk (JString "0xX") JUndefined JUndefined
             (JString "0xA") (JString "250") JUndefined))
    (JString "0xA") (JString "digest-list-T") (JString "1700000000005").

Definition sample_queryEvents (t : nat) (type : string) (cursor : JsVal) : option Page.t :=
  if type =? "0xpkg::marketplace::NFTListed" then Some (Page.mk [ev_list_T])
  else if type =? "0xpkg::marketplace::NFTDelisted" then Some (Page.mk [ev_delist])
  else if type =? "0xpkg::marketplace::NFTMinted" then Some (Page.mk [ev_mint])
  else Some (Page.mk []).

(** A node whose query for Purchased events is rejected. *)
Definition failing_queryEvents (t : nat) (type : string) (cursor : JsVal) : option Page.t :=
  if type =? "0xpkg::marketplace::NFTPurchased" then None
  else sample_queryEvents t type cursor.

(** ** [marketplace.controller.ts]: the handlers *)

(** [error.message] *)
Definition message (e : Exn) : string :=
  match e with
  | TypeError m => m
  | SqliteError m => m
  | RpcError m => m
  | Error m => m
  end.

(** [s.includes(part)] *)
Definition includes (s part : string) : bool :=
  match index 0 part s with
  | Some _ => true
  | None => false
  end.

(** What a handler sends: [res.json({ success: true, ... })], or
    [res.status(code).json({ success: false, error })].  Of a success the
    data is kept; [count], which is the length of the data, and [message],
    a fixed text, are not. *)
Inductive Reply (A : Type) : Type :=
| Success (data : A)
| Failure (status : Z) (error : string).

Arguments Success {A} data.
Arguments Failure {A} status error.

Module MintRequest.
(** The body of [POST /mint]; a property that is absent is [undefined]. *)
Record t : Type := mk {
  name : JsVal;
  description : JsVal;
  imageUrl : JsVal
}.
End MintRequest.

Module BuyRequest.
(** The body of [POST /buy]. *)
Record t : Type := mk {
  nftId : JsVal;
  coinId : JsVal
}.
End BuyRequest.

Module MintData.
Record t : Type := mk {
  nft_id : string;
  tx_digest : string;
  name : JsVal;
  description : JsVal;
  image_url : JsVal
}.
End MintData.

Module BuyData.
Record t : Type := mk {
  nft_id : JsVal;
  tx_digest : string;
  price_mist : string;
  price_sui : string
}.
End BuyData.

(** [result.objectChanges?.filter((obj) => obj.type === 'created')] *)
Definition createdObjects (result : TxResult.t) : option (list ObjectChange.t) :=
  option_map (filter (fun obj => ObjectChange.type obj =? "created"))
             (TxResult.objectChanges result).

(** [createdObjects?.find((obj) => obj.objectType.includes('::marketplace::NFT'))] *)
Definition nftObject (result : TxResult.t) : option ObjectChange.t :=
  match createdObjects result with
  | Some l => find (fun obj => includes (ObjectChange.objectType obj) "::marketplace::NFT") l
  | None => None
  end.

Module Controller.
Section Handlers.

Variable env : Env.
Variable signAndExecuteTransaction : nat -> string -> list JsVal -> Res TxResult.t.
Variable packageId : string.
Variable marketplaceId : string.

(** [suiService.getAddress()] *)
Variable address : string.

(** [(n / 1_000_000_000).toFixed(4)] *)
Variable toFixed4 : JsNum -> string.

Definition price_sui (price : string) : string := toFixed4 (parseInt_string price).

(** [GET /listings]; [status] is [req.query.status]. *)
Definition getListings (status : JsVal) : M (Reply (list (ListingView.t * string))) :=
  try_catch
    (let status := js_or status (JString "active") in
     d <- get_db ;;
     let listings := getListings status d in
     ret (Success (map (fun listing => (listing, price_sui (ListingView.price listing)))
                       listings)))
    (fun error =>
       console_error "Error getting listings:" ;;
       ret (Failure 500 (message error))).

(** [POST /mint] *)
Definition mintNFT (body : MintRequest.t) : M (Reply MintData.t) :=
  try_catch
    (let name := MintRequest.name body in
     let description := MintRequest.description body in
     let imageUrl := MintRequest.imageUrl body in
     if negb (truthy name) || negb (truthy description) || negb (truthy imageUrl)
     then ret (Failure 400 "Missing required fields: name, description, imageUrl")
     else
       console_log ("🎨 Minting NFT: " ++ js_string name) ;;
       result <- SuiService.mintNFT signAndExecuteTransaction packageId
                   name description imageUrl ;;
       match nftObject result with
       | None => throw (Error "NFT object not found in transaction result")
       | Some obj =>
           let nftId := ObjectChange.objectId obj in
           created_at <- Date_now env ;;
           saveNFT env (NftArg.mk (JString nftId) name description imageUrl
                          (JString address) (JString address) (Some created_at)) ;;
           ret (Success (MintData.mk nftId (TxResult.digest result)
                           name description imageUrl))
       end)
    (fun error =>
       console_error "Error minting NFT:" ;;
       ret (Failure 500 (message error))).

(** [POST /buy] *)
Definition buyNFT (body : BuyRequest.t) : M (Reply BuyData.t) :=
  try_catch
    (let nftId := BuyRequest.nftId body in
     let coinId := BuyRequest.coinId body in
     if negb (truthy nftId) || negb (truthy coinId)
     then ret (Failure 400 "Missing required fields: nftId, coinId")
     else
       d <- get_db ;;
       match getListing (js_string nftId) d with
       | None => ret (Failure 404 "NFT not listed for sale")
       | Some listing =>
           if negb (Listing.status listing =? "active")
           then ret (Failure 400 "NFT is not available for purchase")
           else
             console_log ("💰 Buying NFT: " ++ js_string nftId) ;;
             result <- SuiService.buyNFT signAndExecuteTransaction packageId marketplaceId
                         nftId coinId ;;
             updateListingStatus env nftId (JString "sold") ;;
             updateNFTOwner env nftId (JString address) ;;
             ret (Success (BuyData.mk nftId (TxResult.digest result)
                             (Listing.price listing)
                             (price_sui (Listing.price listing))))
       end)
    (fun error =>
       console_error "Error buying NFT:" ;;
       ret (Failure 500 (message error))).

(** [GET /nft/:id] *)
Definition getNFT (id : string) : M (Reply (Nft.t * option Listing.t)) :=
  try_catch
    (d <- get_db ;;
     match getNFT id d with
     | None => ret (Failure 404 "NFT not found")
     | Some nft => ret (Success (nft, getListing id d))
     end)
    (fun error =>
       console_error "Error getting NFT:" ;;
       ret (Failure 500 (message error))).

(** [GET /nfts/owner/:address] *)
Definition getNFTsByOwner (owner : string) : M (Reply (list Nft.t)) :=
  try_catch
    (d <- get_db ;;
     ret (Success (getNFTsByOwner owner d)))
    (fun error =>
       console_error "Error getting NFTs by owner:" ;;
       ret (Failure 500 (message error))).

(** [GET /transactions]; [limit] is [req.query.limit].  (Integers are exact
    here; JavaScript holds a limit exactly up to 2^53.) *)
Definition getTransactions (limit : JsVal) : M (Reply (list Tx.t)) :=
  try_catch
    (let limit :=
       match parseInt limit with
       | Some z => if (z =? 0)%Z then 100%Z else z
       | None => 100%Z
       end in
     d <- get_db ;;
     ret (Success (getTransactions limit d)))
    (fun error =>
       console_error "Error getting transactions:" ;;
       ret (Failure 500 (message error))).

End Handlers.
End Controller.

(** ** Sample chains and requests *)

(** A chain that executes every call, and one that refuses every call. *)
Definition sample_chain (t : nat) (target : string) (arguments : list JsVal)
  : Res TxResult.t :=
  Ok (TxResult.mk "digest-call"
        (Some [ObjectChange.mk "mutated" "0x2::coin::Coin<0x2::sui::SUI>" "0xgas";
               ObjectChange.mk "created" "0xpkg::marketplace::NFT" "0xN"])).

Definition refusing_chain (t : nat) (target : string) (arguments : list JsVal)
  : Res TxResult.t :=
  Throw (RpcError "Transaction execution failed").

(** A display conversion for the examples. *)
Definition sample_toFixed4 (n : JsNum) : string := num_string n ++ "e-9".

Definition sample_buy : BuyRequest.t := BuyRequest.mk (JString "0xX") (JString "0xcoin").

Definition sample_mint : MintRequest.t :=
  MintRequest.mk (JString "Noon") (JString "A noon") (JString "https://img/2").

(** ** Exact integers; the signing key *)

(** An integer that a JavaScript number holds exactly, or [NaN]. *)
Definition safe_integer (n : JsNum) : bool :=
  match n with
  | Some z => (Z.abs z <=? 9007199254740991)%Z
  | None => true
  end.

(** The configuration with another signing key. *)
Definition with_private_key (c : Config) (key : string) : Config :=
  mkConfig (PACKAGE_ID c) (MARKETPLACE_ID c) (SUI_NETWORK c) (PORT c) key.

(** * Properties

    After the rules for reasoning about actions, the claims of the
    specification are settled in this order: C1 (events of an unrecognised
    kind), C9 and C3 (a Minted event whose detail fetch returns no content),
    C6 (the order of Listed and Purchased), C5 (a Purchased event applied
    twice), C8 (the loop and its errors), C7 (the same event in two cycles),
    C10 (listings without an entity), C4 (start-up and the configuration),
    C2 (the owner of an entity). *)

(** ** Rules for [quiet], [respects] and [total] *)

Lemma quiet_ret {A : Type} (a : A) : quiet (ret a).
Proof. intros w; reflexivity. Qed.

Lemma quiet_throw {A : Type} (e : Exn) : quiet (@throw A e).
Proof. intros w; reflexivity. Qed.

Lemma quiet_emit (o : Obs) : quiet (emit o).
Proof. intros w; reflexivity. Qed.

Lemma quiet_get_db : quiet get_db.
Proof. intros w; reflexivity. Qed.

Lemma quiet_Date_now (env : Env) : quiet (Date_now env).
Proof. intros w; reflexivity. Qed.

Lemma quiet_num_or_now (env : Env) (n : JsNum) : quiet (num_or_now env n).
Proof.
  intros w; unfold num_or_now.
  destruct n as [z|]; [destruct (z =? 0)%Z|]; reflexivity.
Qed.

Lemma quiet_bind_param (v : JsVal) : quiet (bind_param v).
Proof. intros w; destruct v; reflexivity. Qed.

Lemma quiet_not_null (c : string) (v : option string) : quiet (not_null c v).
Proof. intros w; destruct v; reflexivity. Qed.

Lemma quiet_payload_of (e : Event.t) : quiet (payload_of e).
Proof. intros w; unfold payload_of; destruct (Event.parsedJson e); reflexivity. Qed.

Lemma quiet_toString (v : JsVal) : quiet (toString v).
Proof. intros w; destruct v; reflexivity. Qed.

Lemma quiet_getNFTObject (env : Env) (v : JsVal) : quiet (getNFTObject env v).
Proof.
  intros w; unfold getNFTObject.
  destruct (getObject env (ticks w) v); reflexivity.
Qed.

Lemma quiet_getAllMarketplaceEvents (env : Env) : quiet (getAllMarketplaceEvents env).
Proof.
  intros w; unfold getAllMarketplaceEvents.
  destruct (queryAllEvents env (ticks w)); reflexivity.
Qed.

Lemma quiet_bind {A B : Type} (m : M A) (k : A -> M B) :
  quiet m -> (forall a, quiet (k a)) -> quiet (bind m k).
Proof.
  intros Hm Hk w; unfold bind.
  specialize (Hm w); destruct (m w) as [[a|e] w']; cbn in *.
  - rewrite Hk; exact Hm.
  - exact Hm.
Qed.

Lemma quiet_transaction_of (ty : string) (e : Event.t) : quiet (transaction_of ty e).
Proof.
  unfold transaction_of; apply quiet_bind;
    [apply quiet_payload_of | intros; apply quiet_ret].
Qed.

Section Frames.

Variable R : DB -> DB -> Prop.
Hypothesis R_refl : forall d, R d d.
Hypothesis R_trans : forall a b c, R a b -> R b c -> R a c.

Lemma respects_quiet {A : Type} (m : M A) : quiet m -> respects R m.
Proof. intros H w; rewrite H; apply R_refl. Qed.

Lemma respects_bind {A B : Type} (m : M A) (k : A -> M B) :
  respects R m -> (forall a, respects R (k a)) -> respects R (bind m k).
Proof.
  intros Hm Hk w; unfold bind.
  specialize (Hm w); destruct (m w) as [[a|e] w']; cbn in *.
  - eapply R_trans; [exact Hm | apply Hk].
  - exact Hm.
Qed.

Lemma respects_try_catch {A : Type} (m : M A) (h : Exn -> M A) :
  respects R m -> (forall e, respects R (h e)) -> respects R (try_catch m h).
Proof.
  intros Hm Hh w; unfold try_catch.
  specialize (Hm w); destruct (m w) as [[a|e] w']; cbn in *.
  - exact Hm.
  - eapply R_trans; [exact Hm | apply Hh].
Qed.

Lemma respects_modify (f : DB -> DB) :
  (forall d, R d (f d)) -> respects R (modify_db f).
Proof. intros H w; cbn; apply H. Qed.

End Frames.

Create HintDb frame.

#[local] Hint Resolve quiet_ret quiet_throw quiet_emit quiet_get_db quiet_Date_now
  quiet_num_or_now quiet_bind_param quiet_not_null quiet_payload_of
  quiet_toString quiet_getNFTObject quiet_getAllMarketplaceEvents
  quiet_transaction_of : frame.

(** Walks down an action along its binds, handlers and case analyses; what
    is left are the writes. *)
Ltac frame_walk Hrefl Htrans :=
  repeat first
    [ apply (respects_quiet _ Hrefl);
      solve [ auto with frame | unfold console_log, console_error; auto with frame ]
    | match goal with
      | |- respects _ (bind _ _) => apply (respects_bind _ Htrans); [ | intros ? ]
      | |- respects _ (try_catch _ _) =>
          apply (respects_try_catch _ Htrans); [ | intros ? ]
      | |- respects _ (match ?x with _ => _ end) => destruct x
      | |- respects _ (if ?b then _ else _) => destruct b
      | |- respects _ (let _ := _ in _) => cbv zeta
      end ].

Lemma same_transactions_refl (d : DB) : same_transactions d d.
Proof. reflexivity. Qed.

Lemma same_transactions_trans (a b c : DB) :
  same_transactions a b -> same_transactions b c -> same_transactions a c.
Proof. unfold same_transactions; congruence. Qed.

Lemma same_nfts_refl (d : DB) : same_nfts d d.
Proof. reflexivity. Qed.

Lemma same_nfts_trans (a b c : DB) : same_nfts a b -> same_nfts b c -> same_nfts a c.
Proof. unfold same_nfts; congruence. Qed.

Lemma same_listings_refl (d : DB) : same_listings d d.
Proof. reflexivity. Qed.

Lemma same_listings_trans (a b c : DB) :
  same_listings a b -> same_listings b c -> same_listings a c.
Proof. unfold same_listings; congruence. Qed.

(** *** What each part of the indexer leaves alone *)

Ltac frame_ops :=
  unfold processEvent, dispatch, handleNFTMinted, handleNFTListed,
    handleNFTPurchased, handleNFTDelisted, saveNFT, updateNFTOwner,
    saveListing, updateListingStatus, saveTransaction.

Ltac frame_solve Hrefl Htrans :=
  frame_ops; frame_walk Hrefl Htrans;
  apply (respects_modify _); intros ?; reflexivity.

Lemma saveTransaction_nfts (env : Env) (tx : TxArg.t) :
  respects same_nfts (saveTransaction env tx).
Proof. frame_solve same_nfts_refl same_nfts_trans. Qed.

Lemma saveTransaction_listings (env : Env) (tx : TxArg.t) :
  respects same_listings (saveTransaction env tx).
Proof. frame_solve same_listings_refl same_listings_trans. Qed.

Lemma dispatch_transactions (env : Env) (ty : string) (e : Event.t) :
  respects same_transactions (dispatch env ty e).
Proof. frame_solve same_transactions_refl same_transactions_trans. Qed.

Lemma handleNFTMinted_listings (env : Env) (e : Event.t) :
  respects same_listings (handleNFTMinted env e).
Proof. frame_solve same_listings_refl same_listings_trans. Qed.

Lemma handleNFTListed_nfts (env : Env) (e : Event.t) :
  respects same_nfts (handleNFTListed env e).
Proof. frame_solve same_nfts_refl same_nfts_trans. Qed.

Lemma handleNFTDelisted_nfts (env : Env) (e : Event.t) :
  respects same_nfts (handleNFTDelisted env e).
Proof. frame_solve same_nfts_refl same_nfts_trans. Qed.

(** *** [processEvent] never throws *)

Lemma total_try_catch {A : Type} (m : M A) (h : Exn -> M A) :
  (forall e, total (h e)) -> total (try_catch m h).
Proof.
  intros Hh w; unfold try_catch.
  destruct (m w) as [[a|e] w']; [exists a; reflexivity | apply Hh].
Qed.

Lemma total_console_error (line : string) : total (console_error line).
Proof. intros w; exists tt; reflexivity. Qed.

Lemma processEvent_total (env : Env) (e : Event.t) : total (processEvent env e).
Proof.
  intros w; unfold processEvent, bind, console_log, emit.
  apply total_try_catch; intros; apply total_console_error.
Qed.

Lemma processEvent_returns (env : Env) (e : Event.t) (w : World) :
  result (processEvent env e) w = Ok tt.
Proof.
  destruct (processEvent_total env e w) as [[] H]; exact H.
Qed.

(** The store after [processEvent], in terms of its two stages. *)
Lemma processEvent_stages (env : Env) (e : Event.t) (w : World) :
  let ty := eventTypeOf e in
  let w0 := observe w (ConsoleLog ("Processing " ++ ty ++ ":")) in
  db (run (processEvent env e) w) =
  match dispatch env ty e w0 with
  | (Ok _, w1) =>
      db (snd ((tx <- transaction_of ty e ;; saveTransaction env tx) w1))
  | (Throw _, w1) => db w1
  end.
Proof.
  cbv zeta; unfold processEvent, run, try_catch, console_log, emit.
  unfold bind at 1; cbn [fst snd].
  unfold bind at 1.
  destruct (dispatch env (eventTypeOf e) e _) as [[[]|ex] w1].
  - destruct (bind _ _ w1) as [[[]|ex] w2]; reflexivity.
  - reflexivity.
Qed.

(** *** Recording the transaction *)

Lemma bind_or_null (v : JsVal) : bind_param (js_or v JNull) = ret (or_null v).
Proof.
  destruct v as [| |s]; try reflexivity.
  unfold js_or, or_null; cbn.
  destruct (s =? ""); reflexivity.
Qed.

Lemma or_null_js_or (v : JsVal) : or_null (js_or v JNull) = or_null v.
Proof.
  destruct v as [| |s]; try reflexivity.
  unfold js_or; cbn. destruct (s =? "") eqn:E; cbn; [reflexivity | rewrite E; reflexivity].
Qed.

Lemma num_or_now_run (env : Env) (n : JsNum) (w : World) :
  fst (num_or_now env n w) = Ok (stamp n (now env (ticks w))) /\
  db (snd (num_or_now env n w)) = db w.
Proof.
  unfold num_or_now, stamp.
  destruct n as [z|]; [destruct (z =? 0)%Z|]; split; reflexivity.
Qed.

(** The second stage of [processEvent]: with a payload and a string digest
    the row is offered to [INSERT OR IGNORE]; a [null] digest is skipped by
    it; an [undefined] digest, or no payload, throws before the statement
    runs. *)
Lemma record_transaction (env : Env) (ty : string) (e : Event.t) (w : World) :
  transactions (db (snd ((tx <- transaction_of ty e ;; saveTransaction env tx) w))) =
  match Event.parsedJson e, Event.txDigest e with
  | Some p, JString digest =>
      if has_digest digest (transactions (db w)) then transactions (db w)
      else transactions (db w) ++ [tx_row ty digest e p (now env (ticks w))]
  | _, _ => transactions (db w)
  end.
Proof.
  unfold transaction_of, payload_of.
  destruct (Event.parsedJson e) as [p|]; [|reflexivity].
  change (bind (ret p) ?k) with (k p); cbv beta.
  change (bind (ret ?a) ?k) with (k a); cbv beta.
  unfold saveTransaction; cbn [TxArg.timestamp TxArg.tx_digest TxArg.event_type
    TxArg.nft_id TxArg.from_address TxArg.to_address TxArg.price].
  rewrite !bind_or_null.
  unfold bind at 1.
  destruct (num_or_now_run env (parseInt (Event.timestampMs e)) w) as [Hr Hd].
  destruct (num_or_now env (parseInt (Event.timestampMs e)) w) as [r w1].
  cbn [fst snd] in Hr, Hd; subst r.
  destruct (Event.txDigest e) as [| |digest]; cbn; rewrite ?Hd; try reflexivity.
  unfold tx_row; rewrite !or_null_js_or.
  destruct (has_digest digest (transactions (db w))); reflexivity.
Qed.

Lemma record_transaction_nfts (env : Env) (ty : string) (e : Event.t) :
  respects same_nfts (tx <- transaction_of ty e ;; saveTransaction env tx).
Proof.
  apply (respects_bind _ same_nfts_trans).
  - apply (respects_quiet _ same_nfts_refl); auto with frame.
  - intros tx; apply saveTransaction_nfts.
Qed.

Lemma record_transaction_listings (env : Env) (ty : string) (e : Event.t) :
  respects same_listings (tx <- transaction_of ty e ;; saveTransaction env tx).
Proof.
  apply (respects_bind _ same_listings_trans).
  - apply (respects_quiet _ same_listings_refl); auto with frame.
  - intros tx; apply saveTransaction_listings.
Qed.

(** [processEvent] changes [nfts] and [listings] exactly as its handler
    does. *)
Lemma processEvent_nfts (env : Env) (e : Event.t) (w : World) :
  nfts (db (run (processEvent env e) w)) =
  nfts (db (snd (dispatch env (eventTypeOf e) e
                   (observe w (ConsoleLog ("Processing " ++ eventTypeOf e ++ ":")))))).
Proof.
  rewrite processEvent_stages; cbv zeta.
  destruct (dispatch env _ e _) as [[[]|ex] w1]; cbn [snd]; [|reflexivity].
  apply (record_transaction_nfts env (eventTypeOf e) e w1).
Qed.

Lemma processEvent_listings (env : Env) (e : Event.t) (w : World) :
  listings (db (run (processEvent env e) w)) =
  listings (db (snd (dispatch env (eventTypeOf e) e
                       (observe w (ConsoleLog ("Processing " ++ eventTypeOf e ++ ":")))))).
Proof.
  rewrite processEvent_stages; cbv zeta.
  destruct (dispatch env _ e _) as [[[]|ex] w1]; cbn [snd]; [|reflexivity].
  apply (record_transaction_listings env (eventTypeOf e) e w1).
Qed.

(** *** Events of an unrecognised kind *)

Lemma dispatch_unknown (env : Env) (ty : string) (e : Event.t) :
  recognised ty = false ->
  dispatch env ty e = console_log ("Unknown event type: " ++ ty).
Proof.
  unfold recognised, dispatch; intros H.
  repeat (apply orb_false_iff in H; destruct H as [H ?]).
  repeat match goal with E : (_ =? _) = false |- _ => rewrite E; clear E end.
  reflexivity.
Qed.

(** *** What each handler does on a well-formed payload *)

Lemma js_or_string (v : JsVal) (s : string) : js_or v (JString s) = JString (or_string v s).
Proof.
  destruct v as [| |x]; try reflexivity.
  unfold js_or, or_string; cbn. destruct (x =? ""); reflexivity.
Qed.

Lemma num_or_now_eq (env : Env) (n : JsNum) (w : World) :
  num_or_now env n w =
  (Ok (stamp n (now env (ticks w))), if num_truthy n then w else tick w).
Proof.
  unfold num_or_now, stamp, num_truthy.
  destruct n as [z|]; [destruct (z =? 0)%Z|]; reflexivity.
Qed.

Lemma saveNFT_strings (env : Env) (i n d u c o : string) (ts : JsNum) (w : World) :
  exists t t' w',
    saveNFT env (NftArg.mk (JString i) (JString n) (JString d) (JString u)
                   (JString c) (JString o) ts) w = (Ok tt, w') /\
    db w' = set_nfts (db w)
              (replace_nft (Nft.mk (Some i) n (Some d) (Some u) c o t (Some t'))
                 (nfts (db w))).
Proof.
  unfold saveNFT. unfold bind at 1. rewrite num_or_now_eq.
  cbn [NftArg.id NftArg.name NftArg.description NftArg.image_url
       NftArg.creator NftArg.owner NftArg.created_at].
  destruct (num_truthy ts); cbn; do 3 eexists; split; reflexivity.
Qed.

Lemma handleNFTMinted_run (env : Env) (e : Event.t) (p : Payload.t) (X C N : string) (w : World) :
  Event.parsedJson e = Some p ->
  Payload.nft_id p = JString X ->
  Payload.creator p = JString C ->
  Payload.name p = JString N ->
  exists t t' w',
    handleNFTMinted env e w = (Ok tt, w') /\
    nfts (db w') =
    match minted_row X C N (getObject env (ticks w) (JString X)) t t' with
    | Some row => replace_nft row (nfts (db w))
    | None => nfts (db w)
    end.
Proof.
  intros Hp HX HC HN.
  unfold handleNFTMinted, payload_of; rewrite Hp.
  change (bind (ret p) ?k) with (k p); cbv beta zeta.
  rewrite HX, HC, HN.
  unfold try_catch, bind at 1, getNFTObject, minted_row.
  destruct (getObject env (ticks w) (JString X)) as [r|].
  - destruct (content_fields r) as [f|].
    + rewrite !js_or_string.
      destruct (saveNFT_strings env X (or_string (f_name f) N)
                  (or_string (f_description f) "") (or_string (f_url f) "")
                  C C (parseInt (Event.timestampMs e)) (tick w))
        as (t & t' & w' & E & D).
      unfold bind at 1. rewrite E. cbn.
      exists t, t'; eexists; split; [reflexivity|].
      cbn. rewrite D. reflexivity.
    + cbn. exists 0%Z, 0%Z, (tick w). split; reflexivity.
  - cbn.
    destruct (saveNFT_strings env X N "" "" C C (parseInt (Event.timestampMs e))
                (observe (tick w) (ConsoleError "Error fetching NFT object:")))
      as (t & t' & w' & E & D).
    exists t, t', w'; split; [exact E | rewrite D; reflexivity].
Qed.

Lemma saveListing_strings (env : Env) (i s p st : string) (ts : JsNum) (w : World) :
  fk_violated env (Some i) (db w) = false ->
  st <> "" ->
  exists t t' w',
    saveListing env (ListingArg.mk (JString i) (JString s) (JString p) (JString st) ts) w
    = (Ok tt, w') /\
    db w' = set_listings (db w)
              (replace_listing (Listing.mk (Some i) s p st t (Some t')) (listings (db w))).
Proof.
  intros Hfk Hst.
  unfold saveListing. unfold bind at 1. rewrite num_or_now_eq.
  cbn [ListingArg.nft_id ListingArg.seller ListingArg.price ListingArg.status
       ListingArg.listed_at].
  assert (Hor : js_or (JString st) (JString "active") = JString st).
  { unfold js_or; cbn. destruct (st =? "") eqn:E; [apply String.eqb_eq in E; contradiction | reflexivity]. }
  rewrite Hor.
  destruct (num_truthy ts); cbn; rewrite Hfk; cbn; do 3 eexists; split; reflexivity.
Qed.

Lemma handleNFTListed_run (env : Env) (e : Event.t) (p : Payload.t) (X S P : string) (w : World) :
  Event.parsedJson e = Some p ->
  Payload.nft_id p = JString X ->
  Payload.seller p = JString S ->
  Payload.price p = JString P ->
  fk_violated env (Some X) (db w) = false ->
  exists t t' w',
    handleNFTListed env e w = (Ok tt, w') /\
    db w' = set_listings (db w)
              (replace_listing (Listing.mk (Some X) S P "active" t (Some t'))
                 (listings (db w))).
Proof.
  intros Hp HX HS HP Hfk.
  unfold handleNFTListed, payload_of; rewrite Hp.
  change (bind (ret p) ?k) with (k p); cbv beta zeta.
  rewrite HX, HS, HP.
  change (bind (toString (JString P)) ?k) with (k (JString P)); cbv beta.
  destruct (saveListing_strings env X S P "active" (parseInt (Event.timestampMs e)) w Hfk)
    as (t & t' & w' & E & D); [discriminate|].
  unfold bind at 1; rewrite E; cbn.
  exists t, t'; eexists; split; [reflexivity | exact D].
Qed.

Lemma updateListingStatus_run (env : Env) (X st : string) (w : World) :
  exists t w',
    updateListingStatus env (JString X) (JString st) w = (Ok tt, w') /\
    db w' = set_listings (db w) (map (set_status (Some X) st t) (listings (db w))).
Proof.
  unfold updateListingStatus; cbn. do 2 eexists; split; reflexivity.
Qed.

Lemma updateNFTOwner_run (env : Env) (X B : string) (w : World) :
  exists t w',
    updateNFTOwner env (JString X) (JString B) w = (Ok tt, w') /\
    db w' = set_nfts (db w) (map (set_owner (Some X) B t) (nfts (db w))).
Proof.
  unfold updateNFTOwner; cbn. do 2 eexists; split; reflexivity.
Qed.

Lemma handleNFTPurchased_run (env : Env) (e : Event.t) (p : Payload.t) (X B : string) (w : World) :
  Event.parsedJson e = Some p ->
  Payload.nft_id p = JString X ->
  Payload.buyer p = JString B ->
  exists t t' w',
    handleNFTPurchased env e w = (Ok tt, w') /\
    listings (db w') = map (set_status (Some X) "sold" t) (listings (db w)) /\
    nfts (db w') = map (set_owner (Some X) B t') (nfts (db w)).
Proof.
  intros Hp HX HB.
  unfold handleNFTPurchased, payload_of; rewrite Hp.
  change (bind (ret p) ?k) with (k p); cbv beta zeta.
  rewrite HX, HB.
  destruct (updateListingStatus_run env X "sold" w) as (t & w1 & E1 & D1).
  destruct (updateNFTOwner_run env X B w1) as (t' & w2 & E2 & D2).
  unfold bind at 1; rewrite E1.
  unfold bind at 1; rewrite E2. cbn.
  exists t, t'; eexists; split; [reflexivity|].
  unfold observe; cbn [db]. rewrite D2; cbn [nfts listings set_nfts]; rewrite D1; cbn [listings set_listings]. split; reflexivity.
Qed.

(** *** [processEvent] after its handler *)

Lemma processEvent_handled (env : Env) (e : Event.t) (w w1 : World) :
  dispatch env (eventTypeOf e) e (started e w) = (Ok tt, w1) ->
  nfts (db (run (processEvent env e) w)) = nfts (db w1) /\
  listings (db (run (processEvent env e) w)) = listings (db w1) /\
  transactions (db (run (processEvent env e) w)) =
  match Event.parsedJson e, Event.txDigest e with
  | Some p, JString digest =>
      if has_digest digest (transactions (db w)) then transactions (db w)
      else transactions (db w) ++ [tx_row (eventTypeOf e) digest e p (now env (ticks w1))]
  | _, _ => transactions (db w)
  end.
Proof.
  intros H.
  pose proof (dispatch_transactions env (eventTypeOf e) e (started e w)) as Ht.
  unfold same_transactions in Ht.
  rewrite processEvent_nfts, processEvent_listings, processEvent_stages; cbv zeta.
  fold (started e w); rewrite H in *; cbn [snd] in *.
  repeat split.
  rewrite record_transaction, Ht. reflexivity.
Qed.

Lemma processEvent_failed (env : Env) (e : Event.t) (w w1 : World) (ex : Exn) :
  dispatch env (eventTypeOf e) e (started e w) = (Throw ex, w1) ->
  db (run (processEvent env e) w) = db w1 /\
  transactions (db w1) = transactions (db w).
Proof.
  intros H.
  pose proof (dispatch_transactions env (eventTypeOf e) e (started e w)) as Ht.
  unfold same_transactions in Ht.
  rewrite processEvent_stages; cbv zeta.
  fold (started e w); rewrite H in *; cbn [snd] in *.
  split; [reflexivity | exact Ht].
Qed.

(** Whatever the event, [processEvent] offers at most its own digest to
    [transactions]. *)
Lemma processEvent_transactions (env : Env) (e : Event.t) (w : World) :
  transactions (db (run (processEvent env e) w)) = transactions (db w) \/
  exists p digest t,
    Event.parsedJson e = Some p /\ Event.txDigest e = JString digest /\
    has_digest digest (transactions (db w)) = false /\
    transactions (db (run (processEvent env e) w)) =
    transactions (db w) ++ [tx_row (eventTypeOf e) digest e p t].
Proof.
  destruct (dispatch env (eventTypeOf e) e (started e w)) as [[[]|ex] w1] eqn:H.
  - destruct (processEvent_handled env e w w1 H) as (_ & _ & Ht).
    destruct (Event.parsedJson e) as [p|]; [|left; exact Ht].
    destruct (Event.txDigest e) as [| |digest]; try (left; exact Ht).
    destruct (has_digest digest (transactions (db w))) eqn:Hd; [left; exact Ht|].
    right; exists p, digest, (now env (ticks w1)); auto.
  - destruct (processEvent_failed env e w w1 ex H) as (Hdb & Ht).
    left; rewrite Hdb; exact Ht.
Qed.


Lemma minted_event_step (env : Env) (e : Event.t) (p : Payload.t)
      (X C N : string) (w : World) :
  eventTypeOf e = "NFTMinted" ->
  Event.parsedJson e = Some p ->
  Payload.nft_id p = JString X ->
  Payload.creator p = JString C ->
  Payload.name p = JString N ->
  exists t t' t'',
    nfts (db (run (processEvent env e) w)) =
    match minted_row X C N (getObject env (ticks w) (JString X)) t t' with
    | Some row => replace_nft row (nfts (db w))
    | None => nfts (db w)
    end /\
    listings (db (run (processEvent env e) w)) = listings (db w) /\
    transactions (db (run (processEvent env e) w)) =
    match Event.txDigest e with
    | JString digest =>
        if has_digest digest (transactions (db w)) then transactions (db w)
        else transactions (db w) ++ [tx_row "NFTMinted" digest e p t'']
    | _ => transactions (db w)
    end.
Proof.
  intros Hty Hp HX HC HN.
  destruct (handleNFTMinted_run env e p X C N (started e w) Hp HX HC HN)
    as (t & t' & w1 & E & D).
  assert (Hd : dispatch env (eventTypeOf e) e (started e w) = (Ok tt, w1)).
  { rewrite Hty; exact E. }
  destruct (processEvent_handled env e w w1 Hd) as (Hn & Hl & Ht).
  exists t, t', (now env (ticks w1)).
  rewrite Hn, Hl, Ht, Hp, Hty; repeat split.
  - exact D.
  - pose proof (handleNFTMinted_listings env e (started e w)) as F.
    unfold same_listings in F; rewrite E in F; exact F.
Qed.

(** *** Batches *)

Lemma run_processEvents_nil (env : Env) (w : World) :
  run (processEvents env []) w = w.
Proof. reflexivity. Qed.

Lemma run_processEvents_cons (env : Env) (e : Event.t) (es : list Event.t) (w : World) :
  run (processEvents env (e :: es)) w =
  run (processEvents env es) (run (processEvent env e) w).
Proof.
  unfold run; cbn [processEvents]; unfold bind at 1.
  pose proof (processEvent_returns env e w) as H; unfold result in H.
  destruct (processEvent env e w) as [r w1]; cbn [fst snd] in *; subst r.
  reflexivity.
Qed.

Lemma processEvents_returns (env : Env) (es : list Event.t) (w : World) :
  result (processEvents env es) w = Ok tt.
Proof.
  revert w; induction es as [|e es IH]; intros w; [reflexivity|].
  unfold result; cbn [processEvents]; unfold bind at 1.
  pose proof (processEvent_returns env e w) as H; unfold result in H.
  destruct (processEvent env e w) as [r w1]; cbn [fst] in H; subst r.
  apply IH.
Qed.

(** ** C1: events of an unrecognised kind *)




(** ** C9 and C3: a Minted event whose detail fetch returns no content *)

Lemma handleNFTMinted_contentless (env : Env) (e : Event.t) (p : Payload.t) (w : World) :
  Event.parsedJson e = Some p ->
  contentless (getObject env (ticks w) (Payload.nft_id p)) = true ->
  handleNFTMinted env e w = (Ok tt, tick w).
Proof.
  intros Hp Hc.
  unfold handleNFTMinted, payload_of; rewrite Hp.
  change (bind (ret p) ?k) with (k p); cbv beta zeta.
  unfold contentless in Hc.
  unfold try_catch, bind at 1, getNFTObject.
  destruct (getObject env (ticks w) (Payload.nft_id p)) as [r|]; [|discriminate].
  destruct (content_fields r); [discriminate | reflexivity].
Qed.

(** C9.  When the detail fetch of a Minted event succeeds but the object
    returned has no content fields, the handler returns normally without
    touching the store: no entity row is written, no exception is raised,
    and the only write of [processEvent] is the transaction record. *)
Theorem mint_without_content_writes_no_entity :
  forall (env : Env) (e : Event.t) (p : Payload.t) (w : World),
    eventTypeOf e = "NFTMinted" ->
    Event.parsedJson e = Some p ->
    contentless (getObject env (ticks w) (Payload.nft_id p)) = true ->
    handleNFTMinted env e (started e w) = (Ok tt, tick (started e w)) /\
    result (processEvent env e) w = Ok tt /\
    nfts (db (run (processEvent env e) w)) = nfts (db w) /\
    listings (db (run (processEvent env e) w)) = listings (db w) /\
    transactions (db (run (processEvent env e) w)) =
    match Event.txDigest e with
    | JString digest =>
        if has_digest digest (transactions (db w)) then transactions (db w)
        else transactions (db w)
             ++ [tx_row "NFTMinted" digest e p (now env (S (ticks w)))]
    | _ => transactions (db w)
    end.
Proof.
  intros env e p w Hty Hp Hc.
  assert (Hh : handleNFTMinted env e (started e w) = (Ok tt, tick (started e w))).
  { apply (handleNFTMinted_contentless env e p); [exact Hp | exact Hc]. }
  split; [exact Hh|].
  split; [apply processEvent_returns|].
  assert (Hd : dispatch env (eventTypeOf e) e (started e w) = (Ok tt, tick (started e w))).
  { rewrite Hty; exact Hh. }
  destruct (processEvent_handled env e w _ Hd) as (Hn & Hl & Ht).
  rewrite Hn, Hl, Ht, Hp, Hty. repeat split.
Qed.

(** C9 at a sample: the node answers without content for the minted id. *)
Lemma mint_without_content_writes_no_entity_witness :
  contentless (getObject env_no_content (ticks w0) (JString "0xX")) = true /\
  nfts (db (run (processEvent env_no_content ev_mint) w0)) = [] /\
  map Tx.tx_digest (transactions (db (run (processEvent env_no_content ev_mint) w0)))
  = ["digest-mint"].
Proof.
  split; [reflexivity|].
  destruct (mint_without_content_writes_no_entity env_no_content ev_mint _ w0
              eq_refl eq_refl eq_refl) as (_ & _ & Hn & _ & Ht).
  split; [exact Hn | rewrite Ht; reflexivity].
Defined.

(** C3, at the input where the code departs from it.  The Minted event
    carries an id, a creator and a name; the node answers the detail fetch
    with an object that has no content.  No entity row is written: the
    handler has a branch for the answer with fields and one for the
    rejected call, and none for this answer.  With the same event, a node
    that rejects the call yields the row built from the event alone, and a
    node that returns fields yields the full row. *)
Theorem mint_is_dropped_when_answer_has_no_content :
  nfts (db (run (processEvent env_no_content ev_mint) w0)) = [] /\
  map (fun r => (Nft.name r, Nft.description r, Nft.image_url r, Nft.owner r))
      (nfts (db (run (processEvent env_rejecting ev_mint) w0)))
  = [("Dawn", Some "", Some "", "0xA")] /\
  map (fun r => (Nft.name r, Nft.description r, Nft.image_url r, Nft.owner r))
      (nfts (db (run (processEvent sample_env ev_mint) w0)))
  = [("Sunrise", Some "A sunrise", Some "https://img/1", "0xA")].
Proof. vm_compute; repeat split. Qed.

(** ** Tables as keyed lists *)

Lemma sql_eq_refl (x : string) : sql_eq (Some x) (Some x) = true.
Proof. apply String.eqb_refl. Qed.

Lemma sql_eq_true (a b : option string) :
  sql_eq a b = true -> exists x, a = Some x /\ b = Some x.
Proof.
  destruct a as [x|], b as [y|]; cbn; try discriminate.
  intros H; apply String.eqb_eq in H; subst; eauto.
Qed.

Section Keyed.

Variable A : Type.
Variable key : A -> option string.

Lemma find_replace_same (X : string) (r : A) (l : list A) :
  key r = Some X ->
  find (fun a => sql_eq (key a) (Some X)) (replace_row key r l) = Some r.
Proof.
  intros Hr; unfold replace_row; rewrite Hr.
  induction l as [|a l IH]; cbn.
  - rewrite Hr, sql_eq_refl; reflexivity.
  - destruct (sql_eq (key a) (Some X)) eqn:E; cbn; [exact IH|].
    rewrite E; exact IH.
Qed.

Lemma find_replace_other (X : string) (r : A) (l : list A) :
  sql_eq (key r) (Some X) = false ->
  find (fun a => sql_eq (key a) (Some X)) (replace_row key r l) =
  find (fun a => sql_eq (key a) (Some X)) l.
Proof.
  intros Hr; unfold replace_row.
  induction l as [|a l IH]; cbn.
  - rewrite Hr; reflexivity.
  - destruct (sql_eq (key a) (key r)) eqn:E; cbn.
    + apply sql_eq_true in E; destruct E as (y & Ea & Er).
      rewrite Ea, <- Er, Hr; exact IH.
    + destruct (sql_eq (key a) (Some X)); [reflexivity | exact IH].
Qed.

Lemma find_map_keep (X : string) (f : A -> A) (l : list A) :
  (forall a, key (f a) = key a) ->
  find (fun a => sql_eq (key a) (Some X)) (map f l) =
  option_map f (find (fun a => sql_eq (key a) (Some X)) l).
Proof.
  intros Hf; induction l as [|a l IH]; cbn; [reflexivity|].
  rewrite Hf; destruct (sql_eq (key a) (Some X)); [reflexivity | exact IH].
Qed.

Lemma map_without_match (X : string) (f : A -> A) (l : list A) :
  find (fun a => sql_eq (key a) (Some X)) l = None ->
  (forall a, sql_eq (key a) (Some X) = false -> f a = a) ->
  map f l = l.
Proof.
  intros Hnone Hf; induction l as [|a l IH]; cbn in *; [reflexivity|].
  destruct (sql_eq (key a) (Some X)) eqn:E; [discriminate|].
  rewrite (Hf a E), (IH Hnone); reflexivity.
Qed.


End Keyed.

Lemma set_owner_id (i : option string) (o : string) (t : Z) (r : Nft.t) :
  Nft.id (set_owner i o t r) = Nft.id r.
Proof. unfold set_owner; destruct (sql_eq (Nft.id r) i); reflexivity. Qed.

Lemma set_status_id (i : option string) (s : string) (t : Z) (r : Listing.t) :
  Listing.nft_id (set_status i s t r) = Listing.nft_id r.
Proof. unfold set_status; destruct (sql_eq (Listing.nft_id r) i); reflexivity. Qed.

Lemma getNFT_saved (X : string) (r : Nft.t) (d : DB) :
  Nft.id r = Some X ->
  getNFT X (set_nfts d (replace_nft r (nfts d))) = Some r.
Proof. intros H; apply (find_replace_same Nft.t Nft.id X r (nfts d) H). Qed.

Lemma getListing_saved (X : string) (r : Listing.t) (d : DB) :
  Listing.nft_id r = Some X ->
  getListing X (set_listings d (replace_listing r (listings d))) = Some r.
Proof. intros H; apply (find_replace_same Listing.t Listing.nft_id X r (listings d) H). Qed.

(** *** Listed and Purchased events with a well-formed payload *)

Lemma listed_event_step (env : Env) (e : Event.t) (p : Payload.t)
      (X S P : string) (w : World) :
  eventTypeOf e = "NFTListed" ->
  Event.parsedJson e = Some p ->
  Payload.nft_id p = JString X ->
  Payload.seller p = JString S ->
  Payload.price p = JString P ->
  fk_violated env (Some X) (db w) = false ->
  exists t t',
    nfts (db (run (processEvent env e) w)) = nfts (db w) /\
    listings (db (run (processEvent env e) w)) =
    replace_listing (Listing.mk (Some X) S P "active" t (Some t')) (listings (db w)).
Proof.
  intros Hty Hp HX HS HP Hfk.
  destruct (handleNFTListed_run env e p X S P (started e w) Hp HX HS HP Hfk)
    as (t & t' & w1 & E & D).
  assert (Hd : dispatch env (eventTypeOf e) e (started e w) = (Ok tt, w1)).
  { rewrite Hty; exact E. }
  destruct (processEvent_handled env e w w1 Hd) as (Hn & Hl & _).
  exists t, t'. rewrite Hn, Hl, D. split; reflexivity.
Qed.

Lemma purchased_event_step (env : Env) (e : Event.t) (p : Payload.t)
      (X B : string) (w : World) :
  eventTypeOf e = "NFTPurchased" ->
  Event.parsedJson e = Some p ->
  Payload.nft_id p = JString X ->
  Payload.buyer p = JString B ->
  exists t t',
    listings (db (run (processEvent env e) w)) =
    map (set_status (Some X) "sold" t) (listings (db w)) /\
    nfts (db (run (processEvent env e) w)) =
    map (set_owner (Some X) B t') (nfts (db w)).
Proof.
  intros Hty Hp HX HB.
  destruct (handleNFTPurchased_run env e p X B (started e w) Hp HX HB)
    as (t & t' & w1 & E & Dl & Dn).
  assert (Hd : dispatch env (eventTypeOf e) e (started e w) = (Ok tt, w1)).
  { rewrite Hty; exact E. }
  destruct (processEvent_handled env e w w1 Hd) as (Hn & Hl & _).
  exists t, t'. rewrite Hn, Hl, Dl, Dn. split; reflexivity.
Qed.

Lemma minted_row_some (X C N : string) (r : option ObjectResponse) (t t' : Z) :
  contentless r = false ->
  exists row,
    minted_row X C N r t t' = Some row /\
    Nft.id row = Some X /\ Nft.owner row = C /\ Nft.creator row = C.
Proof.
  unfold contentless, minted_row; intros H.
  destruct r as [r|]; [destruct (content_fields r); [|discriminate]|];
    eexists; repeat split.
Qed.

Lemma owner_after_update (X B : string) (t : Z) (l : list Nft.t) (r : Nft.t) :
  find (fun a => sql_eq (Nft.id a) (Some X)) l = Some r ->
  option_map Nft.owner
    (find (fun a => sql_eq (Nft.id a) (Some X)) (map (set_owner (Some X) B t) l))
  = Some B.
Proof.
  intros H.
  rewrite (find_map_keep Nft.t Nft.id X _ l (set_owner_id (Some X) B t)), H.
  apply find_some in H; destruct H as [_ H].
  cbn; unfold set_owner; rewrite H; reflexivity.
Qed.

Lemma status_after_update (X st : string) (t : Z) (l : list Listing.t) (r : Listing.t) :
  find (fun a => sql_eq (Listing.nft_id a) (Some X)) l = Some r ->
  option_map Listing.status
    (find (fun a => sql_eq (Listing.nft_id a) (Some X)) (map (set_status (Some X) st t) l))
  = Some st.
Proof.
  intros H.
  rewrite (find_map_keep Listing.t Listing.nft_id X _ l (set_status_id (Some X) st t)), H.
  apply find_some in H; destruct H as [_ H].
  cbn; unfold set_status; rewrite H; reflexivity.
Qed.


Lemma handleNFTPurchased_returns (env : Env) (e : Event.t) (p : Payload.t)
      (X B : string) (w : World) :
  Event.parsedJson e = Some p ->
  Payload.nft_id p = JString X ->
  Payload.buyer p = JString B ->
  result (handleNFTPurchased env e) w = Ok tt.
Proof.
  intros Hp HX HB.
  destruct (handleNFTPurchased_run env e p X B w Hp HX HB) as (t & t' & w' & E & _).
  unfold result; rewrite E; reflexivity.
Qed.

(** ** C6: the order of Listed and Purchased *)



(** ** C5: applying a Purchased event twice *)

Lemma db_eta (d : DB) : mkDB (nfts d) (listings d) (transactions d) (indexer_state d) = d.
Proof. destruct d; reflexivity. Qed.

Lemma same_state_refl (d : DB) : same_state d d.
Proof. reflexivity. Qed.

Lemma same_state_trans (a b c : DB) : same_state a b -> same_state b c -> same_state a c.
Proof. unfold same_state; congruence. Qed.

Lemma processEvent_state (env : Env) (e : Event.t) :
  respects same_state (processEvent env e).
Proof. frame_solve same_state_refl same_state_trans. Qed.

Lemma db_ext (d d' : DB) :
  nfts d = nfts d' -> listings d = listings d' ->
  transactions d = transactions d' -> indexer_state d = indexer_state d' -> d = d'.
Proof. destruct d, d'; cbn; intros; subst; reflexivity. Qed.

Lemma record_transaction_db (env : Env) (e : Event.t) (w : World) :
  db (snd ((tx <- transaction_of (eventTypeOf e) e ;; saveTransaction env tx) w)) =
  match Event.parsedJson e with
  | Some p => recorded e p (now env (ticks w)) (db w)
  | None => db w
  end.
Proof.
  assert (Hs : respects same_state
                 (tx <- transaction_of (eventTypeOf e) e ;; saveTransaction env tx)).
  { unfold transaction_of; frame_solve same_state_refl same_state_trans. }
  specialize (Hs w).
  pose proof (record_transaction env (eventTypeOf e) e w) as Ht.
  pose proof (record_transaction_nfts env (eventTypeOf e) e w) as Hn.
  pose proof (record_transaction_listings env (eventTypeOf e) e w) as Hl.
  unfold same_nfts, same_listings, same_state in *.
  apply db_ext.
  - rewrite Hn. destruct (Event.parsedJson e); [|reflexivity].
    unfold recorded. destruct (Event.txDigest e); try reflexivity.
    destruct (has_digest _ _); reflexivity.
  - rewrite Hl. destruct (Event.parsedJson e); [|reflexivity].
    unfold recorded. destruct (Event.txDigest e); try reflexivity.
    destruct (has_digest _ _); reflexivity.
  - rewrite Ht. destruct (Event.parsedJson e); [|reflexivity].
    unfold recorded. destruct (Event.txDigest e); try reflexivity.
    destruct (has_digest _ _); reflexivity.
  - rewrite Hs. destruct (Event.parsedJson e); [|reflexivity].
    unfold recorded. destruct (Event.txDigest e); try reflexivity.
    destruct (has_digest _ _); reflexivity.
Qed.

Lemma processEvent_purchased (env : Env) (e : Event.t) (w : World) :
  eventTypeOf e = "NFTPurchased" ->
  exists t1 t2 t3,
    db (run (processEvent env e) w) = purchased_store e t1 t2 t3 (db w).
Proof.
  intros Hty.
  rewrite processEvent_stages; cbv zeta.
  remember (tx <- transaction_of (eventTypeOf e) e ;; saveTransaction env tx) as rec eqn:Hrec.
  rewrite Hty.
  change (dispatch env "NFTPurchased" e) with (handleNFTPurchased env e).
  unfold handleNFTPurchased, payload_of, purchased_store.
  destruct (Event.parsedJson e) as [p|] eqn:Hp.
  2:{ exists 0%Z, 0%Z, 0%Z; reflexivity. }
  change (bind (ret p) ?k) with (k p); cbv beta zeta.
  destruct (Payload.nft_id p) as [| |X]; destruct (Payload.buyer p) as [| |B]; cbn.
  all: try (exists 0%Z, 0%Z, 0%Z; reflexivity).
  all: try (exists (now env (ticks w)), 0%Z, 0%Z; reflexivity).
  all: try (subst rec; rewrite record_transaction_db, Hp;
            exists (now env (ticks w)), (now env (S (ticks w)));
            eexists; reflexivity).
  all: unfold updateNFTOwner, bind, Date_now, ret, get_db, throw, console_log, emit;
    cbn;
    match goal with |- context [existsb ?f ?l] => destruct (existsb f l) end; cbn;
    try (exists (now env (ticks w)), 0%Z, 0%Z; reflexivity).
  all:  subst rec; rewrite record_transaction_db, Hp;
    exists (now env (ticks w)), 0%Z; eexists; reflexivity.
Qed.

Lemma erase_set_status_twice (i : option string) (s : string) (a t : Z) (r : Listing.t) :
  erase_listing (set_status i s a (set_status i s t r)) = erase_listing (set_status i s t r).
Proof.
  unfold set_status. destruct (sql_eq (Listing.nft_id r) i) eqn:E; cbn; rewrite E; reflexivity.
Qed.

Lemma erase_set_owner_twice (i : option string) (o : string) (a t : Z) (r : Nft.t) :
  erase_nft (set_owner i o a (set_owner i o t r)) = erase_nft (set_owner i o t r).
Proof.
  unfold set_owner. destruct (sql_eq (Nft.id r) i) eqn:E; cbn; rewrite E; reflexivity.
Qed.

Lemma erase_status_map_twice (i : option string) (s : string) (a t : Z) (l : list Listing.t) :
  map erase_listing (map (set_status i s a) (map (set_status i s t) l)) =
  map erase_listing (map (set_status i s t) l).
Proof.
  rewrite !map_map. apply map_ext; intros r. apply erase_set_status_twice.
Qed.

Lemma erase_owner_map_twice (i : option string) (o : string) (a t : Z) (l : list Nft.t) :
  map erase_nft (map (set_owner i o a) (map (set_owner i o t) l)) =
  map erase_nft (map (set_owner i o t) l).
Proof.
  rewrite !map_map. apply map_ext; intros r. apply erase_set_owner_twice.
Qed.

Lemma has_digest_app (dg : string) (l : list Tx.t) (r : Tx.t) :
  has_digest dg (l ++ [r]) = has_digest dg l || (Tx.tx_digest r =? dg).
Proof. unfold has_digest; rewrite existsb_app; cbn; rewrite orb_false_r; reflexivity. Qed.

(** Recording is idempotent, whatever else was written to the other tables
    in between and whatever the clock shows. *)
Lemma recorded_twice (e : Event.t) (p : Payload.t) (a t : Z) (d d' : DB) :
  transactions d' = transactions (recorded e p t d) ->
  transactions (recorded e p a d') = transactions (recorded e p t d).
Proof.
  unfold recorded. destruct (Event.txDigest e) as [| |dg]; try (intros ->; reflexivity).
  destruct (has_digest dg (transactions d)) eqn:H; intros Hd'.
  - rewrite Hd', H; exact Hd'.
  - cbn [set_transactions transactions] in *.
    rewrite Hd', has_digest_app; cbn [tx_row Tx.tx_digest].
    rewrite String.eqb_refl, orb_true_r. exact Hd'.
Qed.

Lemma recorded_nfts (e : Event.t) (p : Payload.t) (t : Z) (d : DB) :
  nfts (recorded e p t d) = nfts d.
Proof.
  unfold recorded; destruct (Event.txDigest e); try reflexivity.
  destruct (has_digest _ _); reflexivity.
Qed.

Lemma recorded_listings (e : Event.t) (p : Payload.t) (t : Z) (d : DB) :
  listings (recorded e p t d) = listings d.
Proof.
  unfold recorded; destruct (Event.txDigest e); try reflexivity.
  destruct (has_digest _ _); reflexivity.
Qed.

Lemma recorded_state (e : Event.t) (p : Payload.t) (t : Z) (d : DB) :
  indexer_state (recorded e p t d) = indexer_state d.
Proof.
  unfold recorded; destruct (Event.txDigest e); try reflexivity.
  destruct (has_digest _ _); reflexivity.
Qed.

Lemma existsb_set_owner (i j : option string) (o : string) (t : Z) (l : list Nft.t) :
  existsb (fun r => sql_eq (Nft.id r) j) (map (set_owner i o t) l) =
  existsb (fun r => sql_eq (Nft.id r) j) l.
Proof.
  induction l as [|r l IH]; cbn; [reflexivity|].
  rewrite set_owner_id, IH; reflexivity.
Qed.

Lemma erase_ext (d d' : DB) :
  map erase_nft (nfts d) = map erase_nft (nfts d') ->
  map erase_listing (listings d) = map erase_listing (listings d') ->
  transactions d = transactions d' ->
  indexer_state d = indexer_state d' ->
  erase_updated_at d = erase_updated_at d'.
Proof. unfold erase_updated_at; intros -> -> -> ->; reflexivity. Qed.

Ltac simp_store :=
  repeat progress
    (cbn [nfts listings transactions indexer_state set_nfts set_listings
          set_transactions];
     rewrite ?recorded_nfts, ?recorded_listings, ?recorded_state,
       ?existsb_set_owner).

Lemma purchased_store_twice (e : Event.t) (a1 a2 a3 t1 t2 t3 : Z) (d : DB) :
  erase_updated_at (purchased_store e a1 a2 a3 (purchased_store e t1 t2 t3 d)) =
  erase_updated_at (purchased_store e t1 t2 t3 d).
Proof.
  unfold purchased_store.
  destruct (Event.parsedJson e) as [p|]; [|reflexivity].
  destruct (Payload.nft_id p) as [| |X]; [reflexivity| |];
    destruct (Payload.buyer p) as [| |B]; cbv zeta; simp_store.
  all: try match goal with
       | |- context [existsb ?f (nfts ?x)] =>
           is_var x; destruct (existsb f (nfts x)) eqn:E; simp_store; rewrite ?E
       end.
  all: apply erase_ext; simp_store;
    rewrite ?erase_status_map_twice, ?erase_owner_map_twice; try reflexivity.
  all: apply recorded_twice; simp_store; reflexivity.
Qed.

(** C5 (as stated, refuted at a concrete store).  After Minted and Listed
    for the sample entity, the Purchased event applied twice leaves another
    store than applied once: the [updated_at] of the listing and of the
    entity row hold the time of the second application. *)
Lemma purchase_twice_counterexample :
  db (run (processEvents sample_env [ev_buy; ev_buy]) w_listed) <>
  db (run (processEvents sample_env [ev_buy]) w_listed) /\
  map Listing.updated_at
    (listings (db (run (processEvents sample_env [ev_buy]) w_listed)))
  = [Some 1003%Z] /\
  map Listing.updated_at
    (listings (db (run (processEvents sample_env [ev_buy; ev_buy]) w_listed)))
  = [Some 1005%Z].
Proof.
  split; [|split; vm_compute; reflexivity].
  intros H.
  apply (f_equal (fun d => map Listing.updated_at (listings d))) in H.
  vm_compute in H; discriminate.
Qed.

(** C5 (amended).  Applying a Purchased event twice, in one batch or in a
    later one (after the clock, the console and the node have moved on),
    leaves the same entity, listing and transaction tables as applying it
    once, except for the [updated_at] columns, which hold the time of the
    latest application: the transaction insert is ignored on the stored
    digest, and status and owner are overwritten with the same values. *)
Theorem purchase_twice_same_store_modulo_updated_at :
  forall (env : Env) (e : Event.t) (w : World),
    eventTypeOf e = "NFTPurchased" ->
    erase_updated_at (db (run (processEvents env [e; e]) w)) =
    erase_updated_at (db (run (processEvents env [e]) w)) /\
    (forall w',
        db w' = db (run (processEvent env e) w) ->
        erase_updated_at (db (run (processEvent env e) w')) =
        erase_updated_at (db (run (processEvent env e) w)) /\
        transactions (db (run (processEvent env e) w')) =
        transactions (db (run (processEvent env e) w)) /\
        map Nft.owner (nfts (db (run (processEvent env e) w'))) =
        map Nft.owner (nfts (db (run (processEvent env e) w))) /\
        map Listing.status (listings (db (run (processEvent env e) w'))) =
        map Listing.status (listings (db (run (processEvent env e) w)))).
Proof.
  intros env e w Hty.
  assert (Later : forall w',
             db w' = db (run (processEvent env e) w) ->
             erase_updated_at (db (run (processEvent env e) w')) =
             erase_updated_at (db (run (processEvent env e) w))).
  { intros w' Hw'.
    destruct (processEvent_purchased env e w Hty) as (t1 & t2 & t3 & E1).
    destruct (processEvent_purchased env e w' Hty) as (a1 & a2 & a3 & E2).
    rewrite E2, Hw', E1. apply purchased_store_twice. }
  split.
  - rewrite !run_processEvents_cons, !run_processEvents_nil.
    apply Later; reflexivity.
  - intros w' Hw'. specialize (Later w' Hw').
    split; [exact Later|].
    unfold erase_updated_at in Later.
    injection Later as Hn Hl Ht _.
    split; [exact Ht|]. split.
    + apply (f_equal (map Nft.owner)) in Hn.
      rewrite !map_map in Hn; exact Hn.
    + apply (f_equal (map Listing.status)) in Hl.
      rewrite !map_map in Hl; exact Hl.
Qed.

(** The amended C5 at the sample purchase. *)
Lemma purchase_twice_same_store_modulo_updated_at_witness :
  eventTypeOf ev_buy = "NFTPurchased" /\
  erase_updated_at (db (run (processEvents sample_env [ev_buy; ev_buy]) w_listed)) =
  erase_updated_at (db (run (processEvents sample_env [ev_buy]) w_listed)).
Proof.
  split; [reflexivity|].
  exact (proj1 (purchase_twice_same_store_modulo_updated_at
                  sample_env ev_buy w_listed eq_refl)).
Defined.

(** ** The loop: what processing leaves alone *)

Section Keeps.

Variables (T : Type) (f : World -> T).

Lemma keeps_ret {A : Type} (a : A) : keeps f (ret a).
Proof. intros w; reflexivity. Qed.

Lemma keeps_throw {A : Type} (e : Exn) : keeps f (@throw A e).
Proof. intros w; reflexivity. Qed.

Lemma keeps_bind {A B : Type} (m : M A) (k : A -> M B) :
  keeps f m -> (forall a, keeps f (k a)) -> keeps f (bind m k).
Proof.
  intros Hm Hk w; unfold bind.
  specialize (Hm w); destruct (m w) as [[a|e] w']; cbn in *.
  - rewrite Hk; exact Hm.
  - exact Hm.
Qed.

Lemma keeps_try_catch {A : Type} (m : M A) (h : Exn -> M A) :
  keeps f m -> (forall e, keeps f (h e)) -> keeps f (try_catch m h).
Proof.
  intros Hm Hh w; unfold try_catch.
  specialize (Hm w); destruct (m w) as [[a|e] w']; cbn in *.
  - exact Hm.
  - rewrite Hh; exact Hm.
Qed.

End Keeps.

Lemma schedule_app (a b : list Obs) : schedule (a ++ b) = schedule a ++ schedule b.
Proof. apply filter_app. Qed.

Lemma control_console_log (line : string) : keeps control (console_log line).
Proof.
  intros w; unfold control; cbn. rewrite schedule_app; cbn. rewrite app_nil_r; reflexivity.
Qed.

Lemma control_console_error (line : string) : keeps control (console_error line).
Proof.
  intros w; unfold control; cbn. rewrite schedule_app; cbn. rewrite app_nil_r; reflexivity.
Qed.

Lemma control_modify_db (g : DB -> DB) : keeps control (modify_db g).
Proof. intros w; reflexivity. Qed.

Lemma control_get_db : keeps control get_db.
Proof. intros w; reflexivity. Qed.

Lemma control_Date_now (env : Env) : keeps control (Date_now env).
Proof. intros w; reflexivity. Qed.

Lemma control_num_or_now (env : Env) (n : JsNum) : keeps control (num_or_now env n).
Proof.
  intros w; unfold num_or_now.
  destruct n as [z|]; [destruct (z =? 0)%Z|]; reflexivity.
Qed.

Lemma control_bind_param (v : JsVal) : keeps control (bind_param v).
Proof. intros w; destruct v; reflexivity. Qed.

Lemma control_not_null (c : string) (v : option string) : keeps control (not_null c v).
Proof. intros w; destruct v; reflexivity. Qed.

Lemma control_payload_of (e : Event.t) : keeps control (payload_of e).
Proof. intros w; unfold payload_of; destruct (Event.parsedJson e); reflexivity. Qed.

Lemma control_toString (v : JsVal) : keeps control (toString v).
Proof. intros w; destruct v; reflexivity. Qed.

Lemma control_getNFTObject (env : Env) (v : JsVal) : keeps control (getNFTObject env v).
Proof.
  intros w; unfold getNFTObject.
  destruct (getObject env (ticks w) v); reflexivity.
Qed.

Create HintDb control.

#[local] Hint Resolve keeps_ret keeps_throw control_console_log control_console_error
  control_modify_db control_get_db control_Date_now control_num_or_now
  control_bind_param control_not_null control_payload_of control_toString
  control_getNFTObject : control.

Ltac control_walk :=
  repeat first
    [ solve [ auto with control ]
    | match goal with
      | |- keeps _ (bind _ _) => apply keeps_bind; [ | intros ? ]
      | |- keeps _ (try_catch _ _) => apply keeps_try_catch; [ | intros ? ]
      | |- keeps _ (match ?x with _ => _ end) => destruct x
      | |- keeps _ (if ?b then _ else _) => destruct b
      | |- keeps _ (let _ := _ in _) => cbv zeta
      end ].

(** Processing events writes to the console and to the store only: it
    neither fetches, nor sleeps, nor stops the loop. *)
Lemma control_processEvent (env : Env) (e : Event.t) : keeps control (processEvent env e).
Proof. frame_ops; unfold transaction_of; control_walk. Qed.

Lemma control_processEvents (env : Env) (es : list Event.t) :
  keeps control (processEvents env es).
Proof.
  induction es as [|e es IH]; cbn [processEvents].
  - apply keeps_ret.
  - apply keeps_bind; [apply control_processEvent | intros _; exact IH].
Qed.

(** *** One cycle of the loop *)

Lemma indexEvents_fetched (env : Env) (es : list Event.t) (w : World) :
  queryAllEvents env (ticks w) = Some es ->
  exists w',
    indexEvents env w = (Ok tt, w') /\
    db w' = db (run (processEvents env es) (fetched es w)) /\
    control w' = (schedule (trace w) ++ [FetchEvents], isRunning w).
Proof.
  intros Hq.
  unfold indexEvents, try_catch, bind at 1, getAllMarketplaceEvents; rewrite Hq.
  destruct es as [|e es].
  - eexists; split; [reflexivity|]; split; [reflexivity|].
    unfold control; cbn. rewrite schedule_app; reflexivity.
  - unfold bind at 1, console_log at 1, emit at 1.
    fold (fetched (e :: es) w).
    pose proof (processEvents_returns env (e :: es) (fetched (e :: es) w)) as Hr.
    pose proof (control_processEvents env (e :: es) (fetched (e :: es) w)) as Hc.
    unfold result in Hr. unfold run.
    unfold bind at 1.
    destruct (processEvents env (e :: es) (fetched (e :: es) w)) as [r w1].
    cbn [fst snd] in *; subst r. cbn.
    eexists; split; [reflexivity|]; split; [reflexivity|].
    unfold control in *; cbn in *. rewrite schedule_app; cbn. rewrite app_nil_r.
    injection Hc as Hs Hi. rewrite Hs, Hi, !schedule_app; cbn.
    rewrite app_nil_r; reflexivity.
Qed.

Lemma indexEvents_rejected (env : Env) (w : World) :
  queryAllEvents env (ticks w) = None ->
  indexEvents env w =
  (Ok tt, observe (tick (observe w FetchEvents)) (ConsoleError "Error indexing events:")).
Proof.
  intros Hq.
  unfold indexEvents, try_catch, bind at 1, getAllMarketplaceEvents; rewrite Hq.
  reflexivity.
Qed.

Lemma indexEvents_control (env : Env) (w : World) :
  exists w',
    indexEvents env w = (Ok tt, w') /\
    control w' = (schedule (trace w) ++ [FetchEvents], isRunning w).
Proof.
  destruct (queryAllEvents env (ticks w)) as [es|] eqn:Hq.
  - destruct (indexEvents_fetched env es w Hq) as (w' & E & _ & C); eauto.
  - rewrite (indexEvents_rejected env w Hq). eexists; split; [reflexivity|].
    unfold control; cbn. rewrite !schedule_app; cbn. rewrite app_nil_r; reflexivity.
Qed.

Lemma poll_cycle_run (env : Env) (this : IndexerService) (w : World) :
  exists w1 w',
    indexEvents env w = (Ok tt, w1) /\
    poll_cycle env this w = (Ok tt, w') /\
    db w' = db w1 /\
    schedule (trace w') =
    schedule (trace w) ++ [FetchEvents; Sleep (pollInterval this)] /\
    isRunning w' = isRunning w && negb (stop_requested env (ticks w1)).
Proof.
  destruct (indexEvents_control env w) as (w1 & E & C).
  exists w1. unfold poll_cycle, bind at 1, try_catch; rewrite E.
  unfold sleep, bind, emit, stop, console_log, emit. cbn.
  unfold control in C; injection C as Cs Ci.
  destruct (stop_requested env (ticks w1)); eexists; (split; [reflexivity|]);
    (split; [reflexivity|]); (split; [reflexivity|]); cbn;
    rewrite ?schedule_app, Cs, ?Ci; cbn; rewrite <- ?app_assoc, ?app_nil_r, ?andb_false_r, ?andb_true_r;
    split; reflexivity.
Qed.


(** ** C8: the loop and its errors *)



(** ** C7: the same event delivered in two cycles *)






Lemma is_string_inv (v : JsVal) : is_string v = true -> exists s, v = JString s.
Proof. destruct v; cbn; try discriminate; eauto. Qed.

Lemma handleNFTDelisted_returns (env : Env) (e : Event.t) (p : Payload.t)
      (X : string) (w : World) :
  Event.parsedJson e = Some p ->
  Payload.nft_id p = JString X ->
  result (handleNFTDelisted env e) w = Ok tt.
Proof.
  intros Hp HX. unfold result, handleNFTDelisted, payload_of; rewrite Hp.
  change (bind (ret p) ?k) with (k p); cbv beta zeta. rewrite HX.
  destruct (updateListingStatus_run env X "delisted" w) as (t & w' & E & _).
  unfold bind at 1; rewrite E. reflexivity.
Qed.

(** The handler of a well-formed event completes. *)
Lemma well_formed_completes (env : Env) (e : Event.t) (w : World) :
  well_formed env (db w) e = true ->
  result (dispatch env (eventTypeOf e) e) w = Ok tt.
Proof.
  unfold well_formed, dispatch.
  destruct (Event.parsedJson e) as [p|] eqn:Hp; [|discriminate].
  destruct (eventTypeOf e =? "NFTMinted").
  { intros H. apply andb_prop in H; destruct H as [H HN].
    apply andb_prop in H; destruct H as [HX HC].
    apply is_string_inv in HX, HC, HN.
    destruct HX as (X & HX), HC as (C & HC), HN as (N & HN).
    destruct (handleNFTMinted_run env e p X C N w Hp HX HC HN) as (t & t' & w' & E & _).
    unfold result; rewrite E; reflexivity. }
  destruct (eventTypeOf e =? "NFTListed").
  { intros H. apply andb_prop in H; destruct H as [H Hfk].
    apply andb_prop in H; destruct H as [H HP].
    apply andb_prop in H; destruct H as [HX HS].
    apply is_string_inv in HX, HS, HP.
    destruct HX as (X & HX), HS as (S & HS), HP as (P & HP).
    rewrite HX in Hfk; cbn [bound] in Hfk. apply negb_true_iff in Hfk.
    destruct (handleNFTListed_run env e p X S P w Hp HX HS HP Hfk)
      as (t & t' & w' & E & _).
    unfold result; rewrite E; reflexivity. }
  destruct (eventTypeOf e =? "NFTPurchased").
  { intros H. apply andb_prop in H; destruct H as [HX HB].
    apply is_string_inv in HX, HB.
    destruct HX as (X & HX), HB as (B & HB).
    apply (handleNFTPurchased_returns env e p X B w Hp HX HB). }
  destruct (eventTypeOf e =? "NFTDelisted").
  { intros HX. apply is_string_inv in HX. destruct HX as (X & HX).
    apply (handleNFTDelisted_returns env e p X w Hp HX). }
  reflexivity.
Qed.



(** ** C10: listings without an entity *)

Lemma In_insert_desc (r x : ListingView.t) (l : list ListingView.t) :
  In x (insert_desc r l) <-> x = r \/ In x l.
Proof.
  induction l as [|a l IH]; cbn.
  - intuition congruence.
  - destruct (ListingView.listed_at r <? ListingView.listed_at a)%Z; cbn.
    + rewrite IH. intuition congruence.
    + intuition congruence.
Qed.

Lemma In_order_by (x : ListingView.t) (l : list ListingView.t) :
  In x (order_by_listed_at_desc l) <-> In x l.
Proof.
  unfold order_by_listed_at_desc.
  induction l as [|a l IH]; cbn; [reflexivity|].
  rewrite In_insert_desc, IH. intuition congruence.
Qed.

Lemma In_join_listings (v : ListingView.t) (d : DB) :
  In v (join_listings d) <->
  exists l n, In l (listings d) /\ In n (nfts d) /\
              sql_eq (Listing.nft_id l) (Nft.id n) = true /\ v = view l n.
Proof.
  unfold join_listings. rewrite in_flat_map. split.
  - intros (l & Hl & Hv). apply in_map_iff in Hv. destruct Hv as (n & <- & Hn).
    apply filter_In in Hn. destruct Hn as [Hn Hk]. exists l, n; auto.
  - intros (l & n & Hl & Hn & Hk & ->). exists l; split; [exact Hl|].
    apply in_map, filter_In; auto.
Qed.

Lemma In_getListings (status : JsVal) (v : ListingView.t) (d : DB) :
  In v (getListings status d) -> In v (join_listings d).
Proof.
  unfold getListings. destruct (truthy status); rewrite In_order_by; [|auto].
  intros H; apply filter_In in H; tauto.
Qed.

(** C10.  Under every status filter, and without one, the rows returned by
    [getListings] come from the inner join of [listings] with [nfts]: a
    listing row whose [nft_id] is the [id] of no entity row, although it is
    in the table, contributes no row to the result. *)
Theorem getListings_omits_listing_without_entity :
  forall (status : JsVal) (d : DB) (l : Listing.t),
    In l (listings d) ->
    (forall n, In n (nfts d) -> sql_eq (Listing.nft_id l) (Nft.id n) = false) ->
    forall v, In v (getListings status d) ->
              ListingView.nft_id v <> Listing.nft_id l /\
              forall n, v <> view l n.
Proof.
  intros status d l Hl Horphan v Hv.
  apply In_getListings, In_join_listings in Hv.
  destruct Hv as (l' & n & Hl' & Hn & Hk & ->).
  split.
  - cbn. intros E. rewrite E, (Horphan n Hn) in Hk. discriminate.
  - intros n' E. apply (f_equal ListingView.nft_id) in E; cbn in E.
    rewrite E, (Horphan n Hn) in Hk. discriminate.
Qed.

(** C10 at a store reached by processing a Listed event before any Minted
    one (on an engine that does not enforce the foreign key): the listing
    row is in the table, and the query returns nothing. *)
Lemma getListings_omits_listing_without_entity_witness :
  map Listing.nft_id (listings (db (run (processEvent sample_env ev_list) w0)))
  = [Some "0xX"] /\
  getListings (JString "active") (db (run (processEvent sample_env ev_list) w0)) = [] /\
  getListings JUndefined (db (run (processEvent sample_env ev_list) w0)) = [] /\
  forall v,
    In v (getListings (JString "active") (db (run (processEvent sample_env ev_list) w0))) ->
    ListingView.nft_id v <> Some "0xX".
Proof.
  split; [reflexivity|]. split; [reflexivity|]. split; [reflexivity|].
  intros v Hv.
  refine (proj1 (getListings_omits_listing_without_entity (JString "active")
            (db (run (processEvent sample_env ev_list) w0))
            (Listing.mk (Some "0xX") "0xA" "100" "active" 1700000000002 (Some 1000%Z))
            _ _ v Hv)).
  - left; reflexivity.
  - intros n Hn; destruct Hn.
Defined.

Example listed_before_minted_with_foreign_keys :
  listings (db (run (processEvent env_rejecting ev_list) w0)) = [] /\
  trace (run (processEvent env_rejecting ev_list) w0)
  = [ConsoleLog "Processing NFTListed:"; ConsoleError "Error processing NFTListed:"].
Proof. split; reflexivity. Qed.

(** ** C4: start-up and the configuration *)


Section StartupFacts.

Variable Keypair : Type.
Variable getFullnodeUrl : string -> option string.
Variable fromBase64 : string -> option (list Byte.byte).
Variable fromSecretKey : list Byte.byte -> option Keypair.
Variable toSuiAddress : Keypair -> string.



End StartupFacts.



(** ** C2: the owner of an entity *)

Lemma same_owner_refl (X : string) (d : DB) : same_owner X d d.
Proof. reflexivity. Qed.

Lemma same_owner_trans (X : string) (a b c : DB) :
  same_owner X a b -> same_owner X b c -> same_owner X a c.
Proof. unfold same_owner; congruence. Qed.

Lemma respects_weaken (R R' : DB -> DB -> Prop) {A : Type} (m : M A) :
  (forall d d', R d d' -> R' d d') -> respects R m -> respects R' m.
Proof. intros H Hm w; apply H, Hm. Qed.

Lemma same_nfts_owner (X : string) (d d' : DB) : same_nfts d d' -> same_owner X d d'.
Proof. unfold same_nfts, same_owner, getNFT; intros ->; reflexivity. Qed.

Lemma owner_after_replace_other (X : string) (r : Nft.t) (d : DB) :
  Nft.id r <> Some X ->
  same_owner X d (set_nfts d (replace_nft r (nfts d))).
Proof.
  intros H; unfold same_owner, getNFT; cbn [nfts set_nfts].
  change (replace_nft r (nfts d)) with (replace_row Nft.id r (nfts d)).
  rewrite (find_replace_other Nft.t Nft.id X r (nfts d)); [reflexivity|].
  destruct (Nft.id r) as [y|]; [|reflexivity]; cbn.
  apply String.eqb_neq; congruence.
Qed.

Lemma owner_after_update_other (X : string) (i : option string) (o : string) (t : Z) (d : DB) :
  i <> Some X ->
  same_owner X d (set_nfts d (map (set_owner i o t) (nfts d))).
Proof.
  intros H; unfold same_owner, getNFT; cbn [nfts set_nfts].
  rewrite (find_map_keep Nft.t Nft.id X _ _ (set_owner_id i o t)).
  destruct (find _ (nfts d)) as [r|] eqn:F; [|reflexivity].
  apply find_some in F; destruct F as [_ F].
  apply sql_eq_true in F; destruct F as (x & Hr & Hx); injection Hx as <-.
  cbn; unfold set_owner; rewrite Hr.
  destruct i as [y|]; cbn; [|reflexivity].
  destruct (X =? y) eqn:E; [apply String.eqb_eq in E; congruence | reflexivity].
Qed.

Lemma saveNFT_other (env : Env) (nft : NftArg.t) (X : string) :
  NftArg.id nft <> JString X ->
  respects (same_owner X) (saveNFT env nft).
Proof.
  intros Hid w. destruct nft as [id name description image_url creator owner created].
  cbn [NftArg.id] in Hid.
  unfold saveNFT; unfold bind at 1; rewrite num_or_now_eq.
  cbn [NftArg.id NftArg.name NftArg.description NftArg.image_url
       NftArg.creator NftArg.owner NftArg.created_at].
  set (w1 := if num_truthy created then w else tick w).
  assert (D1 : db w1 = db w) by (unfold w1; destruct (num_truthy created); reflexivity).
  rewrite <- D1. clearbody w1.
  destruct id, name, description, image_url, creator, owner; cbn;
    try apply same_owner_refl;
    apply owner_after_replace_other; cbn; congruence.
Qed.

Lemma updateNFTOwner_other (env : Env) (nftId newOwner : JsVal) (X : string) :
  nftId <> JString X ->
  respects (same_owner X) (updateNFTOwner env nftId newOwner).
Proof.
  intros Hid w. unfold updateNFTOwner.
  destruct newOwner, nftId; cbn; try apply same_owner_refl;
    try (apply owner_after_update_other; congruence);
    match goal with |- context [existsb ?f ?l] => destruct (existsb f l) end;
    apply same_owner_refl.
Qed.

Lemma updateListingStatus_nfts (env : Env) (nftId status : JsVal) :
  respects same_nfts (updateListingStatus env nftId status).
Proof. frame_solve same_nfts_refl same_nfts_trans. Qed.

Lemma handleNFTMinted_other (env : Env) (e : Event.t) (X : string) :
  writes_owner_of X e = false ->
  eventTypeOf e = "NFTMinted" ->
  respects (same_owner X) (handleNFTMinted env e).
Proof.
  intros Hw Hty. unfold writes_owner_of in Hw. rewrite Hty in Hw; cbn in Hw.
  unfold handleNFTMinted, payload_of.
  destruct (Event.parsedJson e) as [p|].
  2:{ apply (respects_quiet _ (same_owner_refl X)); intros w; reflexivity. }
  change (bind (ret p) ?k) with (k p); cbv beta zeta.
  assert (Hid : Payload.nft_id p <> JString X).
  { intros E; rewrite E, String.eqb_refl in Hw; discriminate. }
  frame_walk (same_owner_refl X) (same_owner_trans X);
    apply saveNFT_other; exact Hid.
Qed.

Lemma handleNFTPurchased_other (env : Env) (e : Event.t) (X : string) :
  writes_owner_of X e = false ->
  eventTypeOf e = "NFTPurchased" ->
  respects (same_owner X) (handleNFTPurchased env e).
Proof.
  intros Hw Hty. unfold writes_owner_of in Hw. rewrite Hty in Hw; cbn in Hw.
  unfold handleNFTPurchased, payload_of.
  destruct (Event.parsedJson e) as [p|].
  2:{ apply (respects_quiet _ (same_owner_refl X)); intros w; reflexivity. }
  change (bind (ret p) ?k) with (k p); cbv beta zeta.
  assert (Hid : Payload.nft_id p <> JString X).
  { intros E; rewrite E, String.eqb_refl in Hw; discriminate. }
  apply (respects_bind _ (same_owner_trans X)).
  - apply (respects_weaken same_nfts); [apply same_nfts_owner|].
    apply updateListingStatus_nfts.
  - intros _. apply (respects_bind _ (same_owner_trans X)).
    + apply updateNFTOwner_other; exact Hid.
    + intros _. apply (respects_quiet _ (same_owner_refl X)).
      unfold console_log; auto with frame.
Qed.

Lemma dispatch_other (env : Env) (e : Event.t) (X : string) :
  writes_owner_of X e = false ->
  respects (same_owner X) (dispatch env (eventTypeOf e) e).
Proof.
  intros Hw. unfold dispatch.
  destruct (eventTypeOf e =? "NFTMinted") eqn:E1.
  { apply String.eqb_eq in E1. apply handleNFTMinted_other; assumption. }
  destruct (eventTypeOf e =? "NFTListed").
  { apply (respects_weaken same_nfts); [apply same_nfts_owner|].
    apply handleNFTListed_nfts. }
  destruct (eventTypeOf e =? "NFTPurchased") eqn:E3.
  { apply String.eqb_eq in E3. apply handleNFTPurchased_other; assumption. }
  destruct (eventTypeOf e =? "NFTDelisted").
  { apply (respects_weaken same_nfts); [apply same_nfts_owner|].
    apply handleNFTDelisted_nfts. }
  apply (respects_quiet _ (same_owner_refl X)). unfold console_log; auto with frame.
Qed.

Lemma processEvent_other (env : Env) (e : Event.t) (X : string) :
  writes_owner_of X e = false ->
  forall w, same_owner X (db w) (db (run (processEvent env e) w)).
Proof.
  intros Hw w. unfold same_owner, getNFT.
  rewrite processEvent_nfts.
  apply (dispatch_other env e X Hw (started e w)).
Qed.

Lemma processEvents_other (env : Env) (X : string) (es : list Event.t) :
  (forall e, In e es -> writes_owner_of X e = false) ->
  forall w, same_owner X (db w) (db (run (processEvents env es) w)).
Proof.
  induction es as [|e es IH]; intros H w.
  - apply same_owner_refl.
  - rewrite run_processEvents_cons.
    eapply same_owner_trans.
    + apply (processEvent_other env e X); apply H; left; reflexivity.
    + apply IH. intros e' He'; apply H; right; exact He'.
Qed.

(** C2 (as stated, refuted at a concrete sequence).  Minted, Purchased by
    0xB, and the Minted event delivered again: the entity row is owned by
    its creator 0xA, while the buyer of the most recent Purchased event for
    the entity is 0xB. *)
Lemma redelivered_mint_counterexample :
  option_map Nft.owner
    (getNFT "0xX" (db (run (processEvents sample_env [ev_mint; ev_buy; ev_mint]) w0)))
  = Some "0xA" /\
  owner_by_spec "0xX" [ev_mint; ev_buy; ev_mint] "0xA" = "0xB".
Proof. vm_compute; split; reflexivity. Qed.

(** C2 (amended).  The owner of an entity row is what the latest event that
    wrote it says.  After a Purchased event for X naming buyer B, processed
    while the row exists, and any later events none of which is a Minted or
    Purchased event for X, the owner is B.  After a Minted event for X by
    creator C that writes the row, and any such later events, the owner is
    C, whatever purchases were processed before: a Minted event delivered
    again overwrites the row and sets the owner back to the creator. *)
Theorem owner_follows_latest_write :
  forall (env : Env) (X : string) (later : list Event.t) (w : World),
    (forall e, In e later -> writes_owner_of X e = false) ->
    (forall b pb B row,
        eventTypeOf b = "NFTPurchased" ->
        Event.parsedJson b = Some pb ->
        Payload.nft_id pb = JString X ->
        Payload.buyer pb = JString B ->
        getNFT X (db w) = Some row ->
        option_map Nft.owner
          (getNFT X (db (run (processEvents env (b :: later)) w))) = Some B) /\
    (forall m pm C N,
        eventTypeOf m = "NFTMinted" ->
        Event.parsedJson m = Some pm ->
        Payload.nft_id pm = JString X ->
        Payload.creator pm = JString C ->
        Payload.name pm = JString N ->
        contentless (getObject env (ticks w) (JString X)) = false ->
        option_map Nft.owner
          (getNFT X (db (run (processEvents env (m :: later)) w))) = Some C).
Proof.
  intros env X later w Hlater. split.
  - intros b pb B row Hb Hpb HX HB Hrow.
    rewrite run_processEvents_cons.
    rewrite (processEvents_other env X later Hlater (run (processEvent env b) w)).
    destruct (purchased_event_step env b pb X B w Hb Hpb HX HB) as (t & t' & _ & Pn).
    unfold getNFT in *; rewrite Pn.
    apply (owner_after_update X B t' _ row Hrow).
  - intros m pm C N Hm Hpm HX HC HN Hc.
    rewrite run_processEvents_cons.
    rewrite (processEvents_other env X later Hlater (run (processEvent env m) w)).
    destruct (minted_event_step env m pm X C N w Hm Hpm HX HC HN)
      as (t & t' & t'' & Mn & _ & _).
    destruct (minted_row_some X C N _ t t' Hc) as (row & Hrow & Hid & Ho & _).
    rewrite Hrow in Mn. unfold getNFT; rewrite Mn.
    change (replace_nft row (nfts (db w))) with (replace_row Nft.id row (nfts (db w))).
    rewrite (find_replace_same Nft.t Nft.id X row _ Hid). cbn. rewrite Ho. reflexivity.
Qed.

(** The amended C2 at the sample events: a purchase followed by a listing,
    and a mint delivered again after the purchase. *)
Lemma owner_follows_latest_write_witness :
  (forall e, In e [ev_list] -> writes_owner_of "0xX" e = false) /\
  option_map Nft.owner
    (getNFT "0xX" (db (run (processEvents sample_env [ev_buy; ev_list]) w_listed)))
  = Some "0xB" /\
  option_map Nft.owner
    (getNFT "0xX"
       (db (run (processEvents sample_env [ev_mint; ev_list])
              (run (processEvent sample_env ev_buy) w_listed))))
  = Some "0xA".
Proof.
  assert (H : forall e, In e [ev_list] -> writes_owner_of "0xX" e = false).
  { intros e [<-|[]]; reflexivity. }
  split; [exact H|]. split.
  - refine (proj1 (owner_follows_latest_write sample_env "0xX" [ev_list] w_listed H)
              ev_buy _ "0xB" _ eq_refl eq_refl eq_refl eq_refl eq_refl).
  - refine (proj2 (owner_follows_latest_write sample_env "0xX" [ev_list]
                     (run (processEvent sample_env ev_buy) w_listed) H)
              ev_mint _ "0xA" "Dawn" eq_refl eq_refl eq_refl eq_refl eq_refl eq_refl).
Defined.

(** * Further properties

    Properties read off the code, beyond the claims of the specification:
    X1 to X3 (the entity table and the keys), X4 to X7 (what the events do
    to the store), X8 to X12 (the queries, the cursor row and the
    statistics), X13 (stopping the loop), X14 and X15 (a listing without an
    entity, an event without a payload), X16 to X18 (the event queries of
    the Sui service), X19 to X24 (the HTTP handlers) and X25 (the signing
    key). *)

(** ** [saveNFT] and [getNFT] *)

Lemma saveNFT_run (env : Env) (nft : NftArg.t) (w : World) :
  if saveNFT_accepts nft
  then exists t',
      result (saveNFT env nft) w = Ok tt /\
      db (run (saveNFT env nft) w) =
      set_nfts (db w) (replace_nft (nft_row nft (now env (ticks w)) t') (nfts (db w)))
  else (exists ex, result (saveNFT env nft) w = Throw ex) /\
       db (run (saveNFT env nft) w) = db w.
Proof.
  destruct nft as [id name description image_url creator owner created].
  unfold saveNFT_accepts, nft_row, result, run.
  destruct (saveNFT env _ w) as [res w'] eqn:E.
  unfold saveNFT in E. unfold bind at 1 in E. rewrite num_or_now_eq in E.
  cbn [NftArg.id NftArg.name NftArg.description NftArg.image_url
       NftArg.creator NftArg.owner NftArg.created_at fst snd] in *.
  set (w1 := if num_truthy created then w else tick w) in E.
  assert (D1 : db w1 = db w) by (unfold w1; destruct (num_truthy created); reflexivity).
  rewrite <- D1. clearbody w1.
  destruct id, name, description, image_url, creator, owner; cbn in E |- *;
    injection E as <- <-;
    try (split; [eexists; reflexivity | reflexivity]);
    eexists; split; reflexivity.
Qed.

(** X1.  Insert and look up: when [saveNFT] accepts its arguments and the
    id is the string [X], [getNFT X] afterwards returns exactly the row that
    was handed in, whether or not a row for [X] was there before; every
    other id reads as before, and the other tables are untouched. *)
Theorem saveNFT_then_getNFT :
  forall (env : Env) (nft : NftArg.t) (X : string) (w : World),
    saveNFT_accepts nft = true ->
    NftArg.id nft = JString X ->
    exists t',
      result (saveNFT env nft) w = Ok tt /\
      getNFT X (db (run (saveNFT env nft) w)) = Some (nft_row nft (now env (ticks w)) t') /\
      (forall Y, Y <> X ->
                 getNFT Y (db (run (saveNFT env nft) w)) = getNFT Y (db w)) /\
      listings (db (run (saveNFT env nft) w)) = listings (db w) /\
      transactions (db (run (saveNFT env nft) w)) = transactions (db w).
Proof.
  intros env nft X w Hacc Hid.
  pose proof (saveNFT_run env nft w) as H. rewrite Hacc in H.
  destruct H as (t' & Hr & Hd). exists t'.
  split; [exact Hr|]. rewrite Hd. split; [|split; [|split; reflexivity]].
  - apply getNFT_saved. unfold nft_row; cbn. rewrite Hid; reflexivity.
  - intros Y HY. unfold getNFT; cbn [nfts set_nfts].
    change (replace_nft ?r ?l) with (replace_row Nft.id r l).
    apply (find_replace_other Nft.t Nft.id Y).
    unfold nft_row; cbn. rewrite Hid; cbn.
    apply String.eqb_neq; congruence.
Qed.

Lemma saveNFT_then_getNFT_witness :
  saveNFT_accepts sample_nft_arg = true /\
  exists t',
    getNFT "0xX" (db (run (saveNFT sample_env sample_nft_arg) w_listed))
    = Some (nft_row sample_nft_arg (now sample_env (ticks w_listed)) t').
Proof.
  split; [reflexivity|].
  destruct (saveNFT_then_getNFT sample_env sample_nft_arg "0xX" w_listed
              eq_refl eq_refl) as (t' & _ & H & _).
  exists t'; exact H.
Defined.


(** ** The uniqueness constraints of the schema *)

Lemma In_keys {A : Type} (key : A -> option string) (k : string) (l : list A) :
  In k (keys key l) <-> exists a, In a l /\ key a = Some k.
Proof.
  unfold keys; rewrite in_flat_map. split.
  - intros (a & Ha & Hk). exists a; split; [exact Ha|].
    destruct (key a) as [k'|]; [destruct Hk as [<-|[]]; reflexivity | destruct Hk].
  - intros (a & Ha & Hk). exists a; split; [exact Ha|]. rewrite Hk; left; reflexivity.
Qed.

Lemma NoDup_keys_filter {A : Type} (key : A -> option string) (p : A -> bool) (l : list A) :
  NoDup (keys key l) -> NoDup (keys key (filter p l)).
Proof.
  induction l as [|a l IH]; cbn; [auto|].
  destruct (key a) as [k|] eqn:Hk; cbn; intros H.
  - inversion H as [|? ? Hnot Hrest]; subst.
    destruct (p a); cbn; [rewrite Hk; cbn|]; auto.
    constructor; [|auto].
    intros Hin; apply Hnot. apply In_keys in Hin; destruct Hin as (b & Hb & Hkb).
    apply filter_In in Hb; apply In_keys; exists b; tauto.
  - destruct (p a); cbn; [rewrite Hk; cbn|]; auto.
Qed.

Lemma NoDup_keys_replace {A : Type} (key : A -> option string) (r : A) (l : list A) :
  NoDup (keys key l) -> NoDup (keys key (replace_row key r l)).
Proof.
  intros H. unfold replace_row, keys. rewrite flat_map_app; cbn. rewrite app_nil_r.
  fold (keys key (filter (fun x => negb (sql_eq (key x) (key r))) l)).
  destruct (key r) as [k|] eqn:Hk.
  - apply NoDup_app.
    + apply NoDup_keys_filter; exact H.
    + constructor; [intros [] | constructor].
    + intros a Hin [<-|[]]. apply In_keys in Hin; destruct Hin as (b & Hb & Hkb).
      apply filter_In in Hb; destruct Hb as [_ Hb].
      rewrite Hkb, sql_eq_refl in Hb; discriminate.
  - rewrite app_nil_r. apply NoDup_keys_filter; exact H.
Qed.

Lemma keys_map_keep {A : Type} (key : A -> option string) (f : A -> A) (l : list A) :
  (forall a, key (f a) = key a) -> keys key (map f l) = keys key l.
Proof.
  intros Hf; unfold keys; induction l as [|a l IH]; cbn; [reflexivity|].
  rewrite Hf, IH; reflexivity.
Qed.

Lemma has_digest_In (dg : string) (l : list Tx.t) :
  has_digest dg l = false -> ~ In dg (map Tx.tx_digest l).
Proof.
  unfold has_digest; intros H Hin.
  apply in_map_iff in Hin; destruct Hin as (r & Hr & Hin).
  assert (E : existsb (fun r => Tx.tx_digest r =? dg) l = true).
  { apply existsb_exists; exists r; split; [exact Hin|]. rewrite Hr; apply String.eqb_refl. }
  congruence.
Qed.

Lemma NoDup_insert_or_ignore (dg ty n f t p : option string) (ts : Z) (l : list Tx.t) :
  NoDup (map Tx.tx_digest l) ->
  NoDup (map Tx.tx_digest (insert_or_ignore_tx dg ty n f t p ts l)).
Proof.
  intros H; unfold insert_or_ignore_tx.
  destruct dg as [dg|]; [|exact H]. destruct ty as [ty|]; [|exact H].
  destruct (has_digest dg l) eqn:E; [exact H|].
  rewrite map_app; cbn. apply NoDup_app; [exact H | constructor; [intros []|constructor] |].
  intros a Hin [<-|[]]. exact (has_digest_In _ _ E Hin).
Qed.

Lemma keeps_unique_refl (d : DB) : keeps_unique d d.
Proof. intros H; exact H. Qed.

Lemma keeps_unique_trans (a b c : DB) :
  keeps_unique a b -> keeps_unique b c -> keeps_unique a c.
Proof. unfold keeps_unique; auto. Qed.

Ltac unique_write :=
  apply (respects_modify _); intros ? (Hn & Hl & Ht);
  unfold unique_keys; cbn [nfts listings transactions set_nfts set_listings
                           set_transactions];
  repeat split;
  first [ assumption
        | apply (NoDup_keys_replace Nft.id); assumption
        | apply (NoDup_keys_replace Listing.nft_id); assumption
        | rewrite (keys_map_keep Nft.id); [assumption | intros; apply set_owner_id]
        | rewrite (keys_map_keep Listing.nft_id); [assumption | intros; apply set_status_id]
        | apply NoDup_insert_or_ignore; assumption ].

Lemma processEvent_unique (env : Env) (e : Event.t) :
  respects keeps_unique (processEvent env e).
Proof.
  frame_ops; unfold transaction_of.
  frame_walk keeps_unique_refl keeps_unique_trans; unique_write.
Qed.

Lemma processEvents_unique (env : Env) (es : list Event.t) (w : World) :
  unique_keys (db w) -> unique_keys (db (run (processEvents env es) w)).
Proof.
  revert w; induction es as [|e es IH]; intros w H; [exact H|].
  rewrite run_processEvents_cons. apply IH. apply (processEvent_unique env e w H).
Qed.

Lemma poll_cycle_unique (env : Env) (this : IndexerService) (w : World) :
  unique_keys (db w) -> unique_keys (db (run (poll_cycle env this) w)).
Proof.
  intros H.
  destruct (poll_cycle_run env this w) as (w1 & w' & E1 & E & D & _).
  unfold run; rewrite E; cbn [snd]. rewrite D.
  destruct (queryAllEvents env (ticks w)) as [es|] eqn:Hq.
  - destruct (indexEvents_fetched env es w Hq) as (w1' & E1' & D1 & _).
    rewrite E1 in E1'; injection E1' as <-. rewrite D1.
    apply processEvents_unique. destruct es; exact H.
  - rewrite (indexEvents_rejected env w Hq) in E1. injection E1 as <-. exact H.
Qed.

(** X3.  The keys stay unique.  In a store where no two entity rows share
    an id, no two listings an [nft_id] and no two transactions a digest,
    processing any batch of events, and any number of turns of the loop,
    whatever the node answers, leaves a store with the same three
    properties; the empty store has them. *)
Theorem keys_stay_unique :
  forall (env : Env) (this : IndexerService) (es : list Event.t) (n : nat) (w : World),
    unique_keys (db w) ->
    unique_keys (db (run (processEvents env es) w)) /\
    unique_keys (db (run (poll env this n) w)) /\
    unique_keys empty_db.
Proof.
  intros env this es n w H. split; [apply processEvents_unique; exact H|]. split.
  - revert w H; induction n as [|n IH]; intros w H; [exact H|].
    unfold run; cbn [poll]. destruct (isRunning w); [|exact H].
    unfold bind at 1.
    destruct (poll_cycle_run env this w) as (w1 & w' & _ & E & _).
    pose proof (poll_cycle_unique env this w H) as U. unfold run in U.
    rewrite E in *. cbn [snd] in U. apply (IH w' U).
  - unfold unique_keys; cbn; repeat split; constructor.
Qed.

Lemma keys_stay_unique_witness :
  unique_keys (db w0) /\
  unique_keys (db (run (processEvents sample_env [ev_mint; ev_list; ev_buy; ev_mint]) w0)).
Proof.
  assert (H : unique_keys (db w0)) by (unfold unique_keys; cbn; repeat split; constructor).
  split; [exact H|].
  exact (proj1 (keys_stay_unique sample_env (new_IndexerService (fun _ => None))
                  [ev_mint; ev_list; ev_buy; ev_mint] 0 w0 H)).
Defined.

(** ** Two events of one transaction *)

Lemma rows_with_digest_none (dg : string) (l : list Tx.t) :
  has_digest dg l = false -> rows_with_digest dg l = [].
Proof.
  unfold has_digest, rows_with_digest.
  induction l as [|r l IH]; cbn; [reflexivity|].
  destruct (Tx.tx_digest r =? dg); cbn; [discriminate | exact IH].
Qed.

(** X4.  The transaction log is keyed by digest alone, and the first event
    wins: when two events carry the same digest (two events emitted by one
    transaction) and the first is well formed and not stored yet, the batch
    leaves exactly one row with that digest, the row of the first event;
    the second event is processed without an exception, its handler runs,
    and its transaction is never recorded. *)
Theorem second_event_of_a_transaction_is_not_recorded :
  forall (env : Env) (e1 e2 : Event.t) (p1 : Payload.t) (dg : string) (w : World),
    Event.txDigest e1 = JString dg ->
    Event.txDigest e2 = JString dg ->
    Event.parsedJson e1 = Some p1 ->
    well_formed env (db w) e1 = true ->
    has_digest dg (transactions (db w)) = false ->
    exists t,
      rows_with_digest dg (transactions (db (run (processEvents env [e1; e2]) w)))
      = [tx_row (eventTypeOf e1) dg e1 p1 t] /\
      transactions (db (run (processEvents env [e1; e2]) w)) =
      transactions (db (run (processEvent env e1) w)) /\
      result (processEvents env [e1; e2]) w = Ok tt.
Proof.
  intros env e1 e2 p1 dg w H1 H2 Hp Hwf Hfresh.
  rewrite !run_processEvents_cons, run_processEvents_nil.
  pose proof (well_formed_completes env e1 (started e1 w) Hwf) as Hok.
  unfold result in Hok.
  destruct (dispatch env (eventTypeOf e1) e1 (started e1 w)) as [[[]|ex] wh] eqn:Hh;
    [|discriminate].
  destruct (processEvent_handled env e1 w wh Hh) as (_ & _ & Ht).
  rewrite Hp, H1, Hfresh in Ht.
  set (w1 := run (processEvent env e1) w) in *.
  assert (Hhas : has_digest dg (transactions (db w1)) = true).
  { rewrite Ht, has_digest_app; cbn. rewrite String.eqb_refl. apply orb_true_r. }
  assert (Hsame : transactions (db (run (processEvent env e2) w1)) = transactions (db w1)).
  { destruct (processEvent_transactions env e2 w1)
      as [E | (p & dg' & t & _ & Hd' & Hf & _)]; [exact E|].
    rewrite H2 in Hd'; injection Hd' as <-. congruence. }
  exists (now env (ticks wh)). rewrite Hsame. split; [|split; [reflexivity|]].
  - rewrite Ht. unfold rows_with_digest. rewrite filter_app.
    fold (rows_with_digest dg (transactions (db w))).
    rewrite (rows_with_digest_none dg _ Hfresh). cbn.
    rewrite String.eqb_refl. reflexivity.
  - apply processEvents_returns.
Qed.

Lemma second_event_of_a_transaction_is_not_recorded_witness :
  well_formed sample_env (db w0) ev_mint = true /\
  has_digest "digest-mint" (transactions (db w0)) = false /\
  map Tx.event_type
    (transactions (db (run (processEvents sample_env [ev_mint; ev_list_same_tx]) w0)))
  = ["NFTMinted"] /\
  map Listing.nft_id
    (listings (db (run (processEvents sample_env [ev_mint; ev_list_same_tx]) w0)))
  = [Some "0xX"].
Proof.
  split; [reflexivity|]. split; [reflexivity|].
  destruct (second_event_of_a_transaction_is_not_recorded sample_env
              ev_mint ev_list_same_tx _ "digest-mint" w0
              eq_refl eq_refl eq_refl eq_refl eq_refl) as (t & _ & H & _).
  split; [rewrite H; reflexivity | reflexivity].
Defined.

(** ** Delisting and listing again *)

Lemma delisted_event_step (env : Env) (e : Event.t) (p : Payload.t) (X : string) (w : World) :
  eventTypeOf e = "NFTDelisted" ->
  Event.parsedJson e = Some p ->
  Payload.nft_id p = JString X ->
  exists t wh,
    dispatch env (eventTypeOf e) e (started e w) = (Ok tt, wh) /\
    nfts (db (run (processEvent env e) w)) = nfts (db w) /\
    listings (db (run (processEvent env e) w)) =
    map (set_status (Some X) "delisted" t) (listings (db w)).
Proof.
  intros Hty Hp HX.
  destruct (updateListingStatus_run env X "delisted" (started e w)) as (t & w1 & E & D).
  assert (Hd : dispatch env (eventTypeOf e) e (started e w)
               = (Ok tt, observe w1 (ConsoleLog ("NFT delisted: " ++ X)))).
  { rewrite Hty. change (dispatch env "NFTDelisted" e) with (handleNFTDelisted env e).
    unfold handleNFTDelisted, payload_of; rewrite Hp.
    change (bind (ret p) ?k) with (k p); cbv beta zeta. rewrite HX.
    unfold bind at 1; rewrite E. reflexivity. }
  destruct (processEvent_handled env e w _ Hd) as (Hn & Hl & _).
  exists t; eexists; split; [exact Hd|].
  rewrite Hn, Hl. unfold observe; cbn [db]. rewrite D. split; reflexivity.
Qed.

Lemma getListing_other_after_update (X Y st : string) (t : Z) (l : list Listing.t) :
  Y <> X ->
  find (fun a => sql_eq (Listing.nft_id a) (Some Y)) (map (set_status (Some X) st t) l)
  = find (fun a => sql_eq (Listing.nft_id a) (Some Y)) l.
Proof.
  intros HY.
  rewrite (find_map_keep Listing.t Listing.nft_id Y _ l (set_status_id (Some X) st t)).
  destruct (find _ l) as [r|] eqn:F; [|reflexivity].
  apply find_some in F; destruct F as [_ F].
  apply sql_eq_true in F; destruct F as (y & Hr & Hy); injection Hy as <-.
  cbn; unfold set_status; rewrite Hr; cbn.
  destruct (Y =? X) eqn:E; [apply String.eqb_eq in E; congruence | reflexivity].
Qed.

(** X5.  A Delisted event for [X] marks the listing and nothing else: when
    a listing row for [X] exists it keeps its seller, price and listing
    time and its status becomes [delisted]; when none exists the table is
    unchanged and nothing is raised; the listings of other entities and the
    entity table are untouched, and the event's transaction is recorded. *)
Theorem delisted_event_marks_listing :
  forall (env : Env) (e : Event.t) (p : Payload.t) (X dg : string) (w : World),
    eventTypeOf e = "NFTDelisted" ->
    Event.parsedJson e = Some p ->
    Payload.nft_id p = JString X ->
    Event.txDigest e = JString dg ->
    has_digest dg (transactions (db w)) = false ->
    (forall l, getListing X (db w) = Some l ->
               exists t,
                 getListing X (db (run (processEvent env e) w)) =
                 Some (Listing.mk (Listing.nft_id l) (Listing.seller l) (Listing.price l)
                                  "delisted" (Listing.listed_at l) (Some t))) /\
    (getListing X (db w) = None ->
     listings (db (run (processEvent env e) w)) = listings (db w)) /\
    (forall Y, Y <> X ->
               getListing Y (db (run (processEvent env e) w)) = getListing Y (db w)) /\
    nfts (db (run (processEvent env e) w)) = nfts (db w) /\
    (exists t,
        transactions (db (run (processEvent env e) w)) =
        transactions (db w) ++ [tx_row "NFTDelisted" dg e p t]).
Proof.
  intros env e p X dg w Hty Hp HX Hd Hfresh.
  destruct (delisted_event_step env e p X w Hty Hp HX) as (t & wh & Hh & Hn & Hl).
  destruct (processEvent_handled env e w wh Hh) as (_ & _ & Ht).
  rewrite Hp, Hd, Hfresh, Hty in Ht.
  split; [|split; [|split; [|split]]].
  - intros l Hget. exists t. unfold getListing in *. rewrite Hl.
    rewrite (find_map_keep Listing.t Listing.nft_id X _ _ (set_status_id (Some X) "delisted" t)).
    rewrite Hget. apply find_some in Hget; destruct Hget as [_ Hk].
    cbn. unfold set_status. rewrite Hk. reflexivity.
  - intros Hnone. rewrite Hl.
    apply (map_without_match Listing.t Listing.nft_id X); [exact Hnone|].
    intros a Ha; unfold set_status; rewrite Ha; reflexivity.
  - intros Y HY. unfold getListing. rewrite Hl.
    apply getListing_other_after_update; exact HY.
  - exact Hn.
  - eexists; exact Ht.
Qed.

Lemma delisted_event_marks_listing_witness :
  has_digest "digest-delist" (transactions (db w_listed)) = false /\
  option_map Listing.status
    (getListing "0xX" (db (run (processEvent sample_env ev_delist) w_listed)))
  = Some "delisted" /\
  listings (db (run (processEvent sample_env ev_delist) w0)) = [].
Proof.
  split; [reflexivity|].
  destruct (delisted_event_marks_listing sample_env ev_delist _ "0xX" "digest-delist"
              w_listed eq_refl eq_refl eq_refl eq_refl eq_refl) as (H & _).
  destruct (H _ eq_refl) as (t & E).
  split; [rewrite E; reflexivity|].
  exact (proj1 (proj2 (delisted_event_marks_listing sample_env ev_delist _ "0xX"
                         "digest-delist" w0 eq_refl eq_refl eq_refl eq_refl eq_refl))
           eq_refl).
Defined.

Lemma count_after_replace {A : Type} (key : A -> option string) (X : string) (r : A)
      (l : list A) :
  key r = Some X ->
  filter (fun a => sql_eq (key a) (Some X)) (replace_row key r l) = [r].
Proof.
  intros Hr. unfold replace_row. rewrite filter_app; cbn.
  rewrite Hr, sql_eq_refl.
  assert (E : filter (fun a => sql_eq (key a) (Some X))
                (filter (fun x => negb (sql_eq (key x) (Some X))) l) = []).
  { induction l as [|a l IH]; cbn; [reflexivity|].
    destruct (sql_eq (key a) (Some X)) eqn:Ea; cbn; [exact IH|].
    rewrite Ea; exact IH. }
  rewrite E; reflexivity.
Qed.

(** X6.  Listing again replaces the row.  After Listed, Delisted and a
    second Listed event for the same entity (which the foreign key accepts),
    the table holds exactly one row for the entity, and it is the second
    listing: its seller and price, status [active], whatever the first
    listing and the delisting left. *)
Theorem relisting_replaces_the_row :
  forall (env : Env) (l1 dl l2 : Event.t) (p1 pd p2 : Payload.t)
         (X S1 P1 S2 P2 : string) (w : World),
    eventTypeOf l1 = "NFTListed" ->
    Event.parsedJson l1 = Some p1 ->
    Payload.nft_id p1 = JString X ->
    Payload.seller p1 = JString S1 ->
    Payload.price p1 = JString P1 ->
    eventTypeOf dl = "NFTDelisted" ->
    Event.parsedJson dl = Some pd ->
    Payload.nft_id pd = JString X ->
    eventTypeOf l2 = "NFTListed" ->
    Event.parsedJson l2 = Some p2 ->
    Payload.nft_id p2 = JString X ->
    Payload.seller p2 = JString S2 ->
    Payload.price p2 = JString P2 ->
    fk_violated env (Some X) (db w) = false ->
    exists t t',
      filter (fun a => sql_eq (Listing.nft_id a) (Some X))
             (listings (db (run (processEvents env [l1; dl; l2]) w)))
      = [Listing.mk (Some X) S2 P2 "active" t (Some t')] /\
      option_map Listing.status
        (getListing X (db (run (processEvents env [l1; dl]) w))) = Some "delisted".
Proof.
  intros env l1 dl l2 p1 pd p2 X S1 P1 S2 P2 w
         H1 Hp1 HX1 HS1 HP1 Hd Hpd HXd H2 Hp2 HX2 HS2 HP2 Hfk.
  rewrite !run_processEvents_cons, !run_processEvents_nil.
  destruct (listed_event_step env l1 p1 X S1 P1 w H1 Hp1 HX1 HS1 HP1 Hfk)
    as (a & a' & N1 & L1).
  set (w1 := run (processEvent env l1) w) in *.
  destruct (delisted_event_step env dl pd X w1 Hd Hpd HXd) as (b & wh & _ & N2 & L2).
  set (w2 := run (processEvent env dl) w1) in *.
  assert (Hfk2 : fk_violated env (Some X) (db w2) = false).
  { unfold fk_violated in *. rewrite N2, N1. exact Hfk. }
  destruct (listed_event_step env l2 p2 X S2 P2 w2 H2 Hp2 HX2 HS2 HP2 Hfk2)
    as (t & t' & _ & L3).
  exists t, t'. split.
  - rewrite L3. apply (count_after_replace Listing.nft_id X); reflexivity.
  - unfold getListing. rewrite L2, L1.
    eapply status_after_update.
    apply (find_replace_same Listing.t Listing.nft_id X); reflexivity.
Qed.

Lemma relisting_replaces_the_row_witness :
  fk_violated sample_env (Some "0xX") (db w0) = false /\
  exists t t',
    filter (fun a => sql_eq (Listing.nft_id a) (Some "0xX"))
           (listings (db (run (processEvents sample_env [ev_list; ev_delist; ev_relist]) w0)))
    = [Listing.mk (Some "0xX") "0xA" "250" "active" t (Some t')].
Proof.
  split; [reflexivity|].
  destruct (relisting_replaces_the_row sample_env ev_list ev_delist ev_relist _ _ _
              "0xX" "0xA" "100" "0xA" "250" w0
              eq_refl eq_refl eq_refl eq_refl eq_refl eq_refl eq_refl eq_refl
              eq_refl eq_refl eq_refl eq_refl eq_refl eq_refl) as (t & t' & H & _).
  exists t, t'; exact H.
Defined.

(** ** A purchase and the entity row *)

(** X7.  A Purchased event for [X] naming buyer [B] changes the owner and
    nothing else of the entity: the row of [X] keeps its name, description,
    image, creator and creation time; every other entity reads as before;
    and afterwards the rows [getNFTsByOwner] returns for an owner contain
    [X] only if that owner is [B]. *)
Theorem purchase_changes_only_the_owner :
  forall (env : Env) (e : Event.t) (p : Payload.t) (X B : string) (r : Nft.t) (w : World),
    eventTypeOf e = "NFTPurchased" ->
    Event.parsedJson e = Some p ->
    Payload.nft_id p = JString X ->
    Payload.buyer p = JString B ->
    getNFT X (db w) = Some r ->
    (exists t,
        getNFT X (db (run (processEvent env e) w)) =
        Some (Nft.mk (Nft.id r) (Nft.name r) (Nft.description r) (Nft.image_url r)
                     (Nft.creator r) B (Nft.created_at r) (Some t))) /\
    (forall Y, Y <> X ->
               getNFT Y (db (run (processEvent env e) w)) = getNFT Y (db w)) /\
    (forall O r',
        In r' (getNFTsByOwner O (db (run (processEvent env e) w))) ->
        Nft.id r' = Some X -> O = B) /\
    (exists r', In r' (getNFTsByOwner B (db (run (processEvent env e) w))) /\
                Nft.id r' = Some X).
Proof.
  intros env e p X B r w Hty Hp HX HB Hget.
  destruct (purchased_event_step env e p X B w Hty Hp HX HB) as (t & t' & _ & Pn).
  assert (Hk : sql_eq (Nft.id r) (Some X) = true).
  { unfold getNFT in Hget. apply find_some in Hget; tauto. }
  assert (Hrow : getNFT X (db (run (processEvent env e) w)) =
                 Some (Nft.mk (Nft.id r) (Nft.name r) (Nft.description r) (Nft.image_url r)
                              (Nft.creator r) B (Nft.created_at r) (Some t'))).
  { unfold getNFT in *. rewrite Pn.
    rewrite (find_map_keep Nft.t Nft.id X _ _ (set_owner_id (Some X) B t')), Hget.
    cbn. unfold set_owner. rewrite Hk. reflexivity. }
  split; [exists t'; exact Hrow|]. split; [|split].
  - intros Y HY. unfold getNFT. rewrite Pn.
    rewrite (find_map_keep Nft.t Nft.id Y _ _ (set_owner_id (Some X) B t')).
    destruct (find _ (nfts (db w))) as [a|] eqn:F; [|reflexivity].
    apply find_some in F; destruct F as [_ F].
    apply sql_eq_true in F; destruct F as (y & Ha & Hy); injection Hy as <-.
    cbn. unfold set_owner. rewrite Ha; cbn.
    destruct (Y =? X) eqn:E; [apply String.eqb_eq in E; congruence | reflexivity].
  - intros O r' Hin Hid. unfold getNFTsByOwner in Hin. rewrite Pn in Hin.
    apply filter_In in Hin; destruct Hin as [Hin Ho].
    apply in_map_iff in Hin; destruct Hin as (a & <- & _).
    rewrite set_owner_id in Hid. unfold set_owner in Ho.
    rewrite Hid, sql_eq_refl in Ho. cbn in Ho.
    apply String.eqb_eq in Ho; congruence.
  - unfold getNFT in Hrow. apply find_some in Hrow; destruct Hrow as [Hin _].
    eexists; split.
    + unfold getNFTsByOwner. apply filter_In; split; [exact Hin|].
      cbn. apply String.eqb_refl.
    + cbn. apply sql_eq_true in Hk. destruct Hk as (x & Hx & Hx').
      congruence.
Qed.

Lemma purchase_changes_only_the_owner_witness :
  option_map Nft.name (getNFT "0xX" (db w_listed)) = Some "Sunrise" /\
  exists t,
    getNFT "0xX" (db (run (processEvent sample_env ev_buy) w_listed)) =
    Some (Nft.mk (Some "0xX") "Sunrise" (Some "A sunrise") (Some "https://img/1")
                 "0xA" "0xB" 1700000000001 (Some t)).
Proof.
  split; [reflexivity|].
  destruct (purchase_changes_only_the_owner sample_env ev_buy _ "0xX" "0xB" _ w_listed
              eq_refl eq_refl eq_refl eq_refl eq_refl) as ((t & H) & _).
  exists t; exact H.
Defined.

(** ** The queries *)

Lemma In_insert_by {A : Type} (key : A -> Z) (r x : A) (l : list A) :
  In x (insert_by key r l) <-> x = r \/ In x l.
Proof.
  induction l as [|a l IH]; cbn.
  - intuition congruence.
  - destruct (key r <? key a)%Z; cbn; [rewrite IH|]; intuition congruence.
Qed.

Lemma In_sort_desc {A : Type} (key : A -> Z) (x : A) (l : list A) :
  In x (sort_desc key l) <-> In x l.
Proof.
  unfold sort_desc. induction l as [|a l IH]; cbn; [reflexivity|].
  rewrite In_insert_by, IH. intuition congruence.
Qed.

Lemma length_insert_by {A : Type} (key : A -> Z) (r : A) (l : list A) :
  List.length (insert_by key r l) = S (List.length l).
Proof.
  induction l as [|a l IH]; cbn; [reflexivity|].
  destruct (key r <? key a)%Z; cbn; [rewrite IH|]; reflexivity.
Qed.

Lemma length_sort_desc {A : Type} (key : A -> Z) (l : list A) :
  List.length (sort_desc key l) = List.length l.
Proof.
  unfold sort_desc. induction l as [|a l IH]; cbn; [reflexivity|].
  rewrite length_insert_by, IH; reflexivity.
Qed.

Lemma insert_by_descending {A : Type} (key : A -> Z) (r : A) (l : list A) :
  descending key l -> descending key (insert_by key r l).
Proof.
  unfold descending. induction l as [|a l IH]; cbn; intros H.
  - constructor; [constructor | constructor].
  - inversion H as [|? ? Hl Ha]; subst.
    destruct (key r <? key a)%Z eqn:E.
    + apply Z.ltb_lt in E. constructor; [apply IH; exact Hl|].
      apply Forall_forall. intros x Hx. apply In_insert_by in Hx.
      destruct Hx as [->|Hx]; [lia|]. rewrite Forall_forall in Ha. apply Ha; exact Hx.
    + apply Z.ltb_ge in E. constructor; [exact H|].
      constructor; [exact E|].
      rewrite Forall_forall in *. intros x Hx. specialize (Ha x Hx). lia.
Qed.

Lemma sort_desc_descending {A : Type} (key : A -> Z) (l : list A) :
  descending key (sort_desc key l).
Proof.
  unfold sort_desc. induction l as [|a l IH]; cbn.
  - constructor.
  - apply insert_by_descending; exact IH.
Qed.

Lemma order_by_listed_at_desc_sort (l : list ListingView.t) :
  order_by_listed_at_desc l = sort_desc ListingView.listed_at l.
Proof.
  unfold order_by_listed_at_desc, sort_desc.
  induction l as [|a l IH]; cbn; [reflexivity|]. rewrite IH.
  generalize (fold_right (insert_by ListingView.listed_at) [] l) as s.
  induction s as [|x s IHs]; cbn; [reflexivity|]. rewrite IHs; reflexivity.
Qed.

(** X8.  What [getListings] returns.  A row is in the result exactly when
    it joins a listing with an entity of the same id and, when a (truthy)
    status is given, the listing has that status; a falsy status, the empty
    string included, selects the listings of every status.  The result is
    ordered by [listed_at], latest first. *)
Theorem getListings_returns_the_join :
  forall (status : JsVal) (d : DB),
    (forall v,
        In v (getListings status d) <->
        exists l n,
          In l (listings d) /\ In n (nfts d) /\
          sql_eq (Listing.nft_id l) (Nft.id n) = true /\
          (truthy status = true -> status = JString (Listing.status l)) /\
          v = view l n) /\
    descending ListingView.listed_at (getListings status d).
Proof.
  intros status d. split.
  - intros v. unfold getListings.
    destruct (truthy status) eqn:Ht; rewrite In_order_by.
    + rewrite filter_In, In_join_listings. split.
      * intros ((l & n & Hl & Hn & Hk & ->) & Hs). exists l, n.
        repeat split; try assumption. intros _.
        destruct status as [| |s]; try discriminate. cbn in Hs.
        apply String.eqb_eq in Hs. congruence.
      * intros (l & n & Hl & Hn & Hk & Hs & ->). split; [exists l, n; auto|].
        rewrite (Hs eq_refl). cbn. apply String.eqb_refl.
    + rewrite In_join_listings. split.
      * intros (l & n & Hl & Hn & Hk & ->). exists l, n. repeat split; try assumption.
        discriminate.
      * intros (l & n & Hl & Hn & Hk & _ & ->). exists l, n; auto.
  - unfold getListings. destruct (truthy status);
      rewrite order_by_listed_at_desc_sort; apply sort_desc_descending.
Qed.

Lemma In_skipn_In {A : Type} (k : nat) (l : list A) (y : A) :
  In y (skipn k l) -> In y l.
Proof.
  intros H. rewrite <- (firstn_skipn k l). apply in_or_app; right; exact H.
Qed.

Lemma In_firstn_In {A : Type} (k : nat) (l : list A) (y : A) :
  In y (firstn k l) -> In y l.
Proof.
  intros H. rewrite <- (firstn_skipn k l). apply in_or_app; left; exact H.
Qed.

Lemma firstn_skipn_descending {A : Type} (key : A -> Z) (k : nat) (l : list A) :
  descending key l ->
  forall x y, In x (firstn k l) -> In y (skipn k l) -> (key y <= key x)%Z.
Proof.
  unfold descending. revert l; induction k as [|k IH]; intros l H x y Hx Hy.
  - destruct Hx.
  - destruct l as [|a l]; [destruct Hx|]. cbn in Hx, Hy.
    inversion H as [|? ? Hl Ha]; subst.
    destruct Hx as [<-|Hx].
    + rewrite Forall_forall in Ha. apply Ha. apply (In_skipn_In _ _ _ Hy).
    + apply (IH l Hl x y Hx Hy).
Qed.

Lemma getTransactions_descending (limit : Z) (d : DB) :
  descending Tx.timestamp (getTransactions limit d).
Proof.
  pose proof (sort_desc_descending Tx.timestamp (transactions d)) as Hs.
  unfold getTransactions, sql_limit.
  destruct (limit <? 0)%Z; [exact Hs|].
  unfold descending in *. rewrite <- (firstn_skipn (Z.to_nat limit)) in Hs.
  revert Hs.
  generalize (firstn (Z.to_nat limit) (sort_desc Tx.timestamp (transactions d))) as a.
  generalize (skipn (Z.to_nat limit) (sort_desc Tx.timestamp (transactions d))) as b.
  intros b a; induction a as [|x a IH]; cbn; intros H; [constructor|].
  inversion H as [|? ? Hl Hx]; subst. constructor; [apply IH; exact Hl|].
  apply Forall_app in Hx; tauto.
Qed.

Lemma getTransactions_In (limit : Z) (d : DB) (x : Tx.t) :
  In x (getTransactions limit d) -> In x (transactions d).
Proof.
  unfold getTransactions, sql_limit. intros Hx. apply (In_sort_desc Tx.timestamp).
  destruct (limit <? 0)%Z; [exact Hx | apply (In_firstn_In _ _ _ Hx) ].
Qed.

Lemma getTransactions_length (limit : Z) (d : DB) :
  List.length (getTransactions limit d) =
  (if (limit <? 0)%Z then List.length (transactions d)
   else Nat.min (Z.to_nat limit) (List.length (transactions d))).
Proof.
  unfold getTransactions, sql_limit.
  destruct (limit <? 0)%Z; [apply length_sort_desc|].
  rewrite length_firstn, length_sort_desc; reflexivity.
Qed.

(** X9.  What [getTransactions(limit)] returns for a limit within 64 bits:
    rows of the table, latest first; as many as the table has when the
    limit is negative (SQLite reads a negative [LIMIT] as no limit),
    otherwise at most [limit] of them; and no row left out is later than a
    row returned.
    [getTransactionsByNFT] returns, latest first, exactly the rows that name
    the entity. *)
Theorem getTransactions_returns_the_latest :
  forall (limit : Z) (d : DB),
    in_int64 limit = true ->
    descending Tx.timestamp (getTransactions limit d) /\
    (forall x, In x (getTransactions limit d) -> In x (transactions d)) /\
    List.length (getTransactions limit d) =
    (if (limit <? 0)%Z then List.length (transactions d)
     else Nat.min (Z.to_nat limit) (List.length (transactions d))) /\
    (forall x y,
        In x (getTransactions limit d) -> In y (transactions d) ->
        ~ In y (getTransactions limit d) ->
        (Tx.timestamp y <= Tx.timestamp x)%Z) /\
    (forall X,
        descending Tx.timestamp (getTransactionsByNFT X d) /\
        forall x, In x (getTransactionsByNFT X d) <->
                  In x (transactions d) /\ Tx.nft_id x = Some X).
Proof.
  intros limit d _.
  pose proof (sort_desc_descending Tx.timestamp (transactions d)) as Hs.
  unfold getTransactions, sql_limit.
  split; [|split; [|split; [|split]]].
  - apply (getTransactions_descending limit d).
  - apply (getTransactions_In limit d).
  - apply (getTransactions_length limit d).
  - intros x y Hx Hy Hny.
    apply (In_sort_desc Tx.timestamp) in Hy.
    destruct (limit <? 0)%Z; [contradiction|].
    rewrite <- (firstn_skipn (Z.to_nat limit)) in Hy.
    apply in_app_or in Hy; destruct Hy as [Hy|Hy]; [contradiction|].
    apply (firstn_skipn_descending Tx.timestamp (Z.to_nat limit) _ Hs x y Hx Hy).
  - intros X. unfold getTransactionsByNFT. split; [apply sort_desc_descending|].
    intros x. rewrite In_sort_desc, filter_In. split.
    + intros [Hin Hk]. split; [exact Hin|].
      apply sql_eq_true in Hk. destruct Hk as (y & Hy & Hy'). congruence.
    + intros [Hin Hk]. split; [exact Hin|]. rewrite Hk; apply sql_eq_refl.
Qed.

Lemma getTransactions_returns_the_latest_witness :
  in_int64 1 = true /\
  List.length
    (getTransactions 1 (db (run (processEvents sample_env [ev_buy; ev_delist]) w_listed)))
  = 1%nat.
Proof.
  split; [reflexivity|].
  exact (proj1 (proj2 (proj2 (getTransactions_returns_the_latest 1
           (db (run (processEvents sample_env [ev_buy; ev_delist]) w_listed)) eq_refl)))).
Defined.

(** ** The cursor row *)

Lemma poll_state (env : Env) (this : IndexerService) (n : nat) (w : World) :
  indexer_state (db (run (poll env this n) w)) = indexer_state (db w).
Proof.
  revert w; induction n as [|n IH]; intros w; [reflexivity|].
  unfold run; cbn [poll]. destruct (isRunning w); [|reflexivity].
  unfold bind at 1.
  destruct (poll_cycle_run env this w) as (w1 & w' & E1 & E & D & _).
  rewrite E. fold (run (poll env this n) w'). rewrite IH, D.
  destruct (queryAllEvents env (ticks w)) as [es|] eqn:Hq.
  - destruct (indexEvents_fetched env es w Hq) as (w1' & E1' & D1 & _).
    rewrite E1 in E1'; injection E1' as <-. rewrite D1.
    assert (G : forall l v, indexer_state (db (run (processEvents env l) v))
                            = indexer_state (db v)).
    { induction l as [|e l IHl]; intros v; [reflexivity|].
      rewrite run_processEvents_cons, IHl. apply (processEvent_state env e v). }
    rewrite G. destruct es; reflexivity.
  - rewrite (indexEvents_rejected env w Hq) in E1. injection E1 as <-. reflexivity.
Qed.

(** X10.  The indexer never advances its cursor: no batch of events and no
    number of turns of the loop changes the row of [indexer_state], which
    after [initTables] still reads checkpoint ["0"] and sequence ["0"]; the
    only writer of the row, [updateIndexerState], is called by nothing. *)
Theorem cursor_is_never_advanced :
  forall (env : Env) (this : IndexerService) (es : list Event.t) (n : nat) (w : World),
    getIndexerState (db (run (processEvents env es) w)) = getIndexerState (db w) /\
    getIndexerState (db (run (poll env this n) w)) = getIndexerState (db w) /\
    (getIndexerState (db w) = None ->
     exists t,
       getIndexerState (db (run (poll env this n) (run (initTables env) w))) =
       Some (IndexerState.mk (Some "0") (Some "0") t)).
Proof.
  intros env this es n w. unfold getIndexerState. split; [|split].
  - revert w; induction es as [|e es IH]; intros w; [reflexivity|].
    rewrite run_processEvents_cons, IH. apply (processEvent_state env e w).
  - apply poll_state.
  - intros Hnone. rewrite poll_state. exists (now env (ticks w)).
    unfold run, initTables, bind, Date_now, modify_db, console_log, emit; cbn.
    rewrite Hnone. reflexivity.
Qed.

(** X11.  The cursor primitives.  [initTables] inserts the cursor row only
    when it is missing and touches no other table, so running it again
    changes nothing; [updateIndexerState] followed by [getIndexerState]
    returns the checkpoint and sequence just written when the row exists,
    and writes nothing when it does not. *)
Theorem cursor_row_primitives :
  forall (env : Env) (c s : string) (w : World),
    db (run (initTables env) (run (initTables env) w)) = db (run (initTables env) w) /\
    nfts (db (run (initTables env) w)) = nfts (db w) /\
    listings (db (run (initTables env) w)) = listings (db w) /\
    transactions (db (run (initTables env) w)) = transactions (db w) /\
    (exists t,
        getIndexerState
          (db (run (updateIndexerState env (JString c) (JString s))
                 (run (initTables env) w)))
        = Some (IndexerState.mk (Some c) (Some s) t)) /\
    (getIndexerState (db w) = None ->
     db (run (updateIndexerState env (JString c) (JString s)) w) = db w).
Proof.
  intros env c s w.
  unfold run, initTables, updateIndexerState, getIndexerState,
    bind, Date_now, modify_db, console_log, emit, bind_param, ret; cbn.
  destruct (indexer_state (db w)) eqn:E; cbn; rewrite ?E; cbn;
    repeat split; try (eexists; reflexivity); try discriminate.
Qed.

(** ** Statistics *)





(** ** Stopping the loop *)

Lemma poll_stopped (env : Env) (this : IndexerService) (n : nat) (w : World) :
  isRunning w = false -> poll env this n w = (Ok true, w).
Proof. intros H; destruct n; cbn; rewrite H; reflexivity. Qed.

(** X13.  [stop()] takes effect at the next test of the loop.  When the
    host calls it while the loop sleeps, the turn in progress is complete
    (its fetch is made and its events are processed), the loop then ends
    whatever fuel is left, and no further fetch is made; a loop that is not
    running makes no turn at all. *)
Theorem stop_ends_the_loop_after_the_turn :
  forall (env : Env) (this : IndexerService) (n : nat) (w w1 : World),
    isRunning w = true ->
    indexEvents env w = (Ok tt, w1) ->
    stop_requested env (ticks w1) = true ->
    (exists w',
        poll env this (S n) w = (Ok true, w') /\
        isRunning w' = false /\
        db w' = db w1 /\
        schedule (trace w') = schedule (trace w) ++ [FetchEvents; Sleep (pollInterval this)]) /\
    (forall v, isRunning v = false -> poll env this n v = (Ok true, v)).
Proof.
  intros env this n w w1 Hrun E1 Hstop.
  split; [|intros v Hv; apply poll_stopped; exact Hv].
  destruct (poll_cycle_run env this w) as (w1' & w' & E1' & E & D & S & R).
  rewrite E1 in E1'; injection E1' as <-.
  rewrite Hstop, Hrun in R; cbn in R.
  exists w'. cbn [poll]. rewrite Hrun. unfold bind at 1. rewrite E.
  rewrite (poll_stopped env this n w' R). auto.
Qed.

Lemma stop_ends_the_loop_after_the_turn_witness :
  isRunning (run (poll_cycle env_stopping (new_IndexerService (fun _ => None)))
               (set_running w0 true)) = true /\
  schedule
    (trace (snd (poll env_stopping (new_IndexerService (fun _ => None)) 10
                   (set_running w0 true))))
  = cycles (Some 5000%Z) 2.
Proof.
  split; [reflexivity|].
  set (this := new_IndexerService (fun _ => None)).
  set (v := run (poll_cycle env_stopping this) (set_running w0 true)).
  destruct (stop_ends_the_loop_after_the_turn env_stopping this 8 v
              (snd (indexEvents env_stopping v)) eq_refl eq_refl eq_refl)
    as ((w' & E & _ & _ & S) & _).
  change (poll env_stopping this 10 (set_running w0 true))
    with (poll env_stopping this 9 v).
  rewrite E. cbn [snd]. rewrite S. reflexivity.
Defined.

(** ** The foreign key of [listings] *)

Lemma processEvent_thrown (env : Env) (e : Event.t) (w w1 : World) (ex : Exn) :
  dispatch env (eventTypeOf e) e (started e w) = (Throw ex, w1) ->
  processEvent env e w =
  (Ok tt, observe w1 (ConsoleError ("Error processing " ++ eventTypeOf e ++ ":"))).
Proof.
  intros H. unfold processEvent, try_catch, console_log, emit.
  unfold bind at 1. unfold bind at 1. fold (started e w). rewrite H. reflexivity.
Qed.

Lemma handleNFTListed_refused (env : Env) (e : Event.t) (p : Payload.t)
      (X S P : string) (w : World) :
  Event.parsedJson e = Some p ->
  Payload.nft_id p = JString X ->
  Payload.seller p = JString S ->
  Payload.price p = JString P ->
  fk_violated env (Some X) (db w) = true ->
  exists w' ex,
    handleNFTListed env e w = (Throw ex, w') /\ db w' = db w /\ trace w' = trace w.
Proof.
  intros Hp HX HS HP Hv.
  unfold handleNFTListed, payload_of; rewrite Hp.
  change (bind (ret p) ?k) with (k p); cbv beta zeta. rewrite HX, HS, HP.
  change (bind (toString (JString P)) ?k) with (k (JString P)); cbv beta.
  unfold saveListing. unfold bind at 1. unfold bind at 1. rewrite num_or_now_eq.
  cbn [ListingArg.nft_id ListingArg.seller ListingArg.price ListingArg.status
       ListingArg.listed_at].
  destruct (num_truthy (parseInt (Event.timestampMs e))); cbn; rewrite Hv; cbn;
    do 2 eexists; repeat split.
Qed.

(** X14.  Whether a Listed event for an entity the store does not know is
    kept depends on the engine.  Where the foreign key of [listings] is
    enforced the insert is refused: no listing row is written, no
    transaction is recorded, and the error is logged, not raised.  Where it
    is not enforced the listing row is written although no entity row
    matches it. *)
Theorem listing_of_unknown_entity :
  forall (env : Env) (e : Event.t) (p : Payload.t) (X S P : string) (w : World),
    eventTypeOf e = "NFTListed" ->
    Event.parsedJson e = Some p ->
    Payload.nft_id p = JString X ->
    Payload.seller p = JString S ->
    Payload.price p = JString P ->
    getNFT X (db w) = None ->
    result (processEvent env e) w = Ok tt /\
    (foreign_keys env = true ->
     db (run (processEvent env e) w) = db w /\
     exists line,
       trace (run (processEvent env e) w) = trace w ++ [ConsoleLog line;
         ConsoleError "Error processing NFTListed:"]) /\
    (foreign_keys env = false ->
     exists t t',
       getListing X (db (run (processEvent env e) w)) =
       Some (Listing.mk (Some X) S P "active" t (Some t')) /\
       getNFT X (db (run (processEvent env e) w)) = None).
Proof.
  intros env e p X S P w Hty Hp HX HS HP Hnone.
  split; [apply processEvent_returns|]. split.
  - intros Hfk.
    assert (Hv : fk_violated env (Some X) (db w) = true).
    { unfold fk_violated. rewrite Hfk; cbn. unfold getNFT in Hnone.
      destruct (existsb _ (nfts (db w))) eqn:Ex; [|reflexivity].
      apply existsb_exists in Ex. destruct Ex as (r & Hin & Hk).
      pose proof (find_none _ _ Hnone r Hin) as Hf. cbn in Hf. congruence. }
    destruct (handleNFTListed_refused env e p X S P (started e w) Hp HX HS HP Hv)
      as (wh & ex & E & D & T).
    assert (Hd : dispatch env (eventTypeOf e) e (started e w) = (Throw ex, wh)).
    { rewrite Hty; exact E. }
    unfold run. rewrite (processEvent_thrown env e w wh ex Hd). cbn [snd].
    unfold observe; cbn [db trace]. rewrite D, T, Hty. unfold started, observe; cbn [db trace].
    split; [reflexivity | eexists; rewrite <- app_assoc; reflexivity].
  - intros Hfk.
    assert (Hv : fk_violated env (Some X) (db w) = false).
    { unfold fk_violated. rewrite Hfk; reflexivity. }
    destruct (listed_event_step env e p X S P w Hty Hp HX HS HP Hv) as (t & t' & Hn & Hl).
    exists t, t'. unfold getListing, getNFT in *. rewrite Hl, Hn. split; [|exact Hnone].
    apply (find_replace_same Listing.t Listing.nft_id X); reflexivity.
Qed.

Lemma listing_of_unknown_entity_witness :
  getNFT "0xX" (db w0) = None /\
  db (run (processEvent env_rejecting ev_list) w0) = db w0 /\
  option_map Listing.price (getListing "0xX" (db (run (processEvent sample_env ev_list) w0)))
  = Some "100".
Proof.
  split; [reflexivity|].
  destruct (listing_of_unknown_entity env_rejecting ev_list _ "0xX" "0xA" "100" w0
              eq_refl eq_refl eq_refl eq_refl eq_refl eq_refl) as (_ & H & _).
  destruct (listing_of_unknown_entity sample_env ev_list _ "0xX" "0xA" "100" w0
              eq_refl eq_refl eq_refl eq_refl eq_refl eq_refl) as (_ & _ & H').
  split; [exact (proj1 (H eq_refl))|].
  destruct (H' eq_refl) as (t & t' & E & _). rewrite E; reflexivity.
Defined.

(** ** Events without a payload *)

(** X15.  An event without a payload is skipped whole.  Whatever its kind,
    [processEvent] returns, the store is exactly as before (no transaction
    row either, although digest, kind and sender are at hand), nothing
    outside is consulted, and the log shows the error line; for a kind the
    [switch] does not know, the line for the unknown kind comes before
    it. *)
Theorem event_without_payload_is_skipped :
  forall (env : Env) (e : Event.t) (w : World),
    Event.parsedJson e = None ->
    processEvent env e w =
    (Ok tt,
     mkWorld (db w) (isRunning w) (ticks w)
       (trace w ++
        [ConsoleLog ("Processing " ++ eventTypeOf e ++ ":")] ++
        (if recognised (eventTypeOf e) then []
         else [ConsoleLog ("Unknown event type: " ++ eventTypeOf e)]) ++
        [ConsoleError ("Error processing " ++ eventTypeOf e ++ ":")])).
Proof.
  intros env e w Hp.
  destruct (recognised (eventTypeOf e)) eqn:Hr.
  - assert (Hd : dispatch env (eventTypeOf e) e (started e w)
                 = (Throw (TypeError "Cannot read properties of undefined"), started e w)).
    { unfold recognised in Hr. unfold dispatch.
      destruct (eventTypeOf e =? "NFTMinted");
        [unfold handleNFTMinted, payload_of; rewrite Hp; reflexivity|].
      destruct (eventTypeOf e =? "NFTListed");
        [unfold handleNFTListed, payload_of; rewrite Hp; reflexivity|].
      destruct (eventTypeOf e =? "NFTPurchased");
        [unfold handleNFTPurchased, payload_of; rewrite Hp; reflexivity|].
      destruct (eventTypeOf e =? "NFTDelisted");
        [unfold handleNFTDelisted, payload_of; rewrite Hp; reflexivity|].
      discriminate. }
    rewrite (processEvent_thrown env e w _ _ Hd).
    unfold started, observe; cbn [db isRunning ticks trace].
    rewrite <- app_assoc. reflexivity.
  - unfold processEvent, try_catch, console_log, emit.
    unfold bind at 1. unfold bind at 1. fold (started e w).
    rewrite (dispatch_unknown env _ e Hr).
    unfold transaction_of, payload_of. rewrite Hp.
    unfold bind, throw, console_error, emit, started, observe; cbn.
    rewrite <- !app_assoc. reflexivity.
Qed.

Lemma event_without_payload_is_skipped_witness :
  db (run (processEvent sample_env ev_bare) w_listed) = db w_listed.
Proof.
  unfold run.
  rewrite (event_without_payload_is_skipped sample_env ev_bare w_listed eq_refl).
  reflexivity.
Defined.

(** ** [sui.service.ts]: the event queries *)

Section Sorting.

Variable A : Type.
Variable key : A -> JsNum.

Lemma insert_sorted_perm (r : A) (l : list A) :
  Permutation (insert_sorted (compare_by key) r l) (r :: l).
Proof.
  induction l as [|x l IH]; cbn; [apply Permutation_refl|].
  destruct (positive (compare_by key r x)); [|apply Permutation_refl].
  eapply Permutation_trans; [apply perm_skip; exact IH | apply perm_swap].
Qed.

Lemma Array_sort_perm (l : list A) : Permutation (Array_sort (compare_by key) l) l.
Proof.
  unfold Array_sort. induction l as [|x l IH]; cbn; [apply Permutation_refl|].
  eapply Permutation_trans; [apply insert_sorted_perm | apply perm_skip; exact IH].
Qed.

Lemma In_insert_sorted (r x : A) (l : list A) :
  In x (insert_sorted (compare_by key) r l) <-> x = r \/ In x l.
Proof.
  split; intros H.
  - apply (Permutation_in _ (insert_sorted_perm r l)) in H. cbn in H; intuition.
  - apply (Permutation_in _ (Permutation_sym (insert_sorted_perm r l))).
    cbn; intuition.
Qed.

Lemma insert_sorted_sorted (r : A) (l : list A) :
  key r <> None -> Forall (fun a => key a <> None) l ->
  StronglySorted (key_le key) l -> StronglySorted (key_le key) (insert_sorted (compare_by key) r l).
Proof.
  intros Hr Hl Hs. induction l as [|a l IH]; cbn.
  - constructor; constructor.
  - inversion Hs as [|? ? Hs' Ha]; subst.
    inversion Hl as [|? ? Hka Hl']; subst.
    destruct (key r) as [kr|] eqn:Er; [|contradiction].
    destruct (key a) as [ka|] eqn:Ea; [|contradiction].
    unfold compare_by at 1. rewrite Er, Ea; cbn.
    destruct (0 <? kr - ka)%Z eqn:E.
    + apply Z.ltb_lt in E. constructor; [apply IH; assumption|].
      apply Forall_forall. intros x Hx. apply In_insert_sorted in Hx.
      destruct Hx as [->|Hx].
      * exists ka, kr. repeat split; try assumption. lia.
      * rewrite Forall_forall in Ha. apply Ha; exact Hx.
    + apply Z.ltb_ge in E. constructor; [exact Hs|].
      constructor.
      * exists kr, ka. repeat split; try assumption. lia.
      * rewrite Forall_forall in *. intros x Hx.
        destruct (Ha x Hx) as (u & v & Hu & Hv & Huv).
        rewrite Ea in Hu; injection Hu as <-.
        exists kr, v. repeat split; try assumption. lia.
Qed.

Lemma Array_sort_sorted (l : list A) :
  Forall (fun a => key a <> None) l -> StronglySorted (key_le key) (Array_sort (compare_by key) l).
Proof.
  unfold Array_sort. induction l as [|a l IH]; cbn; intros H; [constructor|].
  inversion H as [|? ? Ha Hl]; subst.
  apply insert_sorted_sorted; [exact Ha | | apply IH; exact Hl].
  apply Forall_forall. intros x Hx.
  apply (Permutation_in _ (Array_sort_perm l)) in Hx.
  rewrite Forall_forall in Hl. apply Hl; exact Hx.
Qed.

Lemma filter_insert_sorted (z : Z) (r : A) (l : list A) :
  filter (key_is key z) (insert_sorted (compare_by key) r l) = filter (key_is key z) (r :: l).
Proof.
  induction l as [|a l IH]; [reflexivity|].
  cbn [insert_sorted]. destruct (positive (compare_by key r a)) eqn:E; [|reflexivity].
  cbn [filter] in *. rewrite IH.
  unfold compare_by, js_sub, positive in E. unfold key_is.
  destruct (key r) as [kr|]; [|discriminate].
  destruct (key a) as [ka|]; [|discriminate].
  apply Z.ltb_lt in E.
  destruct (kr =? z)%Z eqn:Er; [|reflexivity].
  apply Z.eqb_eq in Er.
  destruct (ka =? z)%Z eqn:Ea; [apply Z.eqb_eq in Ea; lia | reflexivity].
Qed.

Lemma filter_Array_sort (z : Z) (l : list A) :
  filter (key_is key z) (Array_sort (compare_by key) l) = filter (key_is key z) l.
Proof.
  unfold Array_sort. induction l as [|a l IH]; [reflexivity|].
  cbn [fold_right]. rewrite filter_insert_sorted. cbn [filter]. rewrite IH. reflexivity.
Qed.

End Sorting.

Lemma read_digits_acc (radix : Z) (s : string) (a : Z) :
  read_digits radix s (Some a) <> None.
Proof.
  revert a; induction s as [|c s IH]; intros a; cbn; [discriminate|].
  destruct (digit_value c) as [d|]; [|discriminate].
  destruct (d <? radix)%Z; [apply IH | discriminate].
Qed.

Lemma dated_timestamp (e : Event.t) : dated e = true -> timestamp e <> None.
Proof.
  unfold dated, timestamp, Number_.
  destruct (Event.timestampMs e) as [| |s]; try discriminate.
  destruct (s =? "") eqn:Es; [discriminate|]. cbn. intros H; rewrite H.
  destruct s as [|c s]; [discriminate Es|].
  cbn in H |- *. apply andb_prop in H; destruct H as [Hc _].
  unfold is_digit in Hc. unfold digit_value. rewrite Hc.
  apply andb_prop in Hc; destruct Hc as [H1 H2].
  apply Nat.leb_le in H1, H2.
  assert (Hd : (Z.of_nat (nat_of_ascii c - 48) <? 10)%Z = true) by (apply Z.ltb_lt; lia).
  rewrite Hd. apply read_digits_acc.
Qed.

(** X16.  The events of a fetch are merged in time order.  When the four
    queries answer and every event is dated in decimal digits,
    [getAllMarketplaceEvents] returns the events of the four pages, each
    once, earliest first; events of one timestamp come in the order Minted,
    Listed, Purchased, Delisted, and within a kind in the order of the
    page. *)
Theorem events_are_merged_in_time_order :
  forall (queryEvents : nat -> string -> JsVal -> option Page.t) (packageId : string)
         (t : nat) (m l p d : list Event.t),
    pages queryEvents packageId t =
    [Some (Page.mk m); Some (Page.mk l); Some (Page.mk p); Some (Page.mk d)] ->
    Forall (fun e => dated e = true) (m ++ l ++ p ++ d) ->
    exists es,
      SuiService.getAllMarketplaceEvents queryEvents packageId t JUndefined = Some es /\
      Permutation es (m ++ l ++ p ++ d) /\
      ascending es /\
      forall z, filter (key_is timestamp z) es =
                filter (key_is timestamp z) (m ++ l ++ p ++ d).
Proof.
  intros queryEvents packageId t m l p d Hpages Hdated.
  unfold pages, SuiService.eventTypes in Hpages; cbn [map] in Hpages.
  injection Hpages as Hm Hl Hp Hd.
  exists (Array_sort (compare_by timestamp) (m ++ l ++ p ++ d)).
  split; [|split; [|split]].
  - unfold SuiService.getAllMarketplaceEvents, SuiService.eventTypes.
    cbn [SuiService.collect]. rewrite Hm, Hl, Hp, Hd. cbn [Page.data app].
    rewrite <- !app_assoc. reflexivity.
  - apply Array_sort_perm.
  - apply Array_sort_sorted.
    eapply Forall_impl; [|exact Hdated]. intros e; apply dated_timestamp.
  - intros z. apply filter_Array_sort.
Qed.

Lemma events_are_merged_in_time_order_witness :
  exists es,
    SuiService.getAllMarketplaceEvents sample_queryEvents "0xpkg" 0 JUndefined = Some es /\
    Permutation es ([ev_mint] ++ [ev_list_T] ++ [] ++ [ev_delist]).
Proof.
  destruct (events_are_merged_in_time_order sample_queryEvents "0xpkg" 0
              [ev_mint] [ev_list_T] [] [ev_delist] eq_refl) as (es & E & P & _).
  - repeat constructor.
  - exists es; split; [exact E | exact P].
Defined.

(** X17.  One rejected query discards the batch.  [getAllMarketplaceEvents]
    rejects exactly when one of its four queries does; the indexer then
    processes none of the events the other queries returned: the store is as
    before, and the cycle logs the error and returns. *)
Theorem a_rejected_query_discards_the_batch :
  forall (queryEvents : nat -> string -> JsVal -> option Page.t) (packageId : string)
         (env : Env) (w : World),
    (SuiService.getAllMarketplaceEvents queryEvents packageId (ticks w) JUndefined = None
     <-> In None (pages queryEvents packageId (ticks w))) /\
    (In None (pages queryEvents packageId (ticks w)) ->
     indexEvents (SuiService.node queryEvents packageId env) w =
     (Ok tt, observe (tick (observe w FetchEvents)) (ConsoleError "Error indexing events:"))).
Proof.
  intros queryEvents packageId env w.
  assert (H : SuiService.getAllMarketplaceEvents queryEvents packageId (ticks w) JUndefined
              = None <-> In None (pages queryEvents packageId (ticks w))).
  { unfold SuiService.getAllMarketplaceEvents, pages, SuiService.eventTypes.
    cbn [SuiService.collect map].
    destruct (SuiService.getEvents queryEvents packageId (ticks w) "NFTMinted" JUndefined);
      [|cbn; intuition].
    destruct (SuiService.getEvents queryEvents packageId (ticks w) "NFTListed" JUndefined);
      [|cbn; intuition].
    destruct (SuiService.getEvents queryEvents packageId (ticks w) "NFTPurchased" JUndefined);
      [|cbn; intuition].
    destruct (SuiService.getEvents queryEvents packageId (ticks w) "NFTDelisted" JUndefined);
      [|cbn; intuition].
    cbn. split; [discriminate|]. intros [G|[G|[G|[G|[]]]]]; discriminate. }
  split; [exact H|]. intros Hin.
  apply indexEvents_rejected. cbn [queryAllEvents SuiService.node].
  apply H; exact Hin.
Qed.

Lemma a_rejected_query_discards_the_batch_witness :
  db (snd (indexEvents (SuiService.node failing_queryEvents "0xpkg" sample_env) w_listed))
  = db w_listed.
Proof.
  rewrite (proj2 (a_rejected_query_discards_the_batch failing_queryEvents "0xpkg"
                    sample_env w_listed)).
  - reflexivity.
  - right; right; left; reflexivity.
Defined.



(** ** [marketplace.controller.ts] *)

Section ControllerFacts.

Variable env : Env.
Variable signAndExecuteTransaction : nat -> string -> list JsVal -> Res TxResult.t.
Variable packageId : string.
Variable marketplaceId : string.
Variable address : string.
Variable toFixed4 : JsNum -> string.

Lemma truthy_string (v : JsVal) :
  truthy v = true -> exists s, v = JString s /\ s <> "".
Proof.
  destruct v as [| |s]; try discriminate. cbn. intros H. exists s; split; [reflexivity|].
  intros ->. discriminate.
Qed.

Lemma buyNFT_missing (body : BuyRequest.t) (w : World) :
  truthy (BuyRequest.nftId body) && truthy (BuyRequest.coinId body) = false ->
  Controller.buyNFT env signAndExecuteTransaction packageId marketplaceId address toFixed4
    body w
  = (Ok (Failure 400 "Missing required fields: nftId, coinId"), w).
Proof.
  intros H. unfold Controller.buyNFT, try_catch.
  rewrite <- negb_andb, H. reflexivity.
Qed.

Lemma buyNFT_present (body : BuyRequest.t) (X : string) (w : World) :
  BuyRequest.nftId body = JString X ->
  truthy (BuyRequest.nftId body) && truthy (BuyRequest.coinId body) = true ->
  Controller.buyNFT env signAndExecuteTransaction packageId marketplaceId address toFixed4
    body w
  = match getListing X (db w) with
    | None => (Ok (Failure 404 "NFT not listed for sale"), w)
    | Some listing =>
        if Listing.status listing =? "active"
        then
          let w1 := observe w (ConsoleLog ("💰 Buying NFT: " ++ X)) in
          match signAndExecuteTransaction (ticks w)
                  (packageId ++ "::marketplace::buy_nft")
                  [JString marketplaceId; JString X; BuyRequest.coinId body] with
          | Ok result =>
              match (updateListingStatus env (JString X) (JString "sold") ;;
                     updateNFTOwner env (JString X) (JString address))%M (tick w1) with
              | (_, w2) =>
                  (Ok (Success (BuyData.mk (JString X) (TxResult.digest result)
                                  (Listing.price listing)
                                  (Controller.price_sui toFixed4 (Listing.price listing)))),
                   w2)
              end
          | Throw ex =>
              (Ok (Failure 500 (message ex)),
               observe (tick w1) (ConsoleError "Error buying NFT:"))
          end
        else (Ok (Failure 400 "NFT is not available for purchase"), w)
    end.
Proof.
  intros HX H. unfold Controller.buyNFT, try_catch.
  rewrite <- negb_andb, H. cbn [negb]. rewrite HX. cbn [js_string].
  unfold bind at 1, get_db at 1.
  destruct (getListing X (db w)) as [l|]; [|reflexivity].
  destruct (Listing.status l =? "active"); [|reflexivity]. cbn [negb].
  unfold bind at 1, console_log at 1, emit at 1.
  unfold bind at 1, SuiService.buyNFT at 1, SuiService.moveCall at 1.
  cbn [ticks observe].
  destruct (signAndExecuteTransaction (ticks w) _ _) as [res|ex]; [|reflexivity].
  unfold updateListingStatus, updateNFTOwner; cbn. reflexivity.
Qed.

Lemma mintNFT_missing (body : MintRequest.t) (w : World) :
  truthy (MintRequest.name body) && truthy (MintRequest.description body) &&
  truthy (MintRequest.imageUrl body) = false ->
  Controller.mintNFT env signAndExecuteTransaction packageId address body w
  = (Ok (Failure 400 "Missing required fields: name, description, imageUrl"), w).
Proof.
  intros H. unfold Controller.mintNFT, try_catch.
  destruct (truthy (MintRequest.name body)), (truthy (MintRequest.description body)),
    (truthy (MintRequest.imageUrl body)); try discriminate; reflexivity.
Qed.

Lemma mintNFT_present (body : MintRequest.t) (w : World) :
  truthy (MintRequest.name body) && truthy (MintRequest.description body) &&
  truthy (MintRequest.imageUrl body) = true ->
  Controller.mintNFT env signAndExecuteTransaction packageId address body w
  = let w1 := tick (observe w (ConsoleLog ("🎨 Minting NFT: "
                                             ++ js_string (MintRequest.name body)))) in
    let failed (m : string) (v : World) : Res (Reply MintData.t) * World :=
      (Ok (Failure 500 m), observe v (ConsoleError "Error minting NFT:")) in
    match signAndExecuteTransaction (ticks w) (packageId ++ "::marketplace::mint_nft")
            [MintRequest.name body; MintRequest.description body;
             MintRequest.imageUrl body] with
    | Ok result =>
        match nftObject result with
        | Some obj =>
            match saveNFT env
                    (NftArg.mk (JString (ObjectChange.objectId obj))
                       (MintRequest.name body) (MintRequest.description body)
                       (MintRequest.imageUrl body) (JString address) (JString address)
                       (Some (now env (ticks w1))))
                    (tick w1) with
            | (Ok _, w2) =>
                (Ok (Success (MintData.mk (ObjectChange.objectId obj)
                                (TxResult.digest result) (MintRequest.name body)
                                (MintRequest.description body)
                                (MintRequest.imageUrl body))), w2)
            | (Throw ex, w2) => failed (message ex) w2
            end
        | None => failed "NFT object not found in transaction result" w1
        end
    | Throw ex => failed (message ex) w1
    end.
Proof.
  intros H. unfold Controller.mintNFT, try_catch.
  destruct (truthy (MintRequest.name body)), (truthy (MintRequest.description body)),
    (truthy (MintRequest.imageUrl body)); try discriminate. cbn [negb orb].
  unfold bind at 1, console_log at 1, emit at 1.
  unfold bind at 1, SuiService.mintNFT at 1, SuiService.moveCall at 1.
  cbn [ticks observe]. cbv zeta.
  destruct (signAndExecuteTransaction (ticks w) _ _) as [res|ex]; [|reflexivity].
  destruct (nftObject res) as [obj|]; [|reflexivity].
  unfold bind at 1, Date_now at 1. cbn [ticks tick observe].
  unfold bind at 1.
  destruct (saveNFT env _ _) as [[[]|ex] w2]; reflexivity.
Qed.

End ControllerFacts.

(** X19.  A purchase that is not made changes nothing.  [POST /buy] always
    answers.  Whenever the answer is a failure the store is as before; a
    failure other than 500 leaves no trace at all (no call to the chain, no
    log line); 500 is answered only when the call to the chain was refused,
    and carries its message; and unless the listing of the entity is
    [active], nothing is done. *)
Theorem refused_purchase_changes_nothing :
  forall (env : Env) (signAndExecuteTransaction : nat -> string -> list JsVal -> Res TxResult.t)
         (packageId marketplaceId address : string) (toFixed4 : JsNum -> string)
         (body : BuyRequest.t) (w : World),
    exists reply w',
      Controller.buyNFT env signAndExecuteTransaction packageId marketplaceId address
        toFixed4 body w = (Ok reply, w') /\
      (forall s m, reply = Failure s m -> db w' = db w /\ (s <> 500%Z -> w' = w)) /\
      (forall m, reply = Failure 500 m ->
                 exists ex,
                   signAndExecuteTransaction (ticks w)
                     (packageId ++ "::marketplace::buy_nft")%string
                     [JString marketplaceId; BuyRequest.nftId body; BuyRequest.coinId body]
                   = Throw ex /\ m = message ex) /\
      (option_map Listing.status
         (getListing (js_string (BuyRequest.nftId body)) (db w)) <> Some "active" ->
       w' = w).
Proof.
  intros env sign pkg mkt addr fix4 body w.
  destruct (truthy (BuyRequest.nftId body) && truthy (BuyRequest.coinId body)) eqn:Hb.
  - destruct (truthy_string (BuyRequest.nftId body)) as (X & HX & _).
    { apply andb_prop in Hb; tauto. }
    rewrite (buyNFT_present env sign pkg mkt addr fix4 body X w HX Hb).
    rewrite HX; cbn [js_string].
    destruct (getListing X (db w)) as [l|] eqn:Hl.
    + destruct (Listing.status l =? "active") eqn:Hs.
      * cbv zeta. destruct (sign (ticks w) _ _) as [res|ex] eqn:Hc.
        -- destruct ((updateListingStatus env (JString X) (JString "sold") ;;
                      updateNFTOwner env (JString X) (JString addr))%M _) as [r w2].
           do 2 eexists; split; [reflexivity|].
           split; [intros s m [=]|]. split; [intros m [=]|].
           intros H; exfalso; apply H. cbn. apply String.eqb_eq in Hs. congruence.
        -- do 2 eexists; split; [reflexivity|].
           split; [intros s m [= <- <-]; split; [reflexivity | congruence]|].
           split; [intros m [= <-]; exists ex; split; reflexivity|].
           intros H; exfalso; apply H. cbn. apply String.eqb_eq in Hs. congruence.
      * do 2 eexists; split; [reflexivity|].
        split; [intros s m _; split; reflexivity|].
        split; [intros m [=] | reflexivity].
    + do 2 eexists; split; [reflexivity|].
      split; [intros s m _; split; reflexivity|].
      split; [intros m [=] | reflexivity].
  - rewrite (buyNFT_missing env sign pkg mkt addr fix4 body w Hb).
    do 2 eexists; split; [reflexivity|].
    split; [intros s m _; split; reflexivity|].
    split; [intros m [=] | reflexivity].
Qed.

(** X20.  A purchase that is made.  When the listing of [X] is [active] and
    the chain executes the call, [POST /buy] answers with the digest and the
    listed price, the listing of [X] reads [sold], an entity row of [X] has
    the address of the service as its owner, [X] is no longer among the
    active listings, and the same request made again is refused with 400
    without a second call to the chain. *)
Theorem purchase_marks_the_listing_sold :
  forall (env : Env) (signAndExecuteTransaction : nat -> string -> list JsVal -> Res TxResult.t)
         (packageId marketplaceId address : string) (toFixed4 : JsNum -> string)
         (body : BuyRequest.t) (X : string) (l : Listing.t) (result : TxResult.t)
         (w : World),
    BuyRequest.nftId body = JString X ->
    truthy (BuyRequest.nftId body) && truthy (BuyRequest.coinId body) = true ->
    getListing X (db w) = Some l ->
    Listing.status l = "active" ->
    signAndExecuteTransaction (ticks w) (packageId ++ "::marketplace::buy_nft")%string
      [JString marketplaceId; JString X; BuyRequest.coinId body] = Ok result ->
    exists w',
      Controller.buyNFT env signAndExecuteTransaction packageId marketplaceId address
        toFixed4 body w
      = (Ok (Success (BuyData.mk (JString X) (TxResult.digest result) (Listing.price l)
                        (toFixed4 (parseInt_string (Listing.price l))))), w') /\
      option_map Listing.status (getListing X (db w')) = Some "sold" /\
      (forall r, getNFT X (db w) = Some r ->
                 option_map Nft.owner (getNFT X (db w')) = Some address) /\
      (forall v, In v (getListings (JString "active") (db w')) ->
                 ListingView.nft_id v <> Some X) /\
      Controller.buyNFT env signAndExecuteTransaction packageId marketplaceId address
        toFixed4 body w'
      = (Ok (Failure 400 "NFT is not available for purchase"), w').
Proof.
  intros env sign pkg mkt addr fix4 body X l res w HX Hb Hl Hs Hc.
  rewrite (buyNFT_present env sign pkg mkt addr fix4 body X w HX Hb).
  rewrite Hl, Hs, Hc. cbv zeta. cbn [String.eqb Ascii.eqb Bool.eqb].
  set (w1 := tick (observe w (ConsoleLog ("💰 Buying NFT: " ++ X)))).
  destruct (updateListingStatus_run env X "sold" w1) as (t & wa & Ea & Da).
  destruct (updateNFTOwner_run env X addr wa) as (t' & wb & Eb & Db).
  unfold bind at 1. rewrite Ea, Eb.
  assert (Hlist : listings (db wb) = map (set_status (Some X) "sold" t) (listings (db w))).
  { rewrite Db, Da. reflexivity. }
  assert (Hnfts : nfts (db wb) = map (set_owner (Some X) addr t') (nfts (db w))).
  { rewrite Db, Da. reflexivity. }
  assert (Hsold : option_map Listing.status (getListing X (db wb)) = Some "sold").
  { unfold getListing in *. rewrite Hlist. eapply status_after_update; exact Hl. }
  exists wb. split; [reflexivity|]. split; [exact Hsold|]. split; [|split].
  - intros r Hr. unfold getNFT in *. rewrite Hnfts. eapply owner_after_update; exact Hr.
  - intros v Hv Hid. unfold getListings in Hv. cbn [truthy String.eqb negb] in Hv.
    rewrite In_order_by in Hv. apply filter_In in Hv; destruct Hv as [Hv Hst].
    apply In_join_listings in Hv. destruct Hv as (l' & n & Hl' & _ & _ & ->).
    rewrite Hlist in Hl'. apply in_map_iff in Hl'. destruct Hl' as (a & <- & _).
    cbn in Hid, Hst. rewrite set_status_id in Hid.
    unfold set_status in Hst. rewrite Hid, sql_eq_refl in Hst. cbn in Hst. discriminate.
  - rewrite (buyNFT_present env sign pkg mkt addr fix4 body X wb HX Hb).
    destruct (getListing X (db wb)) as [l2|]; [|discriminate].
    cbn in Hsold. injection Hsold as ->. reflexivity.
Qed.

Lemma purchase_marks_the_listing_sold_witness :
  option_map Listing.status (getListing "0xX" (db w_listed)) = Some "active" /\
  exists w',
    option_map Listing.status (getListing "0xX" (db w')) = Some "sold" /\
    Controller.buyNFT sample_env sample_chain "0xpkg" "0xmarket" "0xservice"
      sample_toFixed4 sample_buy w'
    = (Ok (Failure 400 "NFT is not available for purchase"), w').
Proof.
  split; [reflexivity|].
  destruct (purchase_marks_the_listing_sold sample_env sample_chain "0xpkg" "0xmarket"
              "0xservice" sample_toFixed4 sample_buy "0xX" _ _ w_listed
              eq_refl eq_refl eq_refl eq_refl eq_refl) as (w' & _ & H1 & _ & _ & H2).
  exists w'; split; [exact H1 | exact H2].
Defined.

Lemma truthy_JString (s : string) : s <> "" -> truthy (JString s) = true.
Proof.
  intros H; cbn. destruct (s =? "") eqn:E; [apply String.eqb_eq in E; contradiction|].
  reflexivity.
Qed.

(** X21.  A minted entity can be read back.  When the three fields are
    given, the chain executes the call and its result names a created
    object of the entity type, [POST /mint] answers with the id of that
    object and the digest, and [GET /nft/:id] for that id then returns the
    entity with the name, description and image of the request and the
    address of the service as creator and owner; listings and transactions
    are untouched. *)
Theorem minted_entity_can_be_read_back :
  forall (env : Env) (signAndExecuteTransaction : nat -> string -> list JsVal -> Res TxResult.t)
         (packageId address : string) (N D U : string)
         (result : TxResult.t) (obj : ObjectChange.t) (w : World),
    N <> "" -> D <> "" -> U <> "" ->
    signAndExecuteTransaction (ticks w) (packageId ++ "::marketplace::mint_nft")%string
      [JString N; JString D; JString U] = Ok result ->
    nftObject result = Some obj ->
    exists w' t t',
      Controller.mintNFT env signAndExecuteTransaction packageId address
        (MintRequest.mk (JString N) (JString D) (JString U)) w
      = (Ok (Success (MintData.mk (ObjectChange.objectId obj) (TxResult.digest result)
                        (JString N) (JString D) (JString U))), w') /\
      listings (db w') = listings (db w) /\
      transactions (db w') = transactions (db w) /\
      Controller.getNFT (ObjectChange.objectId obj) w'
      = (Ok (Success (Nft.mk (Some (ObjectChange.objectId obj)) N (Some D) (Some U)
                        address address t (Some t'),
                      getListing (ObjectChange.objectId obj) (db w))), w').
Proof.
  intros env sign pkg addr N D U res obj w HN HD HU Hc Hobj.
  rewrite mintNFT_present
    by (cbn [MintRequest.name MintRequest.description MintRequest.imageUrl];
        rewrite !truthy_JString by assumption; reflexivity).
  cbn [MintRequest.name MintRequest.description MintRequest.imageUrl].
  cbv zeta. rewrite Hc, Hobj.
  match goal with
  | |- context [saveNFT env ?a ?v] =>
      pose proof (saveNFT_run env a v) as H; set (arg := a) in *; set (wx := v) in *
  end.
  change (saveNFT_accepts arg) with true in H. cbv iota in H.
  destruct H as (t' & Hr & Hd). unfold result, run in Hr, Hd.
  destruct (saveNFT env arg wx) as [r w2]. cbn [fst snd] in Hr, Hd. subst r.
  exists w2, (stamp (NftArg.created_at arg) (now env (ticks wx))), t'.
  split; [reflexivity|]. rewrite Hd. split; [reflexivity|]. split; [reflexivity|].
  unfold Controller.getNFT, try_catch, bind, get_db. rewrite Hd.
  rewrite getNFT_saved by reflexivity.
  reflexivity.
Qed.

Lemma minted_entity_can_be_read_back_witness :
  exists w' r,
    Controller.getNFT "0xN" w' = (Ok (Success (r, None)), w') /\
    Nft.name r = "Noon" /\ Nft.owner r = "0xservice".
Proof.
  destruct (minted_entity_can_be_read_back sample_env sample_chain "0xpkg" "0xservice"
              "Noon" "A noon" "https://img/2" _ _ w_listed
              ltac:(discriminate) ltac:(discriminate) ltac:(discriminate)
              eq_refl eq_refl) as (w' & t & t' & _ & _ & _ & H).
  exists w'. eexists. split; [exact H|]. split; reflexivity.
Defined.

(** X22.  A mint that fails saves nothing.  [POST /mint] always answers.
    Whenever the answer is a failure the store is as before, and a failure
    other than 500 leaves no trace at all.  When the chain has executed the
    call but its result names no created object of the entity type, the
    answer is 500 and no entity row is written, although the entity exists
    on the chain. *)
Theorem failed_mint_saves_nothing :
  forall (env : Env) (signAndExecuteTransaction : nat -> string -> list JsVal -> Res TxResult.t)
         (packageId address : string) (body : MintRequest.t) (w : World),
    exists reply w',
      Controller.mintNFT env signAndExecuteTransaction packageId address body w
      = (Ok reply, w') /\
      (forall s m, reply = Failure s m -> db w' = db w /\ (s <> 500%Z -> w' = w)) /\
      (forall result,
          truthy (MintRequest.name body) && truthy (MintRequest.description body) &&
          truthy (MintRequest.imageUrl body) = true ->
          signAndExecuteTransaction (ticks w) (packageId ++ "::marketplace::mint_nft")%string
            [MintRequest.name body; MintRequest.description body;
             MintRequest.imageUrl body] = Ok result ->
          nftObject result = None ->
          reply = Failure 500 "NFT object not found in transaction result").
Proof.
  intros env sign pkg addr body w.
  destruct (truthy (MintRequest.name body) && truthy (MintRequest.description body) &&
            truthy (MintRequest.imageUrl body)) eqn:Hb.
  - rewrite (mintNFT_present env sign pkg addr body w Hb). cbv zeta.
    destruct (sign (ticks w) _ _) as [res|ex] eqn:Hc.
    + destruct (nftObject res) as [obj|] eqn:Hobj.
      * match goal with
        | |- context [saveNFT env ?a ?v] =>
            pose proof (saveNFT_run env a v) as H; set (arg := a) in *; set (wx := v) in *
        end.
        unfold result, run in H. destruct (saveNFT env arg wx) as [[[]|ex] w2].
        -- do 2 eexists; split; [reflexivity|].
           split; [intros s m [=]|]. intros r _ [= <-]. congruence.
        -- cbn [fst snd] in H. destruct (saveNFT_accepts arg).
           ++ destruct H as (t' & Hr & _); discriminate.
           ++ destruct H as (_ & Hd).
              do 2 eexists; split; [reflexivity|].
              split; [intros s m [= <- <-]; split; [exact Hd | congruence]|].
              intros r _ [= <-]. congruence.
      * do 2 eexists; split; [reflexivity|].
        split; [intros s m [= <- <-]; split; [reflexivity | congruence]|].
        intros r _ _ _. reflexivity.
    + do 2 eexists; split; [reflexivity|].
      split; [intros s m [= <- <-]; split; [reflexivity | congruence]|].
      intros r _ [=].
  - rewrite (mintNFT_missing env sign pkg addr body w Hb).
    do 2 eexists; split; [reflexivity|].
    split; [intros s m _; split; reflexivity|].
    intros r [=].
Qed.

(** X23.  [GET /listings] filters by one status.  The handler always
    answers with the listings of a single status: the one asked for, or
    [active] when none, or the empty string, is asked for; so no request
    obtains the listings of every status at once.  Each row carries the
    display price computed from its own price. *)
Theorem listings_endpoint_filters_by_status :
  forall (toFixed4 : JsNum -> string) (status : JsVal) (w : World),
    exists rows,
      Controller.getListings toFixed4 status w = (Ok (Success rows), w) /\
      map fst rows = getListings (JString (or_string status "active")) (db w) /\
      (forall row, In row rows ->
                   ListingView.status (fst row) = or_string status "active" /\
                   snd row = toFixed4 (parseInt_string (ListingView.price (fst row)))).
Proof.
  intros fix4 status w.
  assert (Hor : js_or status (JString "active") = JString (or_string status "active")).
  { destruct status as [| |s]; try reflexivity. unfold js_or; cbn.
    destruct (s =? ""); reflexivity. }
  assert (Ht : truthy (JString (or_string status "active")) = true).
  { destruct status as [| |s]; try reflexivity. cbn.
    destruct (s =? "") eqn:E; [reflexivity | rewrite E; reflexivity]. }
  unfold Controller.getListings, try_catch, bind, get_db, ret. rewrite Hor.
  eexists; split; [reflexivity|]. split.
  - rewrite map_map; cbn [fst]. apply map_id.
  - intros row Hrow. apply in_map_iff in Hrow. destruct Hrow as (v & <- & Hv).
    cbn [fst snd]. split; [|reflexivity].
    unfold getListings in Hv. rewrite Ht in Hv.
    rewrite In_order_by in Hv. apply filter_In in Hv; destruct Hv as [_ Hs].
    cbn in Hs. apply String.eqb_eq in Hs. exact Hs.
Qed.

(** X24.  The limit of [GET /transactions].  For a limit that JavaScript
    holds exactly, the handler answers with transactions of the table,
    latest first: at most 100 when the parameter is missing, is not a
    number or is [0]; every row when it is negative; and at most the given
    number otherwise. *)
Theorem transactions_endpoint_limit :
  forall (limit : JsVal) (w : World),
    safe_integer (parseInt limit) = true ->
    exists rows,
      Controller.getTransactions limit w = (Ok (Success rows), w) /\
      descending Tx.timestamp rows /\
      (forall x, In x rows -> In x (transactions (db w))) /\
      List.length rows =
      match parseInt limit with
      | Some z =>
          if (z <? 0)%Z then List.length (transactions (db w))
          else if (z =? 0)%Z then Nat.min 100 (List.length (transactions (db w)))
               else Nat.min (Z.to_nat z) (List.length (transactions (db w)))
      | None => Nat.min 100 (List.length (transactions (db w)))
      end.
Proof.
  intros limit w _.
  unfold Controller.getTransactions, try_catch, bind, get_db, ret.
  eexists; split; [reflexivity|].
  split; [apply getTransactions_descending|].
  split; [intros x; apply getTransactions_In|].
  rewrite getTransactions_length.
  destruct (parseInt limit) as [z|]; [|reflexivity].
  destruct (z =? 0)%Z eqn:E0.
  - apply Z.eqb_eq in E0; subst z. reflexivity.
  - destruct (z <? 0)%Z; reflexivity.
Qed.

Lemma transactions_endpoint_limit_witness :
  exists rows,
    Controller.getTransactions (JString "-1")
      (run (processEvents sample_env [ev_buy; ev_delist]) w_listed)
    = (Ok (Success rows), run (processEvents sample_env [ev_buy; ev_delist]) w_listed) /\
    List.length rows = 4%nat.
Proof.
  destruct (transactions_endpoint_limit (JString "-1")
              (run (processEvents sample_env [ev_buy; ev_delist]) w_listed) eq_refl)
    as (rows & E & _ & _ & L).
  exists rows; split; [exact E | exact L].
Defined.

Lemma substring_all (s : string) : substring 0 (String.length s) s = s.
Proof. induction s as [|c s IH]; cbn; [reflexivity | rewrite IH; reflexivity]. Qed.

(** X25.  The prefix of the signing key is optional.  A key written with
    the prefix [suiprivkey] and the same key written without it construct
    the same service, or fail alike. *)
Theorem key_prefix_is_optional :
  forall (Keypair : Type)
         (getFullnodeUrl : string -> option string)
         (fromBase64 : string -> option (list Byte.byte))
         (fromSecretKey : list Byte.byte -> option Keypair)
         (toSuiAddress : Keypair -> string)
         (c : Config) (key : string) (w : World),
    key <> "" ->
    prefix "suiprivkey" key = false ->
    new_SuiService Keypair getFullnodeUrl fromBase64 fromSecretKey toSuiAddress
      (with_private_key c ("suiprivkey" ++ key)) w
    = new_SuiService Keypair getFullnodeUrl fromBase64 fromSecretKey toSuiAddress
        (with_private_key c key) w.
Proof.
  intros Keypair getFullnodeUrl fromBase64 fromSecretKey toSuiAddress c key w Hne Hp.
  unfold new_SuiService, with_private_key.
  cbn [SUI_PRIVATE_KEY SUI_NETWORK PACKAGE_ID MARKETPLACE_ID].
  rewrite Hp.
  assert (Hk : (key =? "") = false) by (apply String.eqb_neq; exact Hne).
  rewrite Hk.
  change ("suiprivkey" ++ key =? "") with false.
  change (prefix "suiprivkey" ("suiprivkey" ++ key)) with (prefix "" key).
  assert (Hpre : prefix "" key = true) by (destruct key; reflexivity).
  rewrite Hpre.
  change (substring 10 (String.length ("suiprivkey" ++ key) - 10) ("suiprivkey" ++ key))
    with (substring 0 (String.length key - 0) key).
  rewrite Nat.sub_0_r, substring_all. reflexivity.
Qed.

Lemma key_prefix_is_optional_witness :
  new_SuiService unit sdk_getFullnodeUrl sdk_fromBase64 sdk_fromSecretKey sdk_toSuiAddress
    (with_private_key (load_config penv_empty) "suiprivkeyAAAA") w0
  = new_SuiService unit sdk_getFullnodeUrl sdk_fromBase64 sdk_fromSecretKey sdk_toSuiAddress
      (with_private_key (load_config penv_empty) "AAAA") w0.
Proof.
  apply (key_prefix_is_optional unit sdk_getFullnodeUrl sdk_fromBase64 sdk_fromSecretKey
           sdk_toSuiAddress (load_config penv_empty) "AAAA" w0).
  - discriminate.
  - reflexivity.
Defined.
